(** * Direct to Vet: order lifecycle, payment reconciliation and token vault

    A shallow embedding of the order lifecycle engine (app/tools/orders.py,
    app/tools/payments.py), the Mercado Pago webhook reconciler
    (app/webhooks/mercadopago.py), the OAuth token helpers
    (app/tools/oauth_mp.py), the token stores (app/infra/token_store.py),
    the parts of the spreadsheet layer they use (app/infra/sheets.py), the
    cart tools (app/tools/cart.py) and the OAuth and payment return routes
    of app/main.py.

    Conventions of the embedding.
    - Python [str] is [string], the UTF-8 bytes of the text.  [len] counts
      code points.  [upper], [lower] and [strip] act on the ASCII letters
      and blanks only: they agree with Python on every text whose non-ASCII
      characters are neither cased letters nor blanks.
    - [Decimal] is an exact rational [Q]; the 28-digit context precision and
      the non-finite decimals are not modelled.
    - [datetime] is a number of microseconds from the epoch, [timedelta] a
      difference.  The additions the code performs on data received from
      the payment processor are range-checked as Python does
      ([OverflowError]); the stored expiry dates are taken to lie more than
      five minutes after [datetime.min], so that subtracting the refresh
      margin does not overflow.
    - The module-level dicts ([_carts], the token file, the secrets) are
      [gmap string _]; the idempotency [set] is a duplicate-free list,
      whose [length] is Python's [len]; a result dict is the list of its
      entries.
    - The worksheets are lists of parsed rows, in sheet order.  Transport
      failures of the spreadsheet backend and of the token file are not
      modelled: a read returns the rows, a cell update of an existing row
      succeeds.  The payment processor, Twilio, phonenumbers, the clock and
      [uuid4] are oracles of the environment [Env].
    - Result dicts keep their ["status"] discriminator and data fields; the
      human-readable ["message"] texts are left out. *)

From Stdlib Require Import ZArith QArith Ascii String List Bool Lia DecimalString.
From stdpp Require Import base option gmap strings.
Import ListNotations.

Local Open Scope string_scope.
Local Open Scope list_scope.

(** ** Python built-ins used by the code *)

Module Py.

Inductive value :=
| Str (s : string)
| Bool (b : bool)
| NoneV.

(** A result dict literal, in the order the source writes its keys. *)
Definition dict := list (string * value).

Fixpoint get (k : string) (d : dict) : option value :=
  match d with
  | [] => None
  | (k', v) :: rest => if String.eqb k' k then Some v else get k rest
  end.

(** [d["status"]] of a result dict. *)
Definition status (d : dict) : string :=
  match get "status" d with
  | Some (Str s) => s
  | _ => EmptyString
  end.

Definition is_upper_ascii (c : ascii) : bool :=
  let n := nat_of_ascii c in (65 <=? n)%nat && (n <=? 90)%nat.

Definition is_lower_ascii (c : ascii) : bool :=
  let n := nat_of_ascii c in (97 <=? n)%nat && (n <=? 122)%nat.

Definition upper_char (c : ascii) : ascii :=
  if is_lower_ascii c then ascii_of_nat (nat_of_ascii c - 32) else c.

Definition lower_char (c : ascii) : ascii :=
  if is_upper_ascii c then ascii_of_nat (nat_of_ascii c + 32) else c.

Fixpoint map_chars (f : ascii -> ascii) (s : string) : string :=
  match s with
  | EmptyString => EmptyString
  | String c r => String (f c) (map_chars f r)
  end.

(** [s.upper()] and [s.lower()]. *)
Definition upper : string -> string := map_chars upper_char.
Definition lower : string -> string := map_chars lower_char.

(** Whitespace removed by [str.strip()]: TAB, LF, VT, FF, CR, the
    separators 0x1c-0x1f and the space. *)
Definition is_space (c : ascii) : bool :=
  let n := nat_of_ascii c in
  ((9 <=? n)%nat && (n <=? 13)%nat) || ((28 <=? n)%nat && (n <=? 32)%nat).

Fixpoint lstrip (s : string) : string :=
  match s with
  | EmptyString => EmptyString
  | String c r => if is_space c then lstrip r else s
  end.

Fixpoint rstrip (s : string) : string :=
  match s with
  | EmptyString => EmptyString
  | String c r =>
      match rstrip r with
      | EmptyString => if is_space c then EmptyString else String c EmptyString
      | r' => String c r'
      end
  end.

Definition strip (s : string) : string := rstrip (lstrip s).

(** [s.split(sep)] for a one-character separator. *)
Fixpoint split (sep : ascii) (s : string) : list string :=
  match s with
  | EmptyString => [EmptyString]
  | String c r =>
      if Ascii.eqb c sep then EmptyString :: split sep r
      else match split sep r with
           | h :: t => String c h :: t
           | [] => [String c EmptyString]
           end
  end.

(** [s.startswith(p)]. *)
Definition startswith (p s : string) : bool := String.prefix p s.

(** [len(s)]: the number of code points, that is of the bytes that do not
    continue a multi-byte character. *)
Definition is_continuation_byte (c : ascii) : bool :=
  let n := nat_of_ascii c in (128 <=? n)%nat && (n <=? 191)%nat.

Fixpoint len (s : string) : nat :=
  match s with
  | EmptyString => O
  | String c r => if is_continuation_byte c then len r else S (len r)
  end.

(** Truth value of a string: [not s] holds for the empty string. *)
Definition truthy (s : string) : bool := negb (String.eqb s EmptyString).

(** Truth value of an [Optional[str]]: [None] and the empty string are
    false. *)
Definition truthy_opt (o : option string) : bool :=
  match o with
  | Some s => truthy s
  | None => false
  end.

(** [str(x) or None], as the sheet parser reads an optional cell. *)
Definition or_None (s : string) : option string :=
  if truthy s then Some s else None.

(** [o or EmptyString], as the sheet writer stores an optional field. *)
Definition or_empty (o : option string) : string :=
  match o with
  | Some s => s
  | None => EmptyString
  end.

End Py.

(** ** Enumerations of app/models/schemas.py *)

Module OrderStatus.
Inductive t :=
| CREATED
| PAYMENT_PENDING_MP
| PAYMENT_AT_VET
| PAYMENT_APPROVED
| PAYMENT_REJECTED
| PREPARING
| READY_FOR_PICKUP
| OUT_FOR_DELIVERY
| DELIVERED
| CANCELLED
| COMPLETED
| PAYMENT_PENDING.

Definition eqb (a b : t) : bool :=
  match a, b with
  | CREATED, CREATED | PAYMENT_PENDING_MP, PAYMENT_PENDING_MP
  | PAYMENT_AT_VET, PAYMENT_AT_VET | PAYMENT_APPROVED, PAYMENT_APPROVED
  | PAYMENT_REJECTED, PAYMENT_REJECTED | PREPARING, PREPARING
  | READY_FOR_PICKUP, READY_FOR_PICKUP | OUT_FOR_DELIVERY, OUT_FOR_DELIVERY
  | DELIVERED, DELIVERED | CANCELLED, CANCELLED | COMPLETED, COMPLETED
  | PAYMENT_PENDING, PAYMENT_PENDING => true
  | _, _ => false
  end.

Definition value (s : t) : string :=
  match s with
  | CREATED => "CREATED"
  | PAYMENT_PENDING_MP => "PAYMENT_PENDING_MP"
  | PAYMENT_AT_VET => "PAYMENT_AT_VET"
  | PAYMENT_APPROVED => "PAYMENT_APPROVED"
  | PAYMENT_REJECTED => "PAYMENT_REJECTED"
  | PREPARING => "PREPARING"
  | READY_FOR_PICKUP => "READY_FOR_PICKUP"
  | OUT_FOR_DELIVERY => "OUT_FOR_DELIVERY"
  | DELIVERED => "DELIVERED"
  | CANCELLED => "CANCELLED"
  | COMPLETED => "COMPLETED"
  | PAYMENT_PENDING => "PAYMENT_PENDING"
  end.
End OrderStatus.

Module PaymentMethod.
Inductive t := MERCADOPAGO | AT_VET.

Definition value (m : t) : string :=
  match m with
  | MERCADOPAGO => "MERCADOPAGO"
  | AT_VET => "AT_VET"
  end.
End PaymentMethod.

Module DeliveryMode.
Inductive t := PICKUP | DELIVERY.

(** [DeliveryMode(s)]: [None] stands for the [ValueError]. *)
Definition of_value (s : string) : option t :=
  if String.eqb s "PICKUP" then Some PICKUP
  else if String.eqb s "DELIVERY" then Some DELIVERY
  else None.

Definition value (m : t) : string :=
  match m with
  | PICKUP => "PICKUP"
  | DELIVERY => "DELIVERY"
  end.
End DeliveryMode.

Module MPPaymentStatus.
Inductive t :=
| PENDING
| APPROVED
| AUTHORIZED
| IN_PROCESS
| IN_MEDIATION
| REJECTED
| CANCELLED
| REFUNDED
| CHARGED_BACK.

Definition value (s : t) : string :=
  match s with
  | PENDING => "pending"
  | APPROVED => "approved"
  | AUTHORIZED => "authorized"
  | IN_PROCESS => "in_process"
  | IN_MEDIATION => "in_mediation"
  | REJECTED => "rejected"
  | CANCELLED => "cancelled"
  | REFUNDED => "refunded"
  | CHARGED_BACK => "charged_back"
  end.
End MPPaymentStatus.

Module EventType.
Inductive t :=
| ORDER_CREATED
| ORDER_STATUS_CHANGED
| PAYMENT_RECEIVED
| ORDER_CANCELLED.
End EventType.

(** ** Status maps of app/webhooks/mercadopago.py *)

(** [mapping.get(k, default)] on a dict literal. *)
Fixpoint mapping_get {A : Type} (mapping : list (string * A)) (k : string) (default : A) : A :=
  match mapping with
  | [] => default
  | (k', v) :: rest => if String.eqb k' k then v else mapping_get rest k default
  end.

Definition _map_mp_status_to_order_status (mp_status : string) : OrderStatus.t :=
  let mapping :=
    [ ("approved", OrderStatus.PAYMENT_APPROVED);
      ("pending", OrderStatus.PAYMENT_PENDING_MP);
      ("in_process", OrderStatus.PAYMENT_PENDING_MP);
      ("rejected", OrderStatus.PAYMENT_REJECTED);
      ("cancelled", OrderStatus.CANCELLED);
      ("refunded", OrderStatus.CANCELLED) ] in
  mapping_get mapping mp_status OrderStatus.PAYMENT_PENDING_MP.

Definition _map_mp_status (mp_status : string) : MPPaymentStatus.t :=
  let mapping :=
    [ ("approved", MPPaymentStatus.APPROVED);
      ("pending", MPPaymentStatus.PENDING);
      ("in_process", MPPaymentStatus.IN_PROCESS);
      ("rejected", MPPaymentStatus.REJECTED);
      ("cancelled", MPPaymentStatus.CANCELLED);
      ("refunded", MPPaymentStatus.REFUNDED) ] in
  mapping_get mapping mp_status MPPaymentStatus.PENDING.

(** ** Data model of app/models/schemas.py *)

Module CartItem.
Record t := {
  product_sku : string;
  product_name : string;
  quantity : Z;
  unit_price : Q;
  currency : string;
}.

(** The [subtotal] property: [unit_price * quantity]. *)
Definition subtotal (i : t) : Q := (unit_price i * inject_Z (quantity i))%Q.

(** The field constraints [quantity >= 1] and [unit_price >= 0], checked
    whenever the cart tools build a [CartItem]. *)
Definition valid (i : t) : bool := (1 <=? quantity i)%Z && Qle_bool 0%Q (unit_price i).
End CartItem.

Module CartSummary.
Record t := {
  items : list CartItem.t;
  currency : string;
}.

(** [CartSummary()]. *)
Definition empty : t := {| items := []; currency := "ARS" |}.

(** [sum(item.subtotal for item in self.items)]: a left fold from 0. *)
Definition total_amount (c : t) : Q :=
  fold_left Qplus (map CartItem.subtotal (items c)) 0%Q.

Definition is_empty (c : t) : bool :=
  match items c with
  | [] => true
  | _ :: _ => false
  end.
End CartSummary.

Module CustomerData.
Record t := {
  name : string;
  lastname : string;
  email : string;
  whatsapp_e164 : string;
}.

(** [CustomerData(...)]: [min_length=2] on both names, and the phone
    validator, which parses, checks and reformats the number with the
    phonenumbers library ([None] stands for the validation error). *)
Definition make (phonenumbers_e164 : string -> option string)
    (name lastname email whatsapp : string) : option t :=
  if (2 <=? Py.len name)%nat && (2 <=? Py.len lastname)%nat then
    match phonenumbers_e164 whatsapp with
    | Some phone =>
        Some {| name := name; lastname := lastname; email := email; whatsapp_e164 := phone |}
    | None => None
    end
  else None.
End CustomerData.

Module DeliveryData.
Record t := {
  mode : DeliveryMode.t;
  address : option string;
  zone : option string;
}.
End DeliveryData.

Module Order.
Record t := {
  order_id : string;
  vet_id : string;
  customer : CustomerData.t;
  delivery : DeliveryData.t;
  items : list CartItem.t;
  subtotal : Q;
  shipping_cost : Q;
  total_amount : Q;
  currency : string;
  status : OrderStatus.t;
  payment_method : option PaymentMethod.t;
  mp_preference_id : option string;
  mp_payment_id : option string;
  mp_status : option MPPaymentStatus.t;
  external_reference : option string;
  created_at : Z;
  updated_at : Z;
}.

(** The [ge=0] constraints on the three amounts, checked by [Order(...)]. *)
Definition valid (o : t) : bool :=
  Qle_bool 0%Q (subtotal o) && Qle_bool 0%Q (shipping_cost o) && Qle_bool 0%Q (total_amount o).

Definition generate_external_reference (o : t) : string :=
  "DTV|" ++ vet_id o ++ "|" ++ order_id o.

Definition with_subtotal (v : Q) (o : t) : t :=
  {| order_id := order_id o; vet_id := vet_id o; customer := customer o;
     delivery := delivery o; items := items o; subtotal := v;
     shipping_cost := shipping_cost o; total_amount := total_amount o;
     currency := currency o; status := status o;
     payment_method := payment_method o; mp_preference_id := mp_preference_id o;
     mp_payment_id := mp_payment_id o; mp_status := mp_status o;
     external_reference := external_reference o; created_at := created_at o;
     updated_at := updated_at o |}.

(** The cells written by [update_order_status]. *)
Definition with_status (s : OrderStatus.t) (now : Z) (o : t) : t :=
  {| order_id := order_id o; vet_id := vet_id o; customer := customer o;
     delivery := delivery o; items := items o; subtotal := subtotal o;
     shipping_cost := shipping_cost o; total_amount := total_amount o;
     currency := currency o; status := s;
     payment_method := payment_method o; mp_preference_id := mp_preference_id o;
     mp_payment_id := mp_payment_id o; mp_status := mp_status o;
     external_reference := external_reference o; created_at := created_at o;
     updated_at := now |}.

(** The cells written by [set_order_payment_method]. *)
Definition with_payment_method (m : PaymentMethod.t) (s : OrderStatus.t) (now : Z) (o : t) : t :=
  {| order_id := order_id o; vet_id := vet_id o; customer := customer o;
     delivery := delivery o; items := items o; subtotal := subtotal o;
     shipping_cost := shipping_cost o; total_amount := total_amount o;
     currency := currency o; status := s;
     payment_method := Some m; mp_preference_id := mp_preference_id o;
     mp_payment_id := mp_payment_id o; mp_status := mp_status o;
     external_reference := external_reference o; created_at := created_at o;
     updated_at := now |}.

(** The cells written by [update_order_payment_status]. *)
Definition with_payment_status (payment_id : string) (mp : MPPaymentStatus.t)
    (s : OrderStatus.t) (now : Z) (o : t) : t :=
  {| order_id := order_id o; vet_id := vet_id o; customer := customer o;
     delivery := delivery o; items := items o; subtotal := subtotal o;
     shipping_cost := shipping_cost o; total_amount := total_amount o;
     currency := currency o; status := s;
     payment_method := payment_method o; mp_preference_id := mp_preference_id o;
     mp_payment_id := Py.or_None payment_id; mp_status := Some mp;
     external_reference := external_reference o; created_at := created_at o;
     updated_at := now |}.

(** The cells written by [update_order_preference]. *)
Definition with_preference (preference_id reference : string) (now : Z) (o : t) : t :=
  {| order_id := order_id o; vet_id := vet_id o; customer := customer o;
     delivery := delivery o; items := items o; subtotal := subtotal o;
     shipping_cost := shipping_cost o; total_amount := total_amount o;
     currency := currency o; status := OrderStatus.PAYMENT_PENDING_MP;
     payment_method := Some PaymentMethod.MERCADOPAGO;
     mp_preference_id := Py.or_None preference_id;
     mp_payment_id := mp_payment_id o; mp_status := mp_status o;
     external_reference := Py.or_None reference; created_at := created_at o;
     updated_at := now |}.
End Order.

Module StoredToken.
Record t := {
  vet_id : string;
  access_token : string;
  refresh_token : string;
  expires_at : Z;
  mp_user_id : string;
  updated_at : Z;
}.
End StoredToken.

Module VetContext.
Record t := {
  vet_id : string;
  name : string;
  whatsapp_e164 : string;
}.
End VetContext.

Module Event.
Record t := {
  event_id : string;
  order_id : string;
  vet_id : string;
  event_type : EventType.t;
  payload : Py.dict;
  created_at : Z;
}.
End Event.

(** A row of the customers worksheet, with the cells [create_customer]
    writes. *)
Module Customer.
Record t := {
  customer_id : string;
  vet_id : string;
  name : string;
  lastname : string;
  email : string;
  whatsapp_e164 : string;
  address : string;
  pet_type : string;
  pet_name : string;
  notes : string;
  active : bool;
  created_at : Z;
  updated_at : Z;
}.
End Customer.

(** A row of the shipping worksheet: the zone cell and the price cell
    as [_parse_price] reads it. *)
Module ShippingRow.
Record t := {
  Zona : string;
  Precio : Q;
}.
End ShippingRow.

(** ** External collaborators *)

(** The JSON body of a 200 answer of the OAuth token endpoint. *)
Module TokenResponse.
Record t := {
  access_token : string;
  refresh_token : option string;
  expires_in : Z;
  user_id : string;
}.
End TokenResponse.

(** The JSON body of a created checkout preference. *)
Module Preference.
Record t := {
  id : string;
  init_point : option string;
  sandbox_init_point : option string;
}.
End Preference.

(** The fields [_process_payment_with_vet] reads from a fetched payment,
    each with the empty-string default of [payment_data.get]. *)
Module PaymentData.
Record t := {
  external_reference : string;
  status : string;
  status_detail : string;
}.
End PaymentData.

(** Outcome of [GET /v1/payments/{id}]. *)
Inductive PaymentFetch :=
| FetchRaised
| FetchRejected (status_code : Z)
| FetchOk (payment_data : PaymentData.t).

(** Requests sent to the payment processor. *)
Inductive MPRequest :=
| RefreshTokenRequest (refresh_token : string)
| AuthorizationCodeRequest (code : string)
| CreatePreferenceRequest (access_token external_reference : string)
| GetPaymentRequest (access_token payment_id : string).

(** Notifications handed to the messaging and e-mail services; the
    formatted bodies are left out. *)
Inductive Outgoing :=
| PaymentConfirmationToVet (vet_phone order_id : string)
| OrderStatusToCustomer (customer_phone order_id : string)
| OrderCreatedEmail (order_id : string)
| PaymentApprovedEmail (order_id payment_id : string).

(** What one operation observes of the outside world. *)
Record Env := {
  has_mp : bool;
  utcnow : Z;
  uuid4_order : N;
  uuid4_event : N;
  uuid4_customer : N;
  phonenumbers_e164 : string -> option string;
  post_oauth_code : string -> option TokenResponse.t;
  post_oauth_refresh : string -> option TokenResponse.t;
  post_preference : string -> Order.t -> string -> option Preference.t;
  get_payment : string -> string -> PaymentFetch;
  twilio_status : string -> string;
}.

(** ** Token stores of app/infra/token_store.py *)

(** The abstract class [TokenStore]. *)
Class TokenStore (S : Type) := {
  get_token : S -> string -> option StoredToken.t;
  save_token : S -> StoredToken.t -> bool * S;
  delete_token : S -> string -> bool * S;
}.

(** The JSON file of the development store, as the dict [_read_all]
    returns and [_write_all] stores. *)
Module LocalTokenStore.
Record t := { data : gmap string StoredToken.t }.

Definition get_token (self : t) (vet_id : string) : option StoredToken.t :=
  data self !! vet_id.

Definition save_token (self : t) (token : StoredToken.t) : bool * t :=
  (true, {| data := <[StoredToken.vet_id token := token]> (data self) |}).

Definition delete_token (self : t) (vet_id : string) : bool * t :=
  match data self !! vet_id with
  | Some _ => (true, {| data := delete vet_id (data self) |})
  | None => (true, self)
  end.
End LocalTokenStore.

(** The Google Secret Manager service behind the production store, by the
    contract of its client library: a secret holds a list of versions,
    the last one being [latest]; reading or deleting a secret that does
    not exist raises [NotFound], creating one that exists raises
    [AlreadyExists], adding a version to a missing secret raises
    [NotFound].  [None] stands for the raised exception. *)
Module SecretManagerServiceClient.
Definition access_secret_version (secrets : gmap string (list StoredToken.t))
    (secret_id : string) : option StoredToken.t :=
  match secrets !! secret_id with
  | Some versions => last versions
  | None => None
  end.

Definition create_secret (secrets : gmap string (list StoredToken.t))
    (secret_id : string) : option (gmap string (list StoredToken.t)) :=
  match secrets !! secret_id with
  | Some _ => None
  | None => Some (<[secret_id := []]> secrets)
  end.

Definition add_secret_version (secrets : gmap string (list StoredToken.t))
    (secret_id : string) (payload : StoredToken.t)
    : option (gmap string (list StoredToken.t)) :=
  match secrets !! secret_id with
  | Some versions => Some (<[secret_id := versions ++ [payload]]> secrets)
  | None => None
  end.

Definition delete_secret (secrets : gmap string (list StoredToken.t))
    (secret_id : string) : option (gmap string (list StoredToken.t)) :=
  match secrets !! secret_id with
  | Some _ => Some (delete secret_id secrets)
  | None => None
  end.
End SecretManagerServiceClient.

Module SecretManagerTokenStore.
Record t := { secrets : gmap string (list StoredToken.t) }.

Definition _secret_id (vet_id : string) : string := "dtv-token-" ++ vet_id.

Definition get_token (self : t) (vet_id : string) : option StoredToken.t :=
  SecretManagerServiceClient.access_secret_version (secrets self) (_secret_id vet_id).

Definition save_token (self : t) (token : StoredToken.t) : bool * t :=
  let secret_id := _secret_id (StoredToken.vet_id token) in
  let created :=
    match SecretManagerServiceClient.create_secret (secrets self) secret_id with
    | Some s => s
    | None => secrets self
    end in
  match SecretManagerServiceClient.add_secret_version created secret_id token with
  | Some s => (true, {| secrets := s |})
  | None => (false, {| secrets := created |})
  end.

Definition delete_token (self : t) (vet_id : string) : bool * t :=
  match SecretManagerServiceClient.delete_secret (secrets self) (_secret_id vet_id) with
  | Some s => (true, {| secrets := s |})
  | None => (false, self)
  end.
End SecretManagerTokenStore.

#[export] Instance LocalTokenStore_TokenStore : TokenStore LocalTokenStore.t := {
  get_token := LocalTokenStore.get_token;
  save_token := LocalTokenStore.save_token;
  delete_token := LocalTokenStore.delete_token;
}.

#[export] Instance SecretManagerTokenStore_TokenStore : TokenStore SecretManagerTokenStore.t := {
  get_token := SecretManagerTokenStore.get_token;
  save_token := SecretManagerTokenStore.save_token;
  delete_token := SecretManagerTokenStore.delete_token;
}.

(** The singleton [get_token_store()] returns: one of the two stores,
    chosen once from the settings. *)
Inductive token_store :=
| Development (store : LocalTokenStore.t)
| Production (store : SecretManagerTokenStore.t).

Definition token_store_get (s : token_store) (vet_id : string) : option StoredToken.t :=
  match s with
  | Development l => get_token l vet_id
  | Production p => get_token p vet_id
  end.

Definition token_store_save (s : token_store) (token : StoredToken.t) : bool * token_store :=
  match s with
  | Development l => let '(ok, l') := save_token l token in (ok, Development l')
  | Production p => let '(ok, p') := save_token p token in (ok, Production p')
  end.

Definition token_store_delete (s : token_store) (vet_id : string) : bool * token_store :=
  match s with
  | Development l => let '(ok, l') := delete_token l vet_id in (ok, Development l')
  | Production p => let '(ok, p') := delete_token p vet_id in (ok, Production p')
  end.

#[export] Instance token_store_TokenStore : TokenStore token_store := {
  get_token := token_store_get;
  save_token := token_store_save;
  delete_token := token_store_delete;
}.

(** ** The state of the process and of its stores *)

Record World := {
  orders_sheet : list Order.t;
  events_sheet : list Event.t;
  vets_sheet : list VetContext.t;
  customers_sheet : list Customer.t;
  shipping_sheet : list ShippingRow.t;
  _carts : gmap string CartSummary.t;
  _token_store : token_store;
  _processed_notifications : list string;
  mp_requests : list MPRequest;
  outbox : list Outgoing;
}.

Definition set_orders (rows : list Order.t) (w : World) : World :=
  {| orders_sheet := rows; events_sheet := events_sheet w;
     vets_sheet := vets_sheet w; customers_sheet := customers_sheet w;
     shipping_sheet := shipping_sheet w;
     _carts := _carts w; _token_store := _token_store w;
     _processed_notifications := _processed_notifications w;
     mp_requests := mp_requests w; outbox := outbox w |}.

Definition set_events (rows : list Event.t) (w : World) : World :=
  {| orders_sheet := orders_sheet w; events_sheet := rows;
     vets_sheet := vets_sheet w; customers_sheet := customers_sheet w;
     shipping_sheet := shipping_sheet w;
     _carts := _carts w; _token_store := _token_store w;
     _processed_notifications := _processed_notifications w;
     mp_requests := mp_requests w; outbox := outbox w |}.

Definition set_customers (rows : list Customer.t) (w : World) : World :=
  {| orders_sheet := orders_sheet w; events_sheet := events_sheet w;
     vets_sheet := vets_sheet w; customers_sheet := rows;
     shipping_sheet := shipping_sheet w;
     _carts := _carts w; _token_store := _token_store w;
     _processed_notifications := _processed_notifications w;
     mp_requests := mp_requests w; outbox := outbox w |}.

Definition set_carts (carts : gmap string CartSummary.t) (w : World) : World :=
  {| orders_sheet := orders_sheet w; events_sheet := events_sheet w;
     vets_sheet := vets_sheet w; customers_sheet := customers_sheet w;
     shipping_sheet := shipping_sheet w;
     _carts := carts; _token_store := _token_store w;
     _processed_notifications := _processed_notifications w;
     mp_requests := mp_requests w; outbox := outbox w |}.

Definition set_token_store (s : token_store) (w : World) : World :=
  {| orders_sheet := orders_sheet w; events_sheet := events_sheet w;
     vets_sheet := vets_sheet w; customers_sheet := customers_sheet w;
     shipping_sheet := shipping_sheet w;
     _carts := _carts w; _token_store := s;
     _processed_notifications := _processed_notifications w;
     mp_requests := mp_requests w; outbox := outbox w |}.

Definition set_processed (keys : list string) (w : World) : World :=
  {| orders_sheet := orders_sheet w; events_sheet := events_sheet w;
     vets_sheet := vets_sheet w; customers_sheet := customers_sheet w;
     shipping_sheet := shipping_sheet w;
     _carts := _carts w; _token_store := _token_store w;
     _processed_notifications := keys;
     mp_requests := mp_requests w; outbox := outbox w |}.

Definition sent_request (r : MPRequest) (w : World) : World :=
  {| orders_sheet := orders_sheet w; events_sheet := events_sheet w;
     vets_sheet := vets_sheet w; customers_sheet := customers_sheet w;
     shipping_sheet := shipping_sheet w;
     _carts := _carts w; _token_store := _token_store w;
     _processed_notifications := _processed_notifications w;
     mp_requests := mp_requests w ++ [r]; outbox := outbox w |}.

Definition handed_over (m : Outgoing) (w : World) : World :=
  {| orders_sheet := orders_sheet w; events_sheet := events_sheet w;
     vets_sheet := vets_sheet w; customers_sheet := customers_sheet w;
     shipping_sheet := shipping_sheet w;
     _carts := _carts w; _token_store := _token_store w;
     _processed_notifications := _processed_notifications w;
     mp_requests := mp_requests w; outbox := outbox w ++ [m] |}.

(** ** Identifiers *)

Definition hex_digit_upper (d : N) : ascii :=
  match d with
  | 0%N => "0" | 1%N => "1" | 2%N => "2" | 3%N => "3"
  | 4%N => "4" | 5%N => "5" | 6%N => "6" | 7%N => "7"
  | 8%N => "8" | 9%N => "9" | 10%N => "A" | 11%N => "B"
  | 12%N => "C" | 13%N => "D" | 14%N => "E" | _ => "F"
  end%char.

Fixpoint hex_digits_upper (n : nat) (v : N) (acc : string) : string :=
  match n with
  | O => acc
  | S k => hex_digits_upper k (v / 16)%N (String (hex_digit_upper (v mod 16)%N) acc)
  end.

(** [u.hex[:8].upper()] for a 128-bit [uuid4] value [u]: the eight
    leading hexadecimal digits. *)
Definition uuid_hex8_upper (u : N) : string :=
  hex_digits_upper 8 ((u mod 2 ^ 128) / 2 ^ 96)%N EmptyString.

(** ** The spreadsheet layer, app/infra/sheets.py *)

(** The loop [for i, row in enumerate(records): if cond(row): update;
    return True] followed by [return False]: the first matching row is
    rewritten. *)
Fixpoint update_first_row {A : Type} (cond : A -> bool) (write : A -> A)
    (records : list A) : option (list A) :=
  match records with
  | [] => None
  | row :: rest =>
      if cond row then Some (write row :: rest)
      else match update_first_row cond write rest with
           | Some rest' => Some (row :: rest')
           | None => None
           end
  end.

Definition has_order_id (order_id : string) (row : Order.t) : bool :=
  String.eqb (Order.order_id row) order_id.

Definition has_external_reference (reference : string) (row : Order.t) : bool :=
  String.eqb (Py.or_empty (Order.external_reference row)) reference.

(** The legacy rule of [_parse_order_row]: a zero subtotal next to a
    positive total is read as the total. *)
Definition _parse_order_row (row : Order.t) : Order.t :=
  if Qeq_bool (Order.subtotal row) 0 && negb (Qle_bool (Order.total_amount row) 0)
  then Order.with_subtotal (Order.total_amount row) row
  else row.

(** The row [create_order_record] appends, as it reads back: an empty
    address or zone cell is read as [None]. *)
Definition order_row (order : Order.t) : Order.t :=
  {| Order.order_id := Order.order_id order;
     Order.vet_id := Order.vet_id order;
     Order.customer := Order.customer order;
     Order.delivery :=
       {| DeliveryData.mode := DeliveryData.mode (Order.delivery order);
          DeliveryData.address :=
            Py.or_None (Py.or_empty (DeliveryData.address (Order.delivery order)));
          DeliveryData.zone :=
            Py.or_None (Py.or_empty (DeliveryData.zone (Order.delivery order))) |};
     Order.items := Order.items order;
     Order.subtotal := Order.subtotal order;
     Order.shipping_cost := Order.shipping_cost order;
     Order.total_amount := Order.total_amount order;
     Order.currency := Order.currency order;
     Order.status := Order.status order;
     Order.payment_method := Order.payment_method order;
     Order.mp_preference_id := Py.or_None (Py.or_empty (Order.mp_preference_id order));
     Order.mp_payment_id := Py.or_None (Py.or_empty (Order.mp_payment_id order));
     Order.mp_status := Order.mp_status order;
     Order.external_reference := Py.or_None (Py.or_empty (Order.external_reference order));
     Order.created_at := Order.created_at order;
     Order.updated_at := Order.updated_at order |}.

Definition create_order_record (order : Order.t) (w : World) : bool * World :=
  (true, set_orders (orders_sheet w ++ [order_row order]) w).

Definition get_order_by_id (order_id : string) (w : World) : option Order.t :=
  match find (has_order_id order_id) (orders_sheet w) with
  | Some row => Some (_parse_order_row row)
  | None => None
  end.

Definition get_order_by_external_reference (reference : string) (w : World) : option Order.t :=
  match find (has_external_reference reference) (orders_sheet w) with
  | Some row => Some (_parse_order_row row)
  | None => None
  end.

Definition update_order_payment_status (env : Env) (order_id mp_payment_id : string)
    (mp_status : MPPaymentStatus.t) (status : OrderStatus.t) (w : World) : bool * World :=
  match update_first_row (has_order_id order_id)
          (Order.with_payment_status mp_payment_id mp_status status (utcnow env))
          (orders_sheet w) with
  | Some rows => (true, set_orders rows w)
  | None => (false, w)
  end.

Definition sheets_update_order_status (env : Env) (order_id : string)
    (new_status : OrderStatus.t) (w : World) : bool * World :=
  match update_first_row (has_order_id order_id)
          (Order.with_status new_status (utcnow env)) (orders_sheet w) with
  | Some rows => (true, set_orders rows w)
  | None => (false, w)
  end.

Definition sheets_set_payment_method (env : Env) (order_id : string)
    (payment_method : PaymentMethod.t) (new_status : OrderStatus.t) (w : World)
    : bool * World :=
  match update_first_row (has_order_id order_id)
          (Order.with_payment_method payment_method new_status (utcnow env))
          (orders_sheet w) with
  | Some rows => (true, set_orders rows w)
  | None => (false, w)
  end.

Definition update_order_preference (env : Env) (order_id preference_id reference : string)
    (w : World) : bool * World :=
  match update_first_row (has_order_id order_id)
          (Order.with_preference preference_id reference (utcnow env))
          (orders_sheet w) with
  | Some rows => (true, set_orders rows w)
  | None => (false, w)
  end.

Definition log_event (env : Env) (event_type : EventType.t) (order_id vet_id : string)
    (payload : Py.dict) (w : World) : World :=
  set_events
    (events_sheet w ++
       [ {| Event.event_id := "EVT-" ++ uuid_hex8_upper (uuid4_event env);
            Event.order_id := order_id;
            Event.vet_id := vet_id;
            Event.event_type := event_type;
            Event.payload := payload;
            Event.created_at := utcnow env |} ]) w.

Definition zone_matches (zone_normalized : string) (row : ShippingRow.t) : bool :=
  String.eqb (Py.lower (Py.strip (ShippingRow.Zona row))) zone_normalized.

(** [sheets.get_shipping_cost]: the price of the first row whose zone
    equals the requested one up to case and surrounding blanks. *)
Definition get_shipping_cost (zone : string) (w : World) : option Q :=
  let zone_normalized := Py.lower (Py.strip zone) in
  match find (zone_matches zone_normalized) (shipping_sheet w) with
  | Some row => Some (ShippingRow.Precio row)
  | None => None
  end.

Definition get_vet_by_id (vet_id : string) (w : World) : option VetContext.t :=
  find (fun vet => String.eqb (VetContext.vet_id vet) vet_id) (vets_sheet w).

(** [c.isdigit()] on ASCII. *)
Definition is_digit (c : ascii) : bool :=
  let n := nat_of_ascii c in (48 <=? n)%nat && (n <=? 57)%nat.

(** [s.replace(c, EmptyString)] for a one-character [c]. *)
Fixpoint remove_char (c : ascii) (s : string) : string :=
  match s with
  | EmptyString => EmptyString
  | String a r => if Ascii.eqb a c then remove_char c r else String a (remove_char c r)
  end.

Definition normalize_phone (phone : string) : string :=
  if negb (Py.truthy phone) then EmptyString
  else
    let phone := Py.strip phone in
    let phone :=
      if Py.startswith "=" phone
      then ("+" ++ String.substring 1 (String.length phone - 1) phone)%string
      else phone in
    let phone := remove_char "-" (remove_char " " phone) in
    match phone with
    | String first _ => if is_digit first then ("+" ++ phone)%string else phone
    | EmptyString => phone
    end.

(** The customers of one merchant, as [get_customers_by_vet] parses the
    active rows. *)
Definition _parse_customer_row (row : Customer.t) : Customer.t :=
  {| Customer.customer_id := Customer.customer_id row;
     Customer.vet_id := Customer.vet_id row;
     Customer.name := Customer.name row;
     Customer.lastname := Customer.lastname row;
     Customer.email := Customer.email row;
     Customer.whatsapp_e164 := normalize_phone (Customer.whatsapp_e164 row);
     Customer.address := Customer.address row;
     Customer.pet_type := Customer.pet_type row;
     Customer.pet_name := Customer.pet_name row;
     Customer.notes := Customer.notes row;
     Customer.active := Customer.active row;
     Customer.created_at := Customer.created_at row;
     Customer.updated_at := Customer.updated_at row |}.

Definition get_customers_by_vet (vet_id : string) (w : World) : list Customer.t :=
  map _parse_customer_row
    (List.filter
       (fun row => String.eqb (Customer.vet_id row) vet_id && Customer.active row)
       (customers_sheet w)).

(** The first customer of the merchant with that phone or that e-mail
    address. *)
Definition get_customer_by_phone_or_email (vet_id phone email : string) (w : World)
    : option Customer.t :=
  if negb (Py.truthy phone) && negb (Py.truthy email) then None
  else
    let customers := get_customers_by_vet vet_id w in
    let phone_normalized := if Py.truthy phone then normalize_phone phone else EmptyString in
    find (fun customer =>
            (Py.truthy phone_normalized
             && String.eqb (Customer.whatsapp_e164 customer) phone_normalized)
            || (Py.truthy email
                && String.eqb (Py.lower (Customer.email customer)) (Py.lower email)))
      customers.

(** [create_customer] answers the customer it found or created; the
    callers below ignore the answer, so only the worksheet is kept.  An
    existing customer is left as it is. *)
Definition create_customer (env : Env) (vet_id name lastname email whatsapp_e164 : string)
    (address : option string) (w : World) : World :=
  match get_customer_by_phone_or_email vet_id whatsapp_e164 email w with
  | Some existing => w
  | None =>
      set_customers
        (customers_sheet w ++
           [ {| Customer.customer_id := "CUST-" ++ uuid_hex8_upper (uuid4_customer env);
                Customer.vet_id := vet_id;
                Customer.name := Py.strip name;
                Customer.lastname := Py.strip lastname;
                Customer.email := Py.lower (Py.strip email);
                Customer.whatsapp_e164 := normalize_phone whatsapp_e164;
                Customer.address := Py.or_empty address;
                Customer.pet_type := EmptyString;
                Customer.pet_name := EmptyString;
                Customer.notes := EmptyString;
                Customer.active := true;
                Customer.created_at := utcnow env;
                Customer.updated_at := utcnow env |} ]) w
  end.

(** ** The carts, app/tools/cart.py *)

Definition _get_cart (session_id : string) (w : World) : CartSummary.t * World :=
  match _carts w !! session_id with
  | Some cart => (cart, w)
  | None => (CartSummary.empty, set_carts (<[session_id := CartSummary.empty]> (_carts w)) w)
  end.

Definition get_cart_for_order (session_id : string) (w : World)
    : option CartSummary.t * World :=
  let '(cart, w1) := _get_cart session_id w in
  (if CartSummary.is_empty cart then None else Some cart, w1).

Definition clear_cart (session_id : string) (w : World) : World :=
  let '(cart, w1) := _get_cart session_id w in
  if CartSummary.is_empty cart then w1
  else set_carts (<[session_id := CartSummary.empty]> (_carts w1)) w1.

(** ** Notifications, app/tools/messaging.py and app/infra/email_service.py *)

(** [send_whatsapp_message] answers with the status Twilio gave. *)
Definition send_payment_confirmation_to_vet (env : Env) (vet_phone order_id : string)
    (w : World) : Py.dict * World :=
  ([("status", Py.Str (twilio_status env vet_phone))],
   handed_over (PaymentConfirmationToVet vet_phone order_id) w).

Definition send_order_status_to_customer (env : Env) (customer_phone order_id : string)
    (w : World) : Py.dict * World :=
  ([("status", Py.Str (twilio_status env customer_phone))],
   handed_over (OrderStatusToCustomer customer_phone order_id) w).

Definition send_order_created_notification (order_id : string) (w : World) : World :=
  handed_over (OrderCreatedEmail order_id) w.

Definition send_payment_approved_notification (order_id payment_id : string)
    (w : World) : World :=
  handed_over (PaymentApprovedEmail order_id payment_id) w.

(** ** OAuth helpers, app/tools/oauth_mp.py *)

Definition microseconds (seconds : Z) : Z := (seconds * 1000000)%Z.

(** [timedelta(minutes=5)]. *)
Definition margin : Z := microseconds (5 * 60).

(** [timedelta(seconds=s)]: a [timedelta] holds at most 999999999 days in
    either direction; [None] stands for the [OverflowError] raised
    beyond. *)
Definition timedelta_seconds (s : Z) : option Z :=
  if (-999999999 <=? s / 86400)%Z && (s / 86400 <=? 999999999)%Z
  then Some (microseconds s)
  else None.

(** [datetime.min], 0001-01-01T00:00:00, and [datetime.max],
    9999-12-31T23:59:59.999999. *)
Definition datetime_min : Z := -62135596800000000.
Definition datetime_max : Z := 253402300799999999.

(** [d + delta]: [None] stands for the [OverflowError] raised when the sum
    is not a [datetime]. *)
Definition datetime_add (d delta : Z) : option Z :=
  let sum := (d + delta)%Z in
  if (datetime_min <=? sum)%Z && (sum <=? datetime_max)%Z then Some sum else None.

(** [datetime.utcnow() + timedelta(seconds=expires_in)]. *)
Definition expiry_from_now (env : Env) (expires_in : Z) : option Z :=
  match timedelta_seconds expires_in with
  | Some delta => datetime_add (utcnow env) delta
  | None => None
  end.

Definition save_mp_tokens (token : StoredToken.t) (w : World) : bool * World :=
  let '(ok, store) := save_token (_token_store w) token in
  (ok, set_token_store store w).

Definition get_mp_tokens (vet_id : string) (w : World) : option StoredToken.t :=
  get_token (_token_store w) vet_id.

(** The POST with [grant_type=authorization_code]; [None] is any answer
    other than a 200, or a raised exception. *)
Definition _exchange_code_for_tokens (env : Env) (code : string) (w : World)
    : option TokenResponse.t * World :=
  (post_oauth_code env code, sent_request (AuthorizationCodeRequest code) w).

(** The POST with [grant_type=refresh_token]. *)
Definition _refresh_mp_token (env : Env) (refresh_token : string) (w : World)
    : option TokenResponse.t * World :=
  (post_oauth_refresh env refresh_token, sent_request (RefreshTokenRequest refresh_token) w).

(** The connection flags that [update_vet_mp_status] writes to the vets
    worksheet are not part of [VetContext.t] here.  A missing
    [refresh_token] key and an expiry date out of range raise inside the
    [try] block, whose handler answers error. *)
Definition complete_mp_oauth (env : Env) (vet_id code : string) (w : World)
    : Py.dict * World :=
  if negb (has_mp env) then ([("status", Py.Str "error")], w) else
  let '(token_data, w1) := _exchange_code_for_tokens env code w in
  match token_data with
  | None => ([("status", Py.Str "invalid_code")], w1)
  | Some token_data =>
      match TokenResponse.refresh_token token_data with
      | None => ([("status", Py.Str "error")], w1)
      | Some refresh_token =>
          match expiry_from_now env (TokenResponse.expires_in token_data) with
          | None => ([("status", Py.Str "error")], w1)
          | Some expires_at =>
              let tokens :=
                {| StoredToken.vet_id := vet_id;
                   StoredToken.access_token := TokenResponse.access_token token_data;
                   StoredToken.refresh_token := refresh_token;
                   StoredToken.expires_at := expires_at;
                   StoredToken.mp_user_id := TokenResponse.user_id token_data;
                   StoredToken.updated_at := utcnow env |} in
              let '(saved, w2) := save_mp_tokens tokens w1 in
              if negb saved then ([("status", Py.Str "error")], w2)
              else ([("status", Py.Str "success");
                     ("mp_user_id", Py.Str (TokenResponse.user_id token_data))], w2)
          end
      end
  end.

(** The refreshed expiry date is computed inside the [try] block: when it
    is out of range the handler answers error, after the refresh request
    and before anything is stored. *)
Definition ensure_valid_mp_token (env : Env) (vet_id : string) (w : World)
    : Py.dict * World :=
  match get_mp_tokens vet_id w with
  | None => ([("status", Py.Str "not_connected")], w)
  | Some tokens =>
      if (StoredToken.expires_at tokens - margin >? utcnow env)%Z then
        ([("status", Py.Str "success");
          ("access_token", Py.Str (StoredToken.access_token tokens))], w)
      else
        let '(new_tokens, w1) := _refresh_mp_token env (StoredToken.refresh_token tokens) w in
        match new_tokens with
        | None => ([("status", Py.Str "refresh_failed")], w1)
        | Some new_tokens =>
            match expiry_from_now env (TokenResponse.expires_in new_tokens) with
            | None => ([("status", Py.Str "error")], w1)
            | Some expires_at =>
                let updated :=
                  {| StoredToken.vet_id := vet_id;
                     StoredToken.access_token := TokenResponse.access_token new_tokens;
                     StoredToken.refresh_token :=
                       match TokenResponse.refresh_token new_tokens with
                       | Some fresh => fresh
                       | None => StoredToken.refresh_token tokens
                       end;
                     StoredToken.expires_at := expires_at;
                     StoredToken.mp_user_id := StoredToken.mp_user_id tokens;
                     StoredToken.updated_at := utcnow env |} in
                let '(_, w2) := save_mp_tokens updated w1 in
                ([("status", Py.Str "success");
                  ("access_token", Py.Str (StoredToken.access_token updated))], w2)
            end
        end
  end.

(** The OAuth callback of app/main.py: the merchant is the first
    [|]-separated part of [state]. *)
Definition mp_oauth_callback (env : Env) (code state error : option string) (w : World)
    : Py.dict * World :=
  if Py.truthy_opt error then ([("status", Py.Str "error")], w)
  else
    match code, state with
    | Some code, Some state =>
        if negb (Py.truthy code) || negb (Py.truthy state)
        then ([("status", Py.Str "error")], w)
        else
          let parts := Py.split "|" state in
          let vet_id := hd EmptyString parts in
          complete_mp_oauth env vet_id code w
    | _, _ => ([("status", Py.Str "error")], w)
    end.

(** ** Payment links, app/tools/payments.py *)

Definition str_field (k : string) (d : Py.dict) : string :=
  match Py.get k d with
  | Some (Py.Str s) => s
  | _ => EmptyString
  end.

Definition opt_value (o : option string) : Py.value :=
  match o with
  | Some s => Py.Str s
  | None => Py.NoneV
  end.

(** The POST to [/checkout/preferences]; [None] is any answer other
    than 200 or 201, or a raised exception. *)
Definition _create_mp_preference (env : Env) (access_token : string) (order : Order.t)
    (external_reference : string) (w : World) : option Preference.t * World :=
  (post_preference env access_token order external_reference,
   sent_request (CreatePreferenceRequest access_token external_reference) w).

Definition create_payment_link (env : Env) (vet_id order_id : string) (w : World)
    : Py.dict * World :=
  let '(token_result, w1) := ensure_valid_mp_token env vet_id w in
  if negb (String.eqb (Py.status token_result) "success") then
    if String.eqb (Py.status token_result) "not_connected"
    then ([("status", Py.Str "mp_not_connected")], w1)
    else ([("status", Py.Str "error")], w1)
  else
    let access_token := str_field "access_token" token_result in
    match get_order_by_id order_id w1 with
    | None => ([("status", Py.Str "order_not_found")], w1)
    | Some order =>
        if negb (String.eqb (Order.vet_id order) vet_id)
        then ([("status", Py.Str "error")], w1)
        else
          let external_reference := ("DTV|" ++ vet_id ++ "|" ++ order_id)%string in
          let '(preference, w2) :=
            _create_mp_preference env access_token order external_reference w1 in
          match preference with
          | None => ([("status", Py.Str "error")], w2)
          | Some preference =>
              let '(_, w3) :=
                update_order_preference env order_id (Preference.id preference)
                  external_reference w2 in
              let payment_url :=
                if Py.truthy_opt (Preference.init_point preference)
                then Preference.init_point preference
                else Preference.sandbox_init_point preference in
              ([("status", Py.Str "success");
                ("payment_url", opt_value payment_url);
                ("preference_id", Py.Str (Preference.id preference));
                ("external_reference", Py.Str external_reference)], w3)
          end
    end.

(** ** Orders, app/tools/orders.py *)

Definition is_delivery (mode : DeliveryMode.t) : bool :=
  match mode with
  | DeliveryMode.DELIVERY => true
  | DeliveryMode.PICKUP => false
  end.

(** The tool [get_shipping_cost] of app/tools/orders.py.  The module
    defines it below [create_order], under the name it imported from the
    spreadsheet layer: at the time of a call the name [get_shipping_cost]
    in this module is the tool, which answers a dict and never [None].
    The dict's float [shipping_cost] is left out. *)
Module orders.
Definition get_shipping_cost (zone : string) (w : World) : Py.dict :=
  match get_shipping_cost zone w with
  | None => [("status", Py.Str "not_found"); ("zone", Py.Str zone)]
  | Some cost => [("status", Py.Str "found"); ("zone", Py.Str zone)]
  end.
End orders.

(** The value bound to [shipping_cost] in [create_order]: the decimal
    zero, or what [get_shipping_cost] answered. *)
Inductive ShippingCost :=
| DecimalCost (cost : Q)
| DictCost (answer : Py.dict).

(** [create_order].  For a DELIVERY order with a zone, [shipping_cost] is
    the dict the tool answered, so the test [is None] fails, the customer
    is registered, and [subtotal + shipping_cost] raises a [TypeError]
    that the handler of the enclosing [try] turns into the answer error.
    Of the payload of the audit event only the customer e-mail is kept. *)
Definition create_order (env : Env)
    (session_id vet_id customer_name customer_lastname customer_email
       customer_whatsapp delivery_mode : string)
    (delivery_address delivery_zone : option string) (w : World) : Py.dict * World :=
  let '(cart, w1) := get_cart_for_order session_id w in
  match cart with
  | None => ([("status", Py.Str "empty_cart")], w1)
  | Some cart =>
      match CustomerData.make (phonenumbers_e164 env)
              (Py.strip customer_name) (Py.strip customer_lastname)
              (Py.lower (Py.strip customer_email)) customer_whatsapp with
      | None => ([("status", Py.Str "validation_error")], w1)
      | Some customer =>
          match DeliveryMode.of_value (Py.upper delivery_mode) with
          | None => ([("status", Py.Str "validation_error")], w1)
          | Some mode =>
              if is_delivery mode && negb (Py.truthy_opt delivery_address)
              then ([("status", Py.Str "validation_error")], w1)
              else if is_delivery mode && negb (Py.truthy_opt delivery_zone)
              then ([("status", Py.Str "validation_error")], w1)
              else
                let delivery :=
                  {| DeliveryData.mode := mode;
                     DeliveryData.address := delivery_address;
                     DeliveryData.zone := if is_delivery mode then delivery_zone else None |} in
                let shipping_cost :=
                  if is_delivery mode && Py.truthy_opt delivery_zone
                  then DictCost (orders.get_shipping_cost (Py.or_empty delivery_zone) w1)
                  else DecimalCost 0%Q in
                let w2 :=
                  create_customer env vet_id (Py.strip customer_name)
                    (Py.strip customer_lastname) (Py.lower (Py.strip customer_email))
                    customer_whatsapp delivery_address w1 in
                let order_id := ("ORD-" ++ uuid_hex8_upper (uuid4_order env))%string in
                let subtotal := CartSummary.total_amount cart in
                match shipping_cost with
                | DictCost _ => ([("status", Py.Str "error")], w2)
                | DecimalCost shipping_cost =>
                    let total_amount := (subtotal + shipping_cost)%Q in
                    let order :=
                      {| Order.order_id := order_id;
                         Order.vet_id := vet_id;
                         Order.customer := customer;
                         Order.delivery := delivery;
                         Order.items := CartSummary.items cart;
                         Order.subtotal := subtotal;
                         Order.shipping_cost := shipping_cost;
                         Order.total_amount := total_amount;
                         Order.currency := CartSummary.currency cart;
                         Order.status := OrderStatus.CREATED;
                         Order.payment_method := None;
                         Order.mp_preference_id := None;
                         Order.mp_payment_id := None;
                         Order.mp_status := None;
                         Order.external_reference := None;
                         Order.created_at := utcnow env;
                         Order.updated_at := utcnow env |} in
                    if negb (Order.valid order) then ([("status", Py.Str "error")], w2)
                    else
                      let '(saved, w3) := create_order_record order w2 in
                      if negb saved then ([("status", Py.Str "error")], w3)
                      else
                        let w4 :=
                          log_event env EventType.ORDER_CREATED order_id vet_id
                            [("customer_email", Py.Str (CustomerData.email customer))] w3 in
                        let w5 := clear_cart session_id w4 in
                        let w6 := send_order_created_notification order_id w5 in
                        ([("status", Py.Str "created");
                          ("order_id", Py.Str order_id)], w6)
                end
          end
      end
  end.

Definition non_cancellable : list OrderStatus.t :=
  [OrderStatus.DELIVERED; OrderStatus.COMPLETED].

Definition cancel_order (env : Env) (order_id : string) (notify_customer : bool)
    (w : World) : Py.dict * World :=
  match get_order_by_id order_id w with
  | None => ([("status", Py.Str "not_found")], w)
  | Some order =>
      let old_status := Order.status order in
      if OrderStatus.eqb old_status OrderStatus.CANCELLED
      then ([("status", Py.Str "already_cancelled")], w)
      else if existsb (OrderStatus.eqb old_status) non_cancellable
      then ([("status", Py.Str "cannot_cancel")], w)
      else
        let '(updated, w1) :=
          sheets_update_order_status env order_id OrderStatus.CANCELLED w in
        if negb updated then ([("status", Py.Str "error")], w1)
        else
          let w2 :=
            log_event env EventType.ORDER_CANCELLED order_id (Order.vet_id order)
              [("old_status", Py.Str (OrderStatus.value old_status));
               ("source", Py.Str "agent")] w1 in
          let '(notified, w3) :=
            if notify_customer then
              let '(result, w3) :=
                send_order_status_to_customer env
                  (CustomerData.whatsapp_e164 (Order.customer order)) order_id w2 in
              (String.eqb (Py.status result) "sent", w3)
            else (false, w2) in
          ([("status", Py.Str "cancelled");
            ("order_id", Py.Str order_id);
            ("old_status", Py.Str (OrderStatus.value old_status));
            ("notified", Py.Bool notified)], w3)
  end.

Definition distributor_states : list string :=
  ["PREPARING"; "READY_FOR_PICKUP"; "OUT_FOR_DELIVERY"; "DELIVERED"; "COMPLETED"].

Definition payment_states : list string :=
  ["PAYMENT_PENDING"; "PAYMENT_APPROVED"; "PAYMENT_REJECTED"; "CREATED"].

(** The restricted [update_order_status] tool. *)
Definition update_order_status (env : Env) (order_id new_status : string)
    (notify_customer : bool) (w : World) : Py.dict * World :=
  let new_status_upper := Py.upper new_status in
  if String.eqb new_status_upper "CANCELLED" then cancel_order env order_id notify_customer w
  else if existsb (String.eqb new_status_upper) distributor_states
  then ([("status", Py.Str "not_allowed")], w)
  else if existsb (String.eqb new_status_upper) payment_states
  then ([("status", Py.Str "not_allowed")], w)
  else ([("status", Py.Str "invalid_status")], w).

Definition set_payment_method (env : Env) (order_id payment_method : string) (w : World)
    : Py.dict * World :=
  let method_upper := Py.upper payment_method in
  if negb (existsb (String.eqb method_upper) ["MERCADOPAGO"; "AT_VET"])
  then ([("status", Py.Str "invalid_method")], w)
  else
    match get_order_by_id order_id w with
    | None => ([("status", Py.Str "not_found")], w)
    | Some order =>
        let '(method, new_status) :=
          if String.eqb method_upper "MERCADOPAGO"
          then (PaymentMethod.MERCADOPAGO, OrderStatus.CREATED)
          else (PaymentMethod.AT_VET, OrderStatus.PAYMENT_AT_VET) in
        let '(updated, w1) := sheets_set_payment_method env order_id method new_status w in
        if negb updated then ([("status", Py.Str "error")], w1)
        else
          let w2 :=
            log_event env EventType.ORDER_STATUS_CHANGED order_id (Order.vet_id order)
              [("payment_method", Py.Str method_upper);
               ("new_status", Py.Str (OrderStatus.value new_status));
               ("source", Py.Str "agent")] w1 in
          ([("status", Py.Str "updated");
            ("order_id", Py.Str order_id);
            ("payment_method", Py.Str method_upper);
            ("new_status", Py.Str (OrderStatus.value new_status))], w2)
    end.

(** ** The webhook reconciler, app/webhooks/mercadopago.py *)

(** The validated notification: [type], [action] and [str(data["id"])]
    when [data] has an ["id"]. *)
Module MPWebhookPayload.
Record t := {
  type : string;
  action : string;
  data_id : option string;
}.
End MPWebhookPayload.

(** [key in s] and [s.add(key)] on the set of processed notifications. *)
Definition set_mem (key : string) (s : list string) : bool :=
  existsb (String.eqb key) s.

Definition set_add (key : string) (s : list string) : list string :=
  if set_mem key s then s else key :: s.

Definition _process_payment_notification (payment_id : string) (w : World)
    : Py.dict * World :=
  ([("status", Py.Str "received"); ("payment_id", Py.Str payment_id)], w).

(** The generic route [/mp/webhook].  A body that is not JSON or does
    not validate is [None]. *)
Definition mercadopago_webhook (body : option MPWebhookPayload.t) (w : World)
    : Py.dict * World :=
  match body with
  | None => ([("status", Py.Str "error")], w)
  | Some payload =>
      if negb (String.eqb (MPWebhookPayload.type payload) "payment")
      then ([("status", Py.Str "ignored"); ("reason", Py.Str "not_payment")], w)
      else
        let payment_id := Py.or_empty (MPWebhookPayload.data_id payload) in
        if negb (Py.truthy payment_id)
        then ([("status", Py.Str "ignored"); ("reason", Py.Str "no_payment_id")], w)
        else
          let idempotency_key :=
            (MPWebhookPayload.action payload ++ ":" ++ payment_id)%string in
          if set_mem idempotency_key (_processed_notifications w)
          then ([("status", Py.Str "duplicate"); ("payment_id", Py.Str payment_id)], w)
          else
            let added := set_add idempotency_key (_processed_notifications w) in
            let w1 :=
              if (10000 <? Z.of_nat (List.length added))%Z then set_processed [] w
              else set_processed added w in
            _process_payment_notification payment_id w1
  end.

Definition _handle_approved_payment (env : Env) (vet_id order_id payment_id : string)
    (w : World) : World :=
  match get_vet_by_id vet_id w with
  | None => w
  | Some vet =>
      match get_order_by_external_reference
              ("DTV|" ++ vet_id ++ "|" ++ order_id)%string w with
      | None => w
      | Some order =>
          let '(_, w1) :=
            send_payment_confirmation_to_vet env (VetContext.whatsapp_e164 vet) order_id w in
          let '(_, w2) :=
            send_order_status_to_customer env
              (CustomerData.whatsapp_e164 (Order.customer order)) order_id w1 in
          send_payment_approved_notification order_id payment_id w2
      end
  end.

Definition _process_payment_with_vet (env : Env) (vet_id payment_id : string) (w : World)
    : Py.dict * World :=
  let '(token_result, w1) := ensure_valid_mp_token env vet_id w in
  if negb (String.eqb (Py.status token_result) "success")
  then ([("status", Py.Str "error"); ("reason", Py.Str "no_token")], w1)
  else
    let access_token := str_field "access_token" token_result in
    let w2 := sent_request (GetPaymentRequest access_token payment_id) w1 in
    match get_payment env access_token payment_id with
    | FetchRaised => ([("status", Py.Str "error")], w2)
    | FetchRejected _ => ([("status", Py.Str "error"); ("reason", Py.Str "mp_api_error")], w2)
    | FetchOk payment_data =>
        let external_reference := PaymentData.external_reference payment_data in
        let mp_status := PaymentData.status payment_data in
        let mp_status_detail := PaymentData.status_detail payment_data in
        if negb (Py.truthy external_reference)
           || negb (Py.startswith "DTV|" external_reference)
        then ([("status", Py.Str "ignored"); ("reason", Py.Str "invalid_reference")], w2)
        else
          match Py.split "|" external_reference with
          | [_; ref_vet_id; order_id] =>
              if negb (String.eqb ref_vet_id vet_id)
              then ([("status", Py.Str "error"); ("reason", Py.Str "vet_mismatch")], w2)
              else
                let order_status := _map_mp_status_to_order_status mp_status in
                let mp_payment_status := _map_mp_status mp_status in
                let '(_, w3) :=
                  update_order_payment_status env order_id payment_id
                    mp_payment_status order_status w2 in
                let w4 :=
                  log_event env EventType.PAYMENT_RECEIVED order_id vet_id
                    [("payment_id", Py.Str payment_id);
                     ("mp_status", Py.Str mp_status);
                     ("mp_status_detail", Py.Str mp_status_detail)] w3 in
                let w5 :=
                  if String.eqb mp_status "approved"
                  then _handle_approved_payment env vet_id order_id payment_id w4
                  else w4 in
                ([("status", Py.Str "processed");
                  ("payment_id", Py.Str payment_id);
                  ("order_id", Py.Str order_id);
                  ("mp_status", Py.Str mp_status)], w5)
          | _ =>
              ([("status", Py.Str "ignored");
                ("reason", Py.Str "invalid_reference_format")], w2)
          end
    end.

(** The merchant-scoped route [/mp/webhook/v2?vet_id=...]. *)
Definition mercadopago_webhook_v2 (env : Env) (vet_id : string)
    (body : option MPWebhookPayload.t) (w : World) : Py.dict * World :=
  match body with
  | None => ([("status", Py.Str "error")], w)
  | Some payload =>
      if negb (String.eqb (MPWebhookPayload.type payload) "payment")
      then ([("status", Py.Str "ignored")], w)
      else
        let payment_id := Py.or_empty (MPWebhookPayload.data_id payload) in
        if negb (Py.truthy payment_id) then ([("status", Py.Str "ignored")], w)
        else
          let idempotency_key :=
            (vet_id ++ ":" ++ MPWebhookPayload.action payload ++ ":" ++ payment_id)%string in
          if set_mem idempotency_key (_processed_notifications w)
          then ([("status", Py.Str "duplicate")], w)
          else
            let w1 :=
              set_processed (set_add idempotency_key (_processed_notifications w)) w in
            _process_payment_with_vet env vet_id payment_id w1
  end.

(** ** Entry points of the process *)

(** The calls the agent, the payment processor and the OAuth redirect can
    make, each with the arguments of the function it reaches. *)
Inductive Call :=
| CreateOrder (session_id vet_id customer_name customer_lastname customer_email
    customer_whatsapp delivery_mode : string) (delivery_address delivery_zone : option string)
| CancelOrder (order_id : string) (notify_customer : bool)
| UpdateOrderStatus (order_id new_status : string) (notify_customer : bool)
| SetPaymentMethod (order_id payment_method : string)
| CreatePaymentLink (vet_id order_id : string)
| OAuthCallback (code state error : option string)
| Webhook (body : option MPWebhookPayload.t)
| WebhookV2 (vet_id : string) (body : option MPWebhookPayload.t)
| CartTools (session_id : string) (cart : CartSummary.t)
| Fulfillment (order_id : string) (status : OrderStatus.t).

(** One call in its environment.  [CartTools] stands for the cart tools,
    which leave some cart under the session; [Fulfillment] for the
    distributor, who writes logistics states into the status cell. *)
Definition handle (env : Env) (c : Call) (w : World) : Py.dict * World :=
  match c with
  | CreateOrder session_id vet_id customer_name customer_lastname customer_email
      customer_whatsapp delivery_mode delivery_address delivery_zone =>
      create_order env session_id vet_id customer_name customer_lastname customer_email
        customer_whatsapp delivery_mode delivery_address delivery_zone w
  | CancelOrder order_id notify_customer => cancel_order env order_id notify_customer w
  | UpdateOrderStatus order_id new_status notify_customer =>
      update_order_status env order_id new_status notify_customer w
  | SetPaymentMethod order_id payment_method => set_payment_method env order_id payment_method w
  | CreatePaymentLink vet_id order_id => create_payment_link env vet_id order_id w
  | OAuthCallback code state error => mp_oauth_callback env code state error w
  | Webhook body => mercadopago_webhook body w
  | WebhookV2 vet_id body => mercadopago_webhook_v2 env vet_id body w
  | CartTools session_id cart => ([], set_carts (<[session_id := cart]> (_carts w)) w)
  | Fulfillment order_id status =>
      let '(_, w1) := sheets_update_order_status env order_id status w in ([], w1)
  end.

(** The state after a sequence of calls. *)
Fixpoint run (calls : list (Env * Call)) (w : World) : World :=
  match calls with
  | [] => w
  | (env, c) :: rest => run rest (snd (handle env c w))
  end.

(** A fresh deployment: no order placed, no merchant connected, no
    notification seen; the catalogue sheets are whatever they are. *)
Definition fresh (w : World) : Prop :=
  orders_sheet w = [] /\
  (forall vet_id, get_mp_tokens vet_id w = None) /\
  _processed_notifications w = [].

(** ** Vocabulary of the specification *)

(** The sum of the line subtotals, quantity times unit price, as the
    specification words it. *)
Fixpoint sum_of_line_subtotals (lines : list CartItem.t) : Q :=
  match lines with
  | [] => 0%Q
  | line :: rest =>
      (inject_Z (CartItem.quantity line) * CartItem.unit_price line
       + sum_of_line_subtotals rest)%Q
  end.

(** [c in s]. *)
Fixpoint has_char (c : ascii) (s : string) : bool :=
  match s with
  | EmptyString => false
  | String a r => Ascii.eqb a c || has_char c r
  end.

(** An identifier that cannot be confused with the separator of the
    external reference. *)
Definition bar_free (s : string) : Prop := has_char "|" s = false.

(** ** A small deployment, used to exercise the statements *)

Definition demo_token_response : TokenResponse.t :=
  {| TokenResponse.access_token := "APP_USR-1";
     TokenResponse.refresh_token := Some "TG-1";
     TokenResponse.expires_in := 21600;
     TokenResponse.user_id := "1001" |}.

Definition demo_refresh_response : TokenResponse.t :=
  {| TokenResponse.access_token := "APP_USR-2";
     TokenResponse.refresh_token := None;
     TokenResponse.expires_in := 21600;
     TokenResponse.user_id := "1001" |}.

Definition demo_payment : PaymentData.t :=
  {| PaymentData.external_reference := "DTV|VET001|ORD-0000002A";
     PaymentData.status := "approved";
     PaymentData.status_detail := "accredited" |}.

Definition demo_env : Env :=
  {| has_mp := true;
     utcnow := 1700000000000000;
     uuid4_order := 42 * 2 ^ 96;
     uuid4_event := 7 * 2 ^ 96;
     uuid4_customer := 9 * 2 ^ 96;
     phonenumbers_e164 := fun v => if Py.startswith "+" v then Some v else None;
     post_oauth_code := fun _ => Some demo_token_response;
     post_oauth_refresh := fun _ => Some demo_refresh_response;
     post_preference := fun _ _ _ =>
       Some {| Preference.id := "PREF-1";
               Preference.init_point := Some "https://mp.example/checkout";
               Preference.sandbox_init_point := None |};
     get_payment := fun _ _ => FetchOk demo_payment;
     twilio_status := fun _ => "sent" |}.

Definition demo_line : CartItem.t :=
  {| CartItem.product_sku := "A";
     CartItem.product_name := "Alimento A";
     CartItem.quantity := 2;
     CartItem.unit_price := 100;
     CartItem.currency := "ARS" |}.

Definition demo_cart : CartSummary.t :=
  {| CartSummary.items := [demo_line]; CartSummary.currency := "ARS" |}.

Definition demo_world : World :=
  {| orders_sheet := [];
     events_sheet := [];
     vets_sheet :=
       [ {| VetContext.vet_id := "VET001";
            VetContext.name := "Vet Uno";
            VetContext.whatsapp_e164 := "+5491144443333" |} ];
     customers_sheet := [];
     shipping_sheet := [ {| ShippingRow.Zona := "CABA"; ShippingRow.Precio := 1500 |} ];
     _carts := {[ "s1" := demo_cart ]};
     _token_store := Development {| LocalTokenStore.data := ∅ |};
     _processed_notifications := [];
     mp_requests := [];
     outbox := [] |}.

(** The pickup order of the first end-to-end scenario. *)
Definition demo_create_pickup : Call :=
  CreateOrder "s1" "VET001" "Ana" "Paz" "Ana@Example.com" "+5491155551234"
    "pickup" None None.

Definition demo_world_ordered : World :=
  snd (handle demo_env demo_create_pickup demo_world).

(** A delivery order for a covered zone, placed without an address. *)
Definition demo_create_delivery_without_address : Call :=
  CreateOrder "s1" "VET001" "Ana" "Paz" "ana@example.com" "+5491155551234"
    "DELIVERY" None (Some "caba").

Definition demo_create_delivery : Call :=
  CreateOrder "s1" "VET001" "Ana" "Paz" "ana@example.com" "+5491155551234"
    "DELIVERY" (Some "Av. Siempreviva 742") (Some "caba").

(** A delivery order for a zone that the shipping worksheet does not
    price. *)
Definition demo_create_delivery_unpriced : Call :=
  CreateOrder "s1" "VET001" "Ana" "Paz" "ana@example.com" "+5491155551234"
    "DELIVERY" (Some "Av. Siempreviva 742") (Some "Rosario").

(** The same environment, observed at another instant. *)
Definition at_time (now : Z) (env : Env) : Env :=
  {| has_mp := has_mp env;
     utcnow := now;
     uuid4_order := uuid4_order env;
     uuid4_event := uuid4_event env;
     uuid4_customer := uuid4_customer env;
     phonenumbers_e164 := phonenumbers_e164 env;
     post_oauth_code := post_oauth_code env;
     post_oauth_refresh := post_oauth_refresh env;
     post_preference := post_preference env;
     get_payment := get_payment env;
     twilio_status := twilio_status env |}.

(** The merchant has gone through the OAuth redirect; the token lasts
    six hours. *)
Definition demo_connect : Call :=
  OAuthCallback (Some "TG-code") (Some "VET001|1700000000") None.

Definition demo_world_connected : World :=
  snd (handle demo_env demo_connect demo_world_ordered).

Definition demo_stored_token : StoredToken.t :=
  {| StoredToken.vet_id := "VET001";
     StoredToken.access_token := "APP_USR-1";
     StoredToken.refresh_token := "TG-1";
     StoredToken.expires_at := 1700000000000000 + microseconds 21600;
     StoredToken.mp_user_id := "1001";
     StoredToken.updated_at := 1700000000000000 |}.

(** Two minutes before the token expires. *)
Definition demo_env_near_expiry : Env :=
  at_time (1700000000000000 + microseconds (21600 - 120)) demo_env.

(** A refresh answer without a refresh token whose lifetime, a million
    million seconds, ends after the last [datetime]. *)
Definition demo_long_lived_response : TokenResponse.t :=
  {| TokenResponse.access_token := "APP_USR-3";
     TokenResponse.refresh_token := None;
     TokenResponse.expires_in := 1000000000000;
     TokenResponse.user_id := "1001" |}.

(** The same environment with the processor answering every refresh that
    way. *)
Definition refresh_long_lived (env : Env) : Env :=
  {| has_mp := has_mp env;
     utcnow := utcnow env;
     uuid4_order := uuid4_order env;
     uuid4_event := uuid4_event env;
     uuid4_customer := uuid4_customer env;
     phonenumbers_e164 := phonenumbers_e164 env;
     post_oauth_code := post_oauth_code env;
     post_oauth_refresh := fun _ => Some demo_long_lived_response;
     post_preference := post_preference env;
     get_payment := get_payment env;
     twilio_status := twilio_status env |}.

(** The same environment with the checkout endpoint failing. *)
Definition gateway_down (env : Env) : Env :=
  {| has_mp := has_mp env;
     utcnow := utcnow env;
     uuid4_order := uuid4_order env;
     uuid4_event := uuid4_event env;
     uuid4_customer := uuid4_customer env;
     phonenumbers_e164 := phonenumbers_e164 env;
     post_oauth_code := post_oauth_code env;
     post_oauth_refresh := post_oauth_refresh env;
     post_preference := fun _ _ _ => None;
     get_payment := get_payment env;
     twilio_status := twilio_status env |}.

(** The payment link of the order has been created. *)
Definition demo_world_linked : World :=
  snd (handle demo_env (CreatePaymentLink "VET001" "ORD-0000002A") demo_world_connected).

(** The same environment with the payment lookup answering 500. *)
Definition fetch_failing (env : Env) : Env :=
  {| has_mp := has_mp env;
     utcnow := utcnow env;
     uuid4_order := uuid4_order env;
     uuid4_event := uuid4_event env;
     uuid4_customer := uuid4_customer env;
     phonenumbers_e164 := phonenumbers_e164 env;
     post_oauth_code := post_oauth_code env;
     post_oauth_refresh := post_oauth_refresh env;
     post_preference := post_preference env;
     get_payment := fun _ _ => FetchRejected 500;
     twilio_status := twilio_status env |}.

(** A payment notification of the merchant. *)
Definition demo_notification : MPWebhookPayload.t :=
  {| MPWebhookPayload.type := "payment";
     MPWebhookPayload.action := "payment.updated";
     MPWebhookPayload.data_id := Some "777" |}.

Definition demo_other_notification : MPWebhookPayload.t :=
  {| MPWebhookPayload.type := "payment";
     MPWebhookPayload.action := "payment.created";
     MPWebhookPayload.data_id := Some "888" |}.

(** Binary numerals, least significant digit first. *)
Fixpoint binary_digits (p : positive) : string :=
  match p with
  | xH => "1"
  | xO q => String "0" (binary_digits q)
  | xI q => String "1" (binary_digits q)
  end.

(** The notification of payment number [p] on the generic route. *)
Definition numbered_notification (p : positive) : MPWebhookPayload.t :=
  {| MPWebhookPayload.type := "payment";
     MPWebhookPayload.action := "payment.created";
     MPWebhookPayload.data_id := Some (binary_digits p) |}.

Definition numbered_key (p : positive) : string :=
  "payment.created:" ++ binary_digits p.

(** The notifications of payments 1 to [count], in that order, and the
    keys they leave in the set, the latest first. *)
Fixpoint numbered_calls (count : nat) : list (Env * Call) :=
  match count with
  | O => []
  | S k =>
      numbered_calls k ++
      [(demo_env, Webhook (Some (numbered_notification (Pos.of_succ_nat k))))]
  end.

Fixpoint numbered_keys (count : nat) : list string :=
  match count with
  | O => []
  | S k => numbered_key (Pos.of_succ_nat k) :: numbered_keys k
  end.

(** The same keys, computed with a counter. *)
Definition numbered_keys_iter (count : N) : list string :=
  snd (N.iter count
         (fun '(p, keys) => (Pos.succ p, numbered_key p :: keys))
         (1%positive, [])).

(** The deployment, with the order awaiting payment, after 9999
    notifications on the generic route. *)
Definition busy_world : World :=
  set_processed (numbered_keys_iter 9999) demo_world_linked.

(** The shape an order keeps while it goes through the engine: an
    identifier without separator and, once the external reference is
    set, a merchant identifier without separator and the reference
    [DTV|vet_id|order_id]. *)
Definition reference_ok (order : Order.t) : Prop :=
  bar_free (Order.order_id order) /\
  match Order.external_reference order with
  | None => True
  | Some reference =>
      bar_free (Order.vet_id order) /\
      reference = Order.generate_external_reference order
  end.

(** Every merchant the vault holds a token for has an identifier
    without separator. *)
Definition merchants_ok (store : token_store) : Prop :=
  forall (vet_id : string) (tokens : StoredToken.t),
    get_token store vet_id = Some tokens -> bar_free vet_id.

Definition well_formed (w : World) : Prop :=
  Forall reference_ok (orders_sheet w) /\ merchants_ok (_token_store w).

(** ** Connection checks, app/models/schemas.py and app/tools/oauth_mp.py *)

(** The [is_expired] property of [StoredToken], read at [utcnow env]:
    [datetime.utcnow() >= self.expires_at - timedelta(minutes=5)]. *)
Definition is_expired (env : Env) (self : StoredToken.t) : bool :=
  (utcnow env >=? StoredToken.expires_at self - margin)%Z.


(** The settings [start_mp_oauth] reads, app/config.py. *)
Module Settings.
Record t := {
  mp_client_id : string;
  mp_client_secret : string;
  mp_redirect_uri : string;
  mp_auth_url : string;
}.

Definition has_mp (self : t) : bool :=
  Py.truthy (mp_client_id self) && Py.truthy (mp_client_secret self).

(** The query string joins [k=v] pairs with [&], in the order of the
    dict literal; nothing is percent-encoded. *)
Definition get_mp_oauth_url (self : t) (state : string) : string :=
  (mp_auth_url self ++ "?" ++ "client_id=" ++ mp_client_id self
   ++ "&" ++ "response_type=code"
   ++ "&" ++ "platform_id=mp"
   ++ "&" ++ "redirect_uri=" ++ mp_redirect_uri self
   ++ "&" ++ "state=" ++ state)%string.
End Settings.

(** [str(n)] for a non-negative integer. *)
Definition str_of_N (n : N) : string := NilZero.string_of_uint (N.to_uint n).

(** [start_mp_oauth]; [time] is [int(time.time())]. *)
Definition start_mp_oauth (settings : Settings.t) (time : N) (vet_id : string) : Py.dict :=
  if negb (Settings.has_mp settings) then [("status", Py.Str "not_configured")]
  else
    let state := (vet_id ++ "|" ++ str_of_N time)%string in
    let redirect_url := Settings.get_mp_oauth_url settings state in
    [("status", Py.Str "success"); ("redirect_url", Py.Str redirect_url)].

(** ** The payment return pages, app/main.py *)

(** The amount line of a return page: the default label, or the total
    and the currency of the order, which the page formats. *)
Inductive Amount :=
| AmountLabel (label : string)
| AmountOf (total_amount : Q) (currency : string).

(** [/payment/success]: the order id and the amount handed to the HTML
    template. *)
Definition payment_success (order_id external_reference : option string) (w : World)
    : string * Amount :=
  let order_id :=
    if negb (Py.truthy_opt order_id) && Py.truthy_opt external_reference
       && has_char "|" (Py.or_empty external_reference)
    then
      let parts := Py.split "|" (Py.or_empty external_reference) in
      if (3 <=? List.length parts)%nat then Some (nth 2 parts EmptyString) else order_id
    else order_id in
  let amount :=
    if Py.truthy_opt order_id then
      match get_order_by_id (Py.or_empty order_id) w with
      | Some order => AmountOf (Order.total_amount order) (Order.currency order)
      | None => AmountLabel "Confirmado"
      end
    else AmountLabel "Confirmado" in
  (if Py.truthy_opt order_id then Py.or_empty order_id else "N/A", amount).

(** [/payment/pending]. *)
Definition payment_pending (order_id external_reference : option string) (w : World)
    : string * Amount :=
  let order_id :=
    if negb (Py.truthy_opt order_id) && Py.truthy_opt external_reference
       && has_char "|" (Py.or_empty external_reference)
    then
      let parts := Py.split "|" (Py.or_empty external_reference) in
      if (3 <=? List.length parts)%nat then Some (nth 2 parts EmptyString) else order_id
    else order_id in
  let amount :=
    if Py.truthy_opt order_id then
      match get_order_by_id (Py.or_empty order_id) w with
      | Some order => AmountOf (Order.total_amount order) (Order.currency order)
      | None => AmountLabel "Pendiente"
      end
    else AmountLabel "Pendiente" in
  (if Py.truthy_opt order_id then Py.or_empty order_id else "N/A", amount).

(** ** The catalogue, app/models/schemas.py and app/infra/sheets.py *)

Module Product.
Record t := {
  sku : string;
  product_name : string;
  price_distributor : Q;
  price_customer : Q;
  currency : string;
  stock : Z;
  active : bool;
}.

(** The [ge=0] constraints checked by [Product(...)]. *)
Definition valid (p : t) : bool :=
  Qle_bool 0%Q (price_distributor p) && Qle_bool 0%Q (price_customer p) && (0 <=? stock p)%Z.
End Product.

(** [get_catalog]: the rows of the catalogue worksheet, which is not
    part of [World] and is passed along; inactive rows are skipped on
    request, and so are the rows [Product(...)] refuses. *)
Definition get_catalog (catalog_sheet : list Product.t) (active_only : bool)
    : list Product.t :=
  filter
    (fun row => (negb active_only || Product.active row) && Product.valid row)
    catalog_sheet.

Definition get_product_by_sku (catalog_sheet : list Product.t) (sku : string)
    : option Product.t :=
  find (fun product => String.eqb (Product.sku product) sku)
    (get_catalog catalog_sheet false).

(** ** The cart tools, app/tools/cart.py *)

Definition _save_cart (session_id : string) (cart : CartSummary.t) (w : World) : World :=
  set_carts (<[session_id := cart]> (_carts w)) w.

Definition has_sku (product_sku : string) (item : CartItem.t) : bool :=
  String.eqb (CartItem.product_sku item) product_sku.

(** The loop [for idx, item in enumerate(cart.items): if
    item.product_sku == product_sku: ...; break]: the index and the item
    of the first line with the SKU. *)
Definition find_item (product_sku : string) (items : list CartItem.t)
    : option (nat * CartItem.t) :=
  list_find (fun item => has_sku product_sku item = true) items.

(** The cart tools answer with their status; the numeric fields and the
    cart summary of the result dicts are left out.  A [CartItem(...)]
    that violates the field constraints raises, and the tool answers
    ["error"] before it has touched the cart. *)
Definition add_to_cart (catalog_sheet : list Product.t) (session_id product_sku : string)
    (quantity : Z) (w : World) : Py.dict * World :=
  if (quantity <=? 0)%Z then ([("status", Py.Str "error")], w)
  else
    match get_product_by_sku catalog_sheet product_sku with
    | None => ([("status", Py.Str "not_found")], w)
    | Some product =>
        if negb (Product.active product) then ([("status", Py.Str "not_found")], w)
        else
          let '(cart, w1) := _get_cart session_id w in
          let existing := find_item product_sku (CartSummary.items cart) in
          let current_qty :=
            match existing with
            | Some (_, existing_item) => CartItem.quantity existing_item
            | None => 0%Z
            end in
          let total_qty := (current_qty + quantity)%Z in
          if (Product.stock product <? total_qty)%Z
          then ([("status", Py.Str "no_stock");
                 ("product_name", Py.Str (Product.product_name product))], w1)
          else
            match existing with
            | Some (existing_idx, _) =>
                let updated_item :=
                  {| CartItem.product_sku := product_sku;
                     CartItem.product_name := Product.product_name product;
                     CartItem.quantity := total_qty;
                     CartItem.unit_price := Product.price_customer product;
                     CartItem.currency := Product.currency product |} in
                if negb (CartItem.valid updated_item) then ([("status", Py.Str "error")], w1)
                else
                  ([("status", Py.Str "updated")],
                   _save_cart session_id
                     {| CartSummary.items :=
                          <[existing_idx := updated_item]> (CartSummary.items cart);
                        CartSummary.currency := CartSummary.currency cart |} w1)
            | None =>
                let new_item :=
                  {| CartItem.product_sku := product_sku;
                     CartItem.product_name := Product.product_name product;
                     CartItem.quantity := quantity;
                     CartItem.unit_price := Product.price_customer product;
                     CartItem.currency := Product.currency product |} in
                if negb (CartItem.valid new_item) then ([("status", Py.Str "error")], w1)
                else
                  ([("status", Py.Str "added")],
                   _save_cart session_id
                     {| CartSummary.items := CartSummary.items cart ++ [new_item];
                        CartSummary.currency := CartSummary.currency cart |} w1)
            end
    end.

Definition view_cart (session_id : string) (w : World) : Py.dict * World :=
  let '(cart, w1) := _get_cart session_id w in
  if CartSummary.is_empty cart then ([("status", Py.Str "empty")], w1)
  else ([("status", Py.Str "has_items")], w1).

Definition remove_from_cart (session_id product_sku : string) (w : World)
    : Py.dict * World :=
  let '(cart, w1) := _get_cart session_id w in
  match find_item product_sku (CartSummary.items cart) with
  | None => ([("status", Py.Str "not_in_cart")], w1)
  | Some (idx, item_to_remove) =>
      ([("status", Py.Str "removed")],
       _save_cart session_id
         {| CartSummary.items := delete idx (CartSummary.items cart);
            CartSummary.currency := CartSummary.currency cart |} w1)
  end.

Definition update_cart_quantity (catalog_sheet : list Product.t)
    (session_id product_sku : string) (new_quantity : Z) (w : World) : Py.dict * World :=
  if (new_quantity <=? 0)%Z then remove_from_cart session_id product_sku w
  else
    let '(cart, w1) := _get_cart session_id w in
    match find_item product_sku (CartSummary.items cart) with
    | None => ([("status", Py.Str "not_in_cart")], w1)
    | Some (item_idx, old_item) =>
        let product := get_product_by_sku catalog_sheet product_sku in
        if match product with
           | Some product => (Product.stock product <? new_quantity)%Z
           | None => false
           end
        then ([("status", Py.Str "no_stock")], w1)
        else
          let updated_item :=
            {| CartItem.product_sku := CartItem.product_sku old_item;
               CartItem.product_name := CartItem.product_name old_item;
               CartItem.quantity := new_quantity;
               CartItem.unit_price := CartItem.unit_price old_item;
               CartItem.currency := CartItem.currency old_item |} in
          if negb (CartItem.valid updated_item) then ([("status", Py.Str "error")], w1)
          else
            ([("status", Py.Str "updated")],
             _save_cart session_id
               {| CartSummary.items := <[item_idx := updated_item]> (CartSummary.items cart);
                  CartSummary.currency := CartSummary.currency cart |} w1)
    end.

(** ** Vocabulary of the further properties *)

(** The cells of an order that no operation rewrites. *)
Definition immutable_cells (order : Order.t) :=
  (Order.order_id order, Order.vet_id order, Order.customer order, Order.delivery order,
   Order.items order, Order.subtotal order, Order.shipping_cost order,
   Order.total_amount order, Order.currency order, Order.created_at order).

(** An order id as [create_order] generates it. *)
Definition generated_order_id (order_id : string) : Prop :=
  exists u : N, order_id = ("ORD-" ++ uuid_hex8_upper u)%string.

(** A call other than a notification on the generic webhook route. *)
Definition not_generic_route (call : Env * Call) : Prop :=
  match snd call with
  | Webhook _ => False
  | _ => True
  end.

(** A call that does not write the status cell of the order [order_id]:
    any call other than a payment method choice, a payment link or a
    distributor update for that order, and other than a notification on
    the merchant-scoped webhook route. *)
Definition leaves_status_of (order_id : string) (call : Env * Call) : Prop :=
  match snd call with
  | SetPaymentMethod id _ | CreatePaymentLink _ id | Fulfillment id _ => id <> order_id
  | WebhookV2 _ _ => False
  | _ => True
  end.

(** The row a lookup by [order_id] returns is in state CANCELLED. *)
Definition cancelled_in (order_id : string) (rows : list Order.t) : Prop :=
  exists row : Order.t,
    find (has_order_id order_id) rows = Some row /\
    Order.status row = OrderStatus.CANCELLED.

(** The shape the cart tools keep: every line satisfies the field
    constraints of [CartItem] and no two lines carry the same SKU. *)
Definition cart_ok (cart : CartSummary.t) : Prop :=
  Forall (fun item => CartItem.valid item = true) (CartSummary.items cart) /\
  NoDup (map CartItem.product_sku (CartSummary.items cart)).

Definition carts_ok (w : World) : Prop :=
  forall (session_id : string) (cart : CartSummary.t),
    _carts w !! session_id = Some cart -> cart_ok cart.

(** The cart of a session, as [_get_cart] returns it. *)
Definition cart_of (session_id : string) (w : World) : CartSummary.t :=
  fst (_get_cart session_id w).

(** The number of units of a product in a cart. *)
Definition units_of (product_sku : string) (cart : CartSummary.t) : Z :=
  match find_item product_sku (CartSummary.items cart) with
  | Some (_, item) => CartItem.quantity item
  | None => 0%Z
  end.

(** ** More of the small deployment *)

Definition demo_settings : Settings.t :=
  {| Settings.mp_client_id := "1234";
     Settings.mp_client_secret := "secret";
     Settings.mp_redirect_uri := "https://dtv.example/mp/oauth/callback";
     Settings.mp_auth_url := "https://auth.mercadopago.com.ar/authorization" |}.

Definition demo_catalog : list Product.t :=
  [ {| Product.sku := "A"; Product.product_name := "Alimento A";
       Product.price_distributor := 80; Product.price_customer := 100;
       Product.currency := "ARS"; Product.stock := 5; Product.active := true |};
    {| Product.sku := "B"; Product.product_name := "Alimento B";
       Product.price_distributor := 40; Product.price_customer := 50;
       Product.currency := "ARS"; Product.stock := 3; Product.active := true |} ].

(** The same environment with the refresh exchange failing. *)
Definition refresh_down (env : Env) : Env :=
  {| has_mp := has_mp env;
     utcnow := utcnow env;
     uuid4_order := uuid4_order env;
     uuid4_event := uuid4_event env;
     uuid4_customer := uuid4_customer env;
     phonenumbers_e164 := phonenumbers_e164 env;
     post_oauth_code := post_oauth_code env;
     post_oauth_refresh := fun _ => None;
     post_preference := post_preference env;
     get_payment := get_payment env;
     twilio_status := twilio_status env |}.

(** The same environment with the processor reporting another status
    of the payment. *)
Definition payment_reported (status : string) (env : Env) : Env :=
  {| has_mp := has_mp env;
     utcnow := utcnow env;
     uuid4_order := uuid4_order env;
     uuid4_event := uuid4_event env;
     uuid4_customer := uuid4_customer env;
     phonenumbers_e164 := phonenumbers_e164 env;
     post_oauth_code := post_oauth_code env;
     post_oauth_refresh := post_oauth_refresh env;
     post_preference := post_preference env;
     get_payment := fun _ _ =>
       FetchOk {| PaymentData.external_reference := "DTV|VET001|ORD-0000002A";
                  PaymentData.status := status;
                  PaymentData.status_detail := EmptyString |};
     twilio_status := twilio_status env |}.

(** * Properties *)

(** ** The built-ins on sample inputs *)

Example split_three_parts :
  Py.split "|" "DTV|VET001|ORD-0000002A" = ["DTV"; "VET001"; "ORD-0000002A"].
Proof. reflexivity. Qed.

Example split_keeps_empty_parts :
  Py.split "|" "a||b|" = ["a"; EmptyString; "b"; EmptyString] /\
  Py.split "|" EmptyString = [EmptyString].
Proof. split; reflexivity. Qed.

Example strip_lower_upper :
  Py.strip "  San Isidro " = "San Isidro" /\
  Py.lower "San Isidro" = "san isidro" /\
  Py.upper "delivery" = "DELIVERY".
Proof. repeat split. Qed.

Example uuid_hex8_upper_sample :
  uuid_hex8_upper (0xABCDEF01 * 2 ^ 96 + 12345) = "ABCDEF01".
Proof. reflexivity. Qed.

(** ** The end-to-end scenarios of the specification *)

(** Two units at 100, picked up: subtotal 200, no shipping, total 200,
    state CREATED. *)
Example scenario_pickup_order :
  match orders_sheet demo_world_ordered with
  | [order] =>
      Order.order_id order = "ORD-0000002A" /\
      Qeq (Order.subtotal order) 200 /\
      Qeq (Order.shipping_cost order) 0 /\
      Qeq (Order.total_amount order) 200 /\
      Order.status order = OrderStatus.CREATED
  | _ => False
  end.
Proof. vm_compute. repeat split. Qed.

(** Payment at the counter: PAYMENT_AT_VET, and no request to the
    processor. *)
Example scenario_pay_at_vet :
  let w := snd (set_payment_method demo_env "ORD-0000002A" "at_vet" demo_world_ordered) in
  Order.status <$> get_order_by_id "ORD-0000002A" w = Some OrderStatus.PAYMENT_AT_VET /\
  mp_requests w = [].
Proof. vm_compute. repeat split. Qed.

(** Payment link: PAYMENT_PENDING_MP, the preference id and the
    reference DTV|vet_id|order_id. *)
Example scenario_payment_link :
  let order := get_order_by_id "ORD-0000002A" demo_world_linked in
  Order.status <$> order = Some OrderStatus.PAYMENT_PENDING_MP /\
  Order.mp_preference_id <$> order = Some (Some "PREF-1") /\
  Order.external_reference <$> order = Some (Some "DTV|VET001|ORD-0000002A").
Proof. vm_compute. repeat split. Qed.

(** Cancelling a delivered order is refused and changes nothing. *)
Example scenario_cancel_delivered :
  let w := snd (handle demo_env (Fulfillment "ORD-0000002A" OrderStatus.DELIVERED)
                  demo_world_ordered) in
  cancel_order demo_env "ORD-0000002A" true w = ([("status", Py.Str "cannot_cancel")], w).
Proof. vm_compute. reflexivity. Qed.


(** ** The processor-status table *)

(** C1: the processor-status to order-status mapping sends "approved" to
    PAYMENT_APPROVED, "pending" and "in_process" to PAYMENT_PENDING_MP,
    "rejected" to PAYMENT_REJECTED, "cancelled" and "refunded" to
    CANCELLED, and every other string to PAYMENT_PENDING_MP. *)
Theorem map_mp_status_to_order_status_table :
  _map_mp_status_to_order_status "approved" = OrderStatus.PAYMENT_APPROVED /\
  _map_mp_status_to_order_status "pending" = OrderStatus.PAYMENT_PENDING_MP /\
  _map_mp_status_to_order_status "in_process" = OrderStatus.PAYMENT_PENDING_MP /\
  _map_mp_status_to_order_status "rejected" = OrderStatus.PAYMENT_REJECTED /\
  _map_mp_status_to_order_status "cancelled" = OrderStatus.CANCELLED /\
  _map_mp_status_to_order_status "refunded" = OrderStatus.CANCELLED /\
  forall mp_status : string,
    mp_status <> "approved" -> mp_status <> "pending" -> mp_status <> "in_process" ->
    mp_status <> "rejected" -> mp_status <> "cancelled" -> mp_status <> "refunded" ->
    _map_mp_status_to_order_status mp_status = OrderStatus.PAYMENT_PENDING_MP.
Proof.
  repeat (split; [reflexivity |]).
  intros s Ha Hp Hi Hr Hc Hf.
  unfold _map_mp_status_to_order_status; cbn [mapping_get].
  repeat match goal with
  | |- context [String.eqb ?k s] =>
      destruct (String.eqb_spec k s) as [E | _]; [symmetry in E; contradiction |]
  end.
  reflexivity.
Qed.

Lemma map_mp_status_to_order_status_table_witness :
  _map_mp_status_to_order_status "charged_back" = OrderStatus.PAYMENT_PENDING_MP.
Proof.
  apply (proj2 (proj2 (proj2 (proj2 (proj2 (proj2
           map_mp_status_to_order_status_table))))) "charged_back");
    discriminate.
Defined.

(** ** Rows of the orders worksheet *)

Section FirstRow.
Context {A : Type} (cond : A -> bool) (write : A -> A).

Lemma update_first_row_found (records : list A) (row : A) :
  find cond records = Some row ->
  exists records',
    update_first_row cond write records = Some records' /\
    (cond (write row) = true -> find cond records' = Some (write row)).
Proof.
  induction records as [| r rest IH]; simpl; [discriminate |].
  destruct (cond r) eqn:Hr.
  - intros [= ->]. eexists; split; [reflexivity |].
    intros Hw; simpl; now rewrite Hw.
  - intros Hf. destruct (IH Hf) as (rest' & -> & Hfind).
    eexists; split; [reflexivity |].
    intros Hw; simpl; rewrite Hr; auto.
Qed.

Lemma update_first_row_missing (records : list A) :
  find cond records = None -> update_first_row cond write records = None.
Proof.
  induction records as [| r rest IH]; simpl; [reflexivity |].
  destruct (cond r); [discriminate |].
  intros Hf; now rewrite (IH Hf).
Qed.

(** A property of rows survives the rewrite when the rewritten row,
    the first one that matches, keeps it. *)
Lemma update_first_row_Forall (P : A -> Prop) (records records' : list A) :
  Forall P records ->
  (forall row, find cond records = Some row -> P row -> P (write row)) ->
  update_first_row cond write records = Some records' ->
  Forall P records'.
Proof.
  revert records'.
  induction records as [| r rest IH]; simpl; intros records' HP Hw; [discriminate |].
  inversion HP as [| ? ? Hr Hrest]; subst.
  destruct (cond r) eqn:Hc.
  - intros [= <-]. constructor; auto.
  - destruct (update_first_row cond write rest) eqn:Hu; [| discriminate].
    intros [= <-]. constructor; auto.
Qed.
End FirstRow.

Lemma parse_order_row_status (row : Order.t) :
  Order.status (_parse_order_row row) = Order.status row.
Proof. unfold _parse_order_row. now destruct (_ && _). Qed.

Lemma parse_order_row_vet_id (row : Order.t) :
  Order.vet_id (_parse_order_row row) = Order.vet_id row.
Proof. unfold _parse_order_row. now destruct (_ && _). Qed.

(** ** Cancellation *)

Lemma cancel_order_already_cancelled (env : Env) (w : World) (order_id : string)
    (notify_customer : bool) (order : Order.t) :
  get_order_by_id order_id w = Some order ->
  Order.status order = OrderStatus.CANCELLED ->
  cancel_order env order_id notify_customer w
  = ([("status", Py.Str "already_cancelled")], w).
Proof. intros Hget Hs. unfold cancel_order. now rewrite Hget, Hs. Qed.

Lemma cancel_order_cannot_cancel (env : Env) (w : World) (order_id : string)
    (notify_customer : bool) (order : Order.t) :
  get_order_by_id order_id w = Some order ->
  In (Order.status order) non_cancellable ->
  cancel_order env order_id notify_customer w
  = ([("status", Py.Str "cannot_cancel")], w).
Proof.
  intros Hget [Hs | [Hs | []]]; unfold cancel_order; now rewrite Hget, <- Hs.
Qed.

Lemma cancel_order_cancels (env : Env) (w : World) (order_id : string)
    (notify_customer : bool) (order : Order.t) :
  get_order_by_id order_id w = Some order ->
  Order.status order <> OrderStatus.CANCELLED ->
  ~ In (Order.status order) non_cancellable ->
  Py.status (fst (cancel_order env order_id notify_customer w)) = "cancelled" /\
  Order.status <$> get_order_by_id order_id
                     (snd (cancel_order env order_id notify_customer w))
  = Some OrderStatus.CANCELLED.
Proof.
  intros Hget Hc Hn. unfold cancel_order. rewrite Hget.
  unfold get_order_by_id in Hget.
  destruct (find (has_order_id order_id) (orders_sheet w)) as [row |] eqn:Hfind;
    [| discriminate].
  injection Hget as <-. rewrite parse_order_row_status in *.
  destruct (update_first_row_found (has_order_id order_id)
              (Order.with_status OrderStatus.CANCELLED (utcnow env)) _ _ Hfind)
    as (rows' & Hupd & Hfind').
  assert (Hid : has_order_id order_id
                  (Order.with_status OrderStatus.CANCELLED (utcnow env) row) = true)
    by exact (proj2 (find_some _ _ Hfind)).
  specialize (Hfind' Hid).
  unfold sheets_update_order_status. rewrite Hupd.
  unfold non_cancellable in Hn.
  destruct (Order.status row); simpl in Hn; try tauto;
    destruct notify_customer; simpl;
    (split; [reflexivity |]);
    unfold get_order_by_id; simpl; rewrite Hfind'; simpl;
    now rewrite parse_order_row_status.
Qed.

(** C2: for an existing order, cancel_order answers already_cancelled
    exactly when the status is CANCELLED, cannot_cancel exactly when it
    is DELIVERED or COMPLETED, leaves every store untouched in both
    rejections, and otherwise sets the status of the order to CANCELLED. *)
Theorem cancel_order_by_status (env : Env) (w : World) (order_id : string)
    (notify_customer : bool) (order : Order.t) :
  get_order_by_id order_id w = Some order ->
  let result := fst (cancel_order env order_id notify_customer w) in
  let w' := snd (cancel_order env order_id notify_customer w) in
  (Py.status result = "already_cancelled" <-> Order.status order = OrderStatus.CANCELLED) /\
  (Py.status result = "cannot_cancel" <->
     Order.status order = OrderStatus.DELIVERED \/
     Order.status order = OrderStatus.COMPLETED) /\
  (Py.status result = "already_cancelled" \/ Py.status result = "cannot_cancel" -> w' = w) /\
  (Order.status order <> OrderStatus.CANCELLED ->
   Order.status order <> OrderStatus.DELIVERED ->
   Order.status order <> OrderStatus.COMPLETED ->
   Py.status result = "cancelled" /\
   Order.status <$> get_order_by_id order_id w' = Some OrderStatus.CANCELLED).
Proof.
  intros Hget; cbv zeta.
  destruct (Order.status order) eqn:Hs.
  10: { rewrite (cancel_order_already_cancelled env w order_id notify_customer order Hget Hs).
        simpl. intuition (try discriminate; congruence). }
  9: { rewrite (cancel_order_cannot_cancel env w order_id notify_customer order Hget)
         by (rewrite Hs; simpl; auto).
       simpl. intuition (try discriminate; congruence). }
  9: { rewrite (cancel_order_cannot_cancel env w order_id notify_customer order Hget)
         by (rewrite Hs; simpl; auto).
       simpl. intuition (try discriminate; congruence). }
  all: destruct (cancel_order_cancels env w order_id notify_customer order Hget) as [Hr Hg];
    [rewrite Hs; discriminate
    | rewrite Hs; simpl; intros [H | [H | []]]; discriminate
    | rewrite Hr; intuition (try discriminate; congruence)].
Qed.

Lemma cancel_order_by_status_witness :
  Py.status (fst (cancel_order demo_env "ORD-0000002A" true demo_world_ordered)) = "cancelled".
Proof.
  refine (proj1 (proj2 (proj2 (proj2
    (cancel_order_by_status demo_env demo_world_ordered "ORD-0000002A" true
       (_parse_order_row
          (order_row
             {| Order.order_id := "ORD-0000002A";
                Order.vet_id := "VET001";
                Order.customer :=
                  {| CustomerData.name := "Ana"; CustomerData.lastname := "Paz";
                     CustomerData.email := "ana@example.com";
                     CustomerData.whatsapp_e164 := "+5491155551234" |};
                Order.delivery :=
                  {| DeliveryData.mode := DeliveryMode.PICKUP;
                     DeliveryData.address := None; DeliveryData.zone := None |};
                Order.items := [demo_line];
                Order.subtotal := CartSummary.total_amount demo_cart;
                Order.shipping_cost := 0;
                Order.total_amount := CartSummary.total_amount demo_cart + 0;
                Order.currency := "ARS";
                Order.status := OrderStatus.CREATED;
                Order.payment_method := None;
                Order.mp_preference_id := None;
                Order.mp_payment_id := None;
                Order.mp_status := None;
                Order.external_reference := None;
                Order.created_at := utcnow demo_env;
                Order.updated_at := utcnow demo_env |})) _))) _ _ _));
    [vm_compute; reflexivity | discriminate | discriminate | discriminate].
Defined.

(** ** Order creation *)

Lemma fold_left_Qplus_acc (amounts : list Q) (acc : Q) :
  Qeq (fold_left Qplus amounts acc) (acc + fold_left Qplus amounts 0)%Q.
Proof.
  revert acc. induction amounts as [| a rest IH]; intros acc; simpl.
  - now rewrite Qplus_0_r.
  - rewrite (IH (acc + a)%Q), (IH (0 + a)%Q). ring.
Qed.

Lemma total_amount_is_sum_of_line_subtotals (cart : CartSummary.t) :
  Qeq (CartSummary.total_amount cart) (sum_of_line_subtotals (CartSummary.items cart)).
Proof.
  unfold CartSummary.total_amount.
  induction (CartSummary.items cart) as [| line rest IH]; simpl; [reflexivity |].
  rewrite fold_left_Qplus_acc, IH. unfold CartItem.subtotal. ring.
Qed.

Lemma clear_cart_orders (session_id : string) (w : World) :
  orders_sheet (clear_cart session_id w) = orders_sheet w.
Proof.
  unfold clear_cart, _get_cart.
  destruct (_carts w !! session_id) as [cart |]; simpl;
    [destruct (CartSummary.is_empty cart) |]; reflexivity.
Qed.

Lemma get_cart_for_order_some (session_id : string) (cart : CartSummary.t) (w : World) :
  _carts w !! session_id = Some cart ->
  CartSummary.items cart <> [] ->
  get_cart_for_order session_id w = (Some cart, w).
Proof.
  intros Hc Hne. unfold get_cart_for_order, _get_cart. rewrite Hc.
  unfold CartSummary.is_empty. now destruct (CartSummary.items cart).
Qed.

(** [create_customer] leaves the worksheet as it is or appends one row,
    and touches nothing else. *)
Lemma create_customer_cases (env : Env) (vet_id name lastname email whatsapp_e164 : string)
    (address : option string) (w : World) :
  create_customer env vet_id name lastname email whatsapp_e164 address w = w \/
  exists customer : Customer.t,
    create_customer env vet_id name lastname email whatsapp_e164 address w
    = set_customers (customers_sheet w ++ [customer]) w.
Proof.
  unfold create_customer.
  destruct (get_customer_by_phone_or_email vet_id whatsapp_e164 email w);
    [left; reflexivity | right; eexists; reflexivity].
Qed.

(** No DELIVERY order is ever created: whatever the cart, the customer
    and the zone, the answer is not created and the orders worksheet, the
    audit log and the outbox are as before. *)
Lemma create_order_delivery_never_creates (env : Env) (w : World)
    (session_id vet_id customer_name customer_lastname customer_email
       customer_whatsapp delivery_mode : string)
    (delivery_address delivery_zone : option string) :
  DeliveryMode.of_value (Py.upper delivery_mode) = Some DeliveryMode.DELIVERY ->
  let result :=
    fst (create_order env session_id vet_id customer_name customer_lastname
           customer_email customer_whatsapp delivery_mode delivery_address delivery_zone w) in
  let w' :=
    snd (create_order env session_id vet_id customer_name customer_lastname
           customer_email customer_whatsapp delivery_mode delivery_address delivery_zone w) in
  Py.status result <> "created" /\
  orders_sheet w' = orders_sheet w /\
  events_sheet w' = events_sheet w /\
  outbox w' = outbox w.
Proof.
  intros Hmode. cbv zeta.
  unfold create_order, get_cart_for_order, _get_cart. rewrite Hmode.
  cbn [is_delivery andb].
  destruct (create_customer_cases env vet_id (Py.strip customer_name)
              (Py.strip customer_lastname) (Py.lower (Py.strip customer_email))
              customer_whatsapp delivery_address w) as [Hsame | [customer Hnew]].
  - destruct (_carts w !! session_id) as [cart |] eqn:Hcart; cbn [fst snd].
    + destruct (CartSummary.is_empty cart); cbn [fst snd];
        [repeat split; discriminate |].
      destruct (CustomerData.make _ _ _ _ _); cbn [fst snd];
        [| repeat split; discriminate].
      destruct (Py.truthy_opt delivery_address); cbn [negb fst snd];
        [| repeat split; discriminate].
      destruct (Py.truthy_opt delivery_zone); cbn [negb fst snd];
        [| repeat split; discriminate].
      rewrite Hsame. repeat split; discriminate.
    + repeat split; discriminate.
  - destruct (_carts w !! session_id) as [cart |] eqn:Hcart; cbn [fst snd].
    + destruct (CartSummary.is_empty cart); cbn [fst snd];
        [repeat split; discriminate |].
      destruct (CustomerData.make _ _ _ _ _); cbn [fst snd];
        [| repeat split; discriminate].
      destruct (Py.truthy_opt delivery_address); cbn [negb fst snd];
        [| repeat split; discriminate].
      destruct (Py.truthy_opt delivery_zone); cbn [negb fst snd];
        [| repeat split; discriminate].
      rewrite Hnew. repeat split; discriminate.
    + repeat split; discriminate.
Qed.

(** C3 fails on the code.  The cart is not empty, the customer data is
    valid, the address is given and the zone is priced at 1500, yet the
    DELIVERY order is answered error and no order is persisted, while a
    customers row has been written: [create_order] receives the dict of
    the [get_shipping_cost] tool where it expects the looked-up cost, and
    adding it to the subtotal raises.  For a zone that the shipping table
    does not price the answer is error as well, not validation_error, and
    the customers row is written too. *)
Theorem create_order_delivery_priced_zone_fails :
  _carts demo_world !! "s1" = Some demo_cart /\
  get_shipping_cost "caba" demo_world = Some 1500%Q /\
  get_shipping_cost "Rosario" demo_world = None /\
  (let result := fst (handle demo_env demo_create_delivery demo_world) in
   let w' := snd (handle demo_env demo_create_delivery demo_world) in
   result = [("status", Py.Str "error")] /\
   orders_sheet w' = [] /\
   events_sheet w' = [] /\
   outbox w' = [] /\
   _carts w' = _carts demo_world /\
   map Customer.customer_id (customers_sheet w') = ["CUST-00000009"]) /\
  (let result := fst (handle demo_env demo_create_delivery_unpriced demo_world) in
   let w' := snd (handle demo_env demo_create_delivery_unpriced demo_world) in
   result = [("status", Py.Str "error")] /\
   orders_sheet w' = [] /\
   map Customer.customer_id (customers_sheet w') = ["CUST-00000009"]).
Proof.
  cbv zeta. repeat split; vm_compute; reflexivity.
Qed.

(** ** The token vault *)

Lemma secret_manager_get_saved (self : SecretManagerTokenStore.t) (token : StoredToken.t) :
  SecretManagerTokenStore.get_token
    (snd (SecretManagerTokenStore.save_token self token)) (StoredToken.vet_id token)
  = Some token.
Proof.
  destruct self as [secrets].
  unfold SecretManagerTokenStore.save_token, SecretManagerTokenStore.get_token,
    SecretManagerServiceClient.create_secret,
    SecretManagerServiceClient.add_secret_version,
    SecretManagerServiceClient.access_secret_version;
    cbn [SecretManagerTokenStore.secrets].
  destruct (secrets !! SecretManagerTokenStore._secret_id (StoredToken.vet_id token))
    as [versions |] eqn:Hs.
  - rewrite Hs. cbn [snd SecretManagerTokenStore.secrets].
    rewrite lookup_insert_eq. apply last_snoc.
  - rewrite lookup_insert_eq. cbn [snd SecretManagerTokenStore.secrets app].
    now rewrite lookup_insert_eq.
Qed.

Lemma token_store_get_saved (store : token_store) (token : StoredToken.t) :
  get_token (snd (save_token store token)) (StoredToken.vet_id token) = Some token.
Proof.
  destruct store as [[data] | self]; cbn [get_token save_token token_store_TokenStore
    token_store_save token_store_get LocalTokenStore_TokenStore
    SecretManagerTokenStore_TokenStore LocalTokenStore.save_token snd].
  - unfold LocalTokenStore.get_token; simpl. apply lookup_insert_eq.
  - pose proof (secret_manager_get_saved self token) as H.
    destruct (SecretManagerTokenStore.save_token self token) as [ok self']. exact H.
Qed.

(** C7: when the stored token expires more than five minutes after the
    current time, ensure_valid_mp_token returns the stored access token
    and changes nothing: no request is sent to the processor and the
    vault is left as it was. *)
Theorem ensure_valid_returns_stored_token (env : Env) (w : World) (vet_id : string)
    (tokens : StoredToken.t) :
  get_mp_tokens vet_id w = Some tokens ->
  (utcnow env + microseconds (5 * 60) < StoredToken.expires_at tokens)%Z ->
  ensure_valid_mp_token env vet_id w
  = ([("status", Py.Str "success");
      ("access_token", Py.Str (StoredToken.access_token tokens))], w).
Proof.
  intros Hget Hlt. unfold ensure_valid_mp_token. rewrite Hget.
  replace (StoredToken.expires_at tokens - margin >? utcnow env)%Z with true; [reflexivity |].
  symmetry. apply Z.gtb_lt. unfold margin. lia.
Qed.

(** C8, as amended: when the stored token is within five minutes of its
    expiry, or past it (an expiry from which the five minutes can be
    subtracted), the refresh exchange succeeds with an answer that has no
    refresh_token, and the expiry date that answer gives (the current
    time plus expires_in seconds) is a date that can be represented,
    ensure_valid_mp_token stores a token that carries the previous
    refresh token, the new access token and that expiry date, and
    returns the new access token. *)
Theorem ensure_valid_carries_refresh_token (env : Env) (w : World) (vet_id : string)
    (tokens : StoredToken.t) (response : TokenResponse.t) (expires_at : Z) :
  get_mp_tokens vet_id w = Some tokens ->
  (datetime_min <= StoredToken.expires_at tokens - margin)%Z ->
  (StoredToken.expires_at tokens <= utcnow env + microseconds (5 * 60))%Z ->
  post_oauth_refresh env (StoredToken.refresh_token tokens) = Some response ->
  TokenResponse.refresh_token response = None ->
  expiry_from_now env (TokenResponse.expires_in response) = Some expires_at ->
  let result := fst (ensure_valid_mp_token env vet_id w) in
  let w' := snd (ensure_valid_mp_token env vet_id w) in
  result = [("status", Py.Str "success");
            ("access_token", Py.Str (TokenResponse.access_token response))] /\
  mp_requests w' = mp_requests w ++ [RefreshTokenRequest (StoredToken.refresh_token tokens)] /\
  exists stored : StoredToken.t,
    get_mp_tokens vet_id w' = Some stored /\
    StoredToken.refresh_token stored = StoredToken.refresh_token tokens /\
    StoredToken.access_token stored = TokenResponse.access_token response /\
    StoredToken.expires_at stored = expires_at /\
    StoredToken.vet_id stored = vet_id.
Proof.
  intros Hget _ Hle Hpost Hnone Hexpiry. cbv zeta.
  unfold ensure_valid_mp_token. rewrite Hget.
  replace (StoredToken.expires_at tokens - margin >? utcnow env)%Z with false.
  2: { symmetry. rewrite Z.gtb_ltb. apply Z.ltb_ge. unfold margin. lia. }
  unfold _refresh_mp_token. rewrite Hpost, Hexpiry, Hnone.
  unfold save_mp_tokens.
  match goal with
  | |- context [save_token ?s ?t] =>
      pose proof (token_store_get_saved s t) as Hsaved;
      destruct (save_token s t) as [ok store'] eqn:Hsave
  end.
  simpl in Hsaved |- *.
  repeat split.
  eexists; split; [exact Hsaved |]. repeat split.
Qed.

(** C8, as first stated, fails: the stored token is two minutes from its
    expiry and the refresh exchange succeeds with an answer that has no
    refresh_token, but the lifetime it grants ends after the last date
    that can be represented; computing the expiry date raises, the answer
    is error, and the vault still holds the old token. *)
Lemma refresh_with_unrepresentable_expiry_stores_nothing :
  let env := refresh_long_lived demo_env_near_expiry in
  get_mp_tokens "VET001" demo_world_connected = Some demo_stored_token /\
  (datetime_min <= StoredToken.expires_at demo_stored_token - margin)%Z /\
  (StoredToken.expires_at demo_stored_token <= utcnow env + microseconds (5 * 60))%Z /\
  post_oauth_refresh env (StoredToken.refresh_token demo_stored_token)
  = Some demo_long_lived_response /\
  TokenResponse.refresh_token demo_long_lived_response = None /\
  expiry_from_now env (TokenResponse.expires_in demo_long_lived_response) = None /\
  fst (ensure_valid_mp_token env "VET001" demo_world_connected)
  = [("status", Py.Str "error")] /\
  get_mp_tokens "VET001" (snd (ensure_valid_mp_token env "VET001" demo_world_connected))
  = Some demo_stored_token.
Proof.
  cbv zeta. repeat split; try (vm_compute; reflexivity); vm_compute; discriminate.
Qed.

Lemma ensure_valid_returns_stored_token_witness :
  ensure_valid_mp_token demo_env "VET001" demo_world_connected
  = ([("status", Py.Str "success"); ("access_token", Py.Str "APP_USR-1")],
     demo_world_connected).
Proof.
  apply (ensure_valid_returns_stored_token demo_env demo_world_connected "VET001"
           demo_stored_token).
  - vm_compute; reflexivity.
  - vm_compute; reflexivity.
Defined.

Lemma ensure_valid_carries_refresh_token_witness :
  exists stored : StoredToken.t,
    get_mp_tokens "VET001"
      (snd (ensure_valid_mp_token demo_env_near_expiry "VET001" demo_world_connected))
    = Some stored /\
    StoredToken.refresh_token stored = "TG-1" /\
    StoredToken.access_token stored = "APP_USR-2" /\
    StoredToken.expires_at stored = (1700000000000000 + microseconds (2 * 21600 - 120))%Z /\
    StoredToken.vet_id stored = "VET001".
Proof.
  apply (ensure_valid_carries_refresh_token demo_env_near_expiry demo_world_connected
           "VET001" demo_stored_token demo_refresh_response).
  - vm_compute; reflexivity.
  - vm_compute; discriminate.
  - vm_compute; discriminate.
  - reflexivity.
  - reflexivity.
  - vm_compute; reflexivity.
Defined.

(** Deleting a token that is not there, in the development store: the
    answer is success and the file is not rewritten. *)
Lemma local_delete_absent (self : LocalTokenStore.t) (vet_id : string) :
  get_token self vet_id = None ->
  delete_token self vet_id = (true, self).
Proof.
  cbn [get_token delete_token LocalTokenStore_TokenStore].
  unfold LocalTokenStore.get_token, LocalTokenStore.delete_token.
  now intros ->.
Qed.

(** The same call on the production store: the service raises NotFound,
    the handler of [delete_token] turns it into [False]. *)
Lemma secret_manager_delete_absent (self : SecretManagerTokenStore.t) (vet_id : string) :
  SecretManagerTokenStore.secrets self !! SecretManagerTokenStore._secret_id vet_id = None ->
  delete_token self vet_id = (false, self).
Proof.
  cbn [delete_token SecretManagerTokenStore_TokenStore].
  unfold SecretManagerTokenStore.delete_token, SecretManagerServiceClient.delete_secret.
  now intros ->.
Qed.

(** C9: delete on a vault that holds no token for the merchant leaves
    the vault unchanged in both stores, but only the development store
    answers success; the production store answers failure. *)
Theorem delete_absent_token_production_fails :
  get_token (Production {| SecretManagerTokenStore.secrets := ∅ |}) "VET404" = None /\
  delete_token (Production {| SecretManagerTokenStore.secrets := ∅ |}) "VET404"
  = (false, Production {| SecretManagerTokenStore.secrets := ∅ |}) /\
  delete_token (Development {| LocalTokenStore.data := ∅ |}) "VET404"
  = (true, Development {| LocalTokenStore.data := ∅ |}).
Proof.
  split; [reflexivity |]. split.
  - cbn [delete_token token_store_TokenStore token_store_delete].
    now rewrite secret_manager_delete_absent.
  - cbn [delete_token token_store_TokenStore token_store_delete].
    now rewrite local_delete_absent.
Qed.

(** ** Payment links *)

Lemma ensure_valid_mp_token_orders (env : Env) (vet_id : string) (w : World) :
  orders_sheet (snd (ensure_valid_mp_token env vet_id w)) = orders_sheet w.
Proof.
  unfold ensure_valid_mp_token, _refresh_mp_token, save_mp_tokens.
  destruct (get_mp_tokens vet_id w) as [tokens |]; [| reflexivity].
  destruct (_ >? _)%Z; [reflexivity |].
  destruct (post_oauth_refresh env _); [| reflexivity].
  destruct (expiry_from_now env _); [| reflexivity].
  cbn [sent_request _token_store].
  now destruct (save_token _ _).
Qed.

Lemma get_order_by_id_same_sheet (order_id : string) (w1 w2 : World) :
  orders_sheet w1 = orders_sheet w2 ->
  get_order_by_id order_id w1 = get_order_by_id order_id w2.
Proof. unfold get_order_by_id. now intros ->. Qed.

(** C4: when create_payment_link fails because the merchant has no
    usable token, or because the processor refuses or fails the
    preference request, the orders worksheet is exactly what it was: no
    status, preference id, external reference or payment method has
    been written. *)
Theorem create_payment_link_failure_leaves_orders (env : Env) (w : World)
    (vet_id order_id : string) :
  let token_result := fst (ensure_valid_mp_token env vet_id w) in
  let result := fst (create_payment_link env vet_id order_id w) in
  let w' := snd (create_payment_link env vet_id order_id w) in
  (Py.status token_result <> "success" ->
   (Py.status result = "mp_not_connected" \/ Py.status result = "error") /\
   orders_sheet w' = orders_sheet w) /\
  (forall order : Order.t,
     Py.status token_result = "success" ->
     get_order_by_id order_id w = Some order ->
     Order.vet_id order = vet_id ->
     post_preference env (str_field "access_token" token_result) order
       ("DTV|" ++ vet_id ++ "|" ++ order_id) = None ->
     Py.status result = "error" /\ orders_sheet w' = orders_sheet w).
Proof.
  cbv zeta. unfold create_payment_link.
  pose proof (ensure_valid_mp_token_orders env vet_id w) as Horders.
  destruct (ensure_valid_mp_token env vet_id w) as [token_result w1].
  cbn [fst snd] in *. split.
  - intros Hfail.
    destruct (String.eqb_spec (Py.status token_result) "success") as [E | _];
      [contradiction |].
    cbn [negb].
    destruct (String.eqb (Py.status token_result) "not_connected"); cbn [fst snd]; auto.
  - intros order Hok Hget Hvet Hpost.
    rewrite Hok. cbn [String.eqb negb].
    replace (("success" =? "success")%string) with true by reflexivity. cbn [negb].
    rewrite (get_order_by_id_same_sheet order_id w1 w Horders), Hget, Hvet.
    rewrite String.eqb_refl. cbn [negb].
    unfold _create_mp_preference. rewrite Hpost. cbn [fst snd]. auto.
Qed.

Lemma create_payment_link_failure_leaves_orders_witness :
  (Py.status (fst (create_payment_link demo_env "VET001" "ORD-0000002A" demo_world_ordered))
   = "mp_not_connected" /\
   orders_sheet (snd (create_payment_link demo_env "VET001" "ORD-0000002A" demo_world_ordered))
   = orders_sheet demo_world_ordered) /\
  (Py.status (fst (create_payment_link (gateway_down demo_env) "VET001" "ORD-0000002A"
                     demo_world_connected)) = "error" /\
   orders_sheet (snd (create_payment_link (gateway_down demo_env) "VET001" "ORD-0000002A"
                        demo_world_connected))
   = orders_sheet demo_world_connected).
Proof.
  split.
  - destruct (proj1 (create_payment_link_failure_leaves_orders demo_env demo_world_ordered
                       "VET001" "ORD-0000002A")) as [Hs Ho].
    + vm_compute; discriminate.
    + split; [vm_compute; reflexivity | exact Ho].
  - destruct (get_order_by_id "ORD-0000002A" demo_world_connected) as [order |] eqn:Hget;
      [| vm_compute in Hget; discriminate].
    apply (proj2 (create_payment_link_failure_leaves_orders (gateway_down demo_env)
                    demo_world_connected "VET001" "ORD-0000002A") order).
    + vm_compute; reflexivity.
    + exact Hget.
    + vm_compute in Hget. injection Hget as <-. reflexivity.
    + reflexivity.
Defined.

(** ** The set of processed notifications *)

(** Unfolds the operations down to the worksheet and store updates. *)
Ltac unfold_operations :=
  unfold handle, update_order_status, cancel_order, set_payment_method, create_order,
    create_payment_link, mercadopago_webhook_v2, mercadopago_webhook,
    _process_payment_notification, _process_payment_with_vet, _handle_approved_payment,
    mp_oauth_callback, complete_mp_oauth, ensure_valid_mp_token,
    _create_mp_preference, _refresh_mp_token, _exchange_code_for_tokens, save_mp_tokens,
    get_cart_for_order, clear_cart, _get_cart, create_customer, create_order_record,
    update_order_payment_status, sheets_update_order_status, sheets_set_payment_method,
    update_order_preference, log_event, send_payment_confirmation_to_vet,
    send_order_status_to_customer, send_order_created_notification,
    send_payment_approved_notification in *.

(** Splits on every [match] and [if] of the goal. *)
Ltac split_cases := repeat (case_match; simplify_eq); cbn [fst snd] in *.

(** Exposes the worksheets and stores of an updated state. *)
Ltac expose_stores :=
  cbn [orders_sheet events_sheet vets_sheet customers_sheet shipping_sheet _carts
         _token_store _processed_notifications mp_requests outbox set_orders set_events
         set_customers set_carts set_token_store set_processed sent_request handed_over
         fst snd] in *.

Lemma process_payment_with_vet_processed (env : Env) (vet_id payment_id : string)
    (w : World) :
  _processed_notifications (snd (_process_payment_with_vet env vet_id payment_id w))
  = _processed_notifications w.
Proof. unfold_operations. split_cases; reflexivity. Qed.

Lemma set_mem_set_add (key : string) (s : list string) :
  set_mem key (set_add key s) = true.
Proof.
  unfold set_add. destruct (set_mem key s) eqn:H; [exact H |].
  unfold set_mem; simpl. now rewrite String.eqb_refl.
Qed.

Section MerchantScopedRoute.
Variables (vet_id : string) (payload : MPWebhookPayload.t).
Hypothesis is_payment : MPWebhookPayload.type payload = "payment".
Hypothesis has_payment_id : Py.or_empty (MPWebhookPayload.data_id payload) <> EmptyString.

Let idempotency_key : string :=
  vet_id ++ ":" ++ MPWebhookPayload.action payload ++ ":"
    ++ Py.or_empty (MPWebhookPayload.data_id payload).

Lemma payment_id_truthy :
  Py.truthy (Py.or_empty (MPWebhookPayload.data_id payload)) = true.
Proof.
  unfold Py.truthy.
  destruct (String.eqb_spec (Py.or_empty (MPWebhookPayload.data_id payload)) EmptyString);
    [contradiction | reflexivity].
Qed.

(** A seen key short-circuits the handler. *)
Lemma webhook_v2_seen (env : Env) (w : World) :
  set_mem idempotency_key (_processed_notifications w) = true ->
  mercadopago_webhook_v2 env vet_id (Some payload) w = ([("status", Py.Str "duplicate")], w).
Proof.
  intros Hseen. unfold mercadopago_webhook_v2.
  rewrite is_payment, payment_id_truthy, String.eqb_refl. fold idempotency_key.
  cbn [negb]. now rewrite Hseen.
Qed.

(** The key is in the set when the handler returns, whatever the
    processing did. *)
Lemma webhook_v2_marks (env : Env) (w : World) :
  set_mem idempotency_key
    (_processed_notifications (snd (mercadopago_webhook_v2 env vet_id (Some payload) w)))
  = true.
Proof.
  unfold mercadopago_webhook_v2.
  rewrite is_payment, payment_id_truthy, String.eqb_refl. fold idempotency_key.
  cbn [negb].
  destruct (set_mem idempotency_key (_processed_notifications w)) eqn:Hseen;
    [exact Hseen |].
  rewrite process_payment_with_vet_processed.
  apply set_mem_set_add.
Qed.
End MerchantScopedRoute.

Example webhook_v2_first_call_is_processed :
  Py.status (fst (mercadopago_webhook_v2 demo_env "VET001" (Some demo_notification)
                    demo_world_linked)) = "processed" /\
  Order.status <$> get_order_by_id "ORD-0000002A"
                     (snd (mercadopago_webhook_v2 demo_env "VET001" (Some demo_notification)
                             demo_world_linked))
  = Some OrderStatus.PAYMENT_APPROVED /\
  outbox (snd (mercadopago_webhook_v2 demo_env "VET001" (Some demo_notification)
                 demo_world_linked))
  = outbox demo_world_linked ++
    [ PaymentConfirmationToVet "+5491144443333" "ORD-0000002A";
      OrderStatusToCustomer "+5491155551234" "ORD-0000002A";
      PaymentApprovedEmail "ORD-0000002A" "777" ].
Proof. vm_compute. repeat split. Qed.

(** ** Replays of a notification *)

(** One call leaves the set of processed notifications as it was, or
    adds one key to it, or (only the generic route, and only when the
    set already holds 10000 keys) empties it. *)
Lemma handle_processed (env : Env) (c : Call) (w : World) :
  let seen := _processed_notifications w in
  let seen' := _processed_notifications (snd (handle env c w)) in
  seen' = seen \/
  (exists key, set_mem key seen = false /\ seen' = key :: seen) \/
  (seen' = [] /\ (10000 <= Z.of_nat (List.length seen))%Z).
Proof.
  cbv zeta. destruct c; unfold_operations; unfold set_add.
  all: split_cases.
  all: try (left; reflexivity).
  all: try (right; left; eexists; split; [eassumption | reflexivity]).
  all: right; right; split; [reflexivity |].
  all: match goal with
       | H : (10000 <? Z.of_nat (List.length (_ :: _)))%Z = true |- _ =>
           apply Z.ltb_lt in H; cbn [List.length] in H; lia
       end.
Qed.

Lemma set_mem_In (key : string) (s : list string) :
  set_mem key s = true <-> In key s.
Proof.
  unfold set_mem. rewrite existsb_exists. split.
  - intros (x & Hin & Heq). apply String.eqb_eq in Heq. now subst.
  - intros Hin. exists key. split; [exact Hin | apply String.eqb_refl].
Qed.

(** The list stays free of duplicates, so its length is the size of the
    set. *)
Lemma handle_processed_NoDup (env : Env) (c : Call) (w : World) :
  NoDup (_processed_notifications w) ->
  NoDup (_processed_notifications (snd (handle env c w))).
Proof.
  intros Hnodup.
  destruct (handle_processed env c w) as [-> | [(key & Hnew & ->) | [-> _]]].
  - exact Hnodup.
  - apply NoDup_cons_2; [| exact Hnodup].
    intros Hin. apply list_elem_of_In, set_mem_In in Hin. congruence.
  - constructor.
Qed.

Lemma run_keeps_key (calls : list (Env * Call)) :
  forall (w : World) (key : string),
    set_mem key (_processed_notifications w) = true ->
    (Z.of_nat (List.length (_processed_notifications w)) + Z.of_nat (List.length calls)
     <= 10000)%Z ->
    set_mem key (_processed_notifications (run calls w)) = true.
Proof.
  induction calls as [| [env c] rest IH]; intros w key Hmem Hbound; [exact Hmem |].
  cbn [run]. cbn [List.length] in Hbound.
  destruct (handle_processed env c w) as [Heq | [[key' [_ Heq]] | [_ Hfull]]].
  - apply IH; rewrite Heq; [exact Hmem | lia].
  - apply IH; rewrite Heq.
    + unfold set_mem in *; cbn [existsb]. rewrite Hmem. apply orb_true_r.
    + cbn [List.length]. lia.
  - lia.
Qed.

(** One call other than a notification on the generic route leaves the
    set of processed notifications as it was or adds one key. *)
Lemma handle_processed_grows (env : Env) (c : Call) (w : World) :
  not_generic_route (env, c) ->
  forall key : string,
    set_mem key (_processed_notifications w) = true ->
    set_mem key (_processed_notifications (snd (handle env c w))) = true.
Proof.
  intros Hroute key Hmem.
  destruct c; try contradiction; unfold_operations; unfold set_add; split_cases;
    expose_stores; try assumption.
  all: unfold set_mem in *; cbn [existsb]; rewrite Hmem; apply orb_true_r.
Qed.

Lemma run_keeps_key_off_generic_route (calls : list (Env * Call)) (w : World)
    (key : string) :
  Forall not_generic_route calls ->
  set_mem key (_processed_notifications w) = true ->
  set_mem key (_processed_notifications (run calls w)) = true.
Proof.
  intros Hcalls. revert w.
  induction Hcalls as [| [env c] rest Hc _ IH]; intros w Hmem; [exact Hmem |].
  cbn [run]. apply IH. now apply handle_processed_grows.
Qed.

(** C6, as amended: of two calls to the merchant-scoped webhook that
    carry the same merchant id, the same action and the same payment id,
    the second is answered as a duplicate and changes nothing (no order
    update, no audit event, no notification, no request to the
    processor), whatever calls came in between, provided the shared set
    of processed notifications has not been emptied meanwhile: either no
    notification arrived on the generic route, or the keys the set held
    after the first call and the calls in between number at most
    10000. *)
Theorem webhook_v2_second_call_is_duplicate (env1 env2 : Env) (w : World)
    (vet_id : string) (first second : MPWebhookPayload.t) (calls : list (Env * Call)) :
  MPWebhookPayload.type first = "payment" ->
  MPWebhookPayload.type second = "payment" ->
  MPWebhookPayload.action second = MPWebhookPayload.action first ->
  Py.or_empty (MPWebhookPayload.data_id second)
  = Py.or_empty (MPWebhookPayload.data_id first) ->
  Py.or_empty (MPWebhookPayload.data_id first) <> EmptyString ->
  let w1 := snd (mercadopago_webhook_v2 env1 vet_id (Some first) w) in
  Forall not_generic_route calls \/
  (Z.of_nat (List.length (_processed_notifications w1)) + Z.of_nat (List.length calls)
   <= 10000)%Z ->
  let later := run calls w1 in
  mercadopago_webhook_v2 env2 vet_id (Some second) later
  = ([("status", Py.Str "duplicate")], later).
Proof.
  intros Hfirst Hsecond Haction Hid Hne w1 Hkept later.
  apply webhook_v2_seen; [exact Hsecond | now rewrite Hid |].
  rewrite Haction, Hid.
  destruct Hkept as [Hroute | Hbound].
  - apply run_keeps_key_off_generic_route; [exact Hroute |].
    now apply webhook_v2_marks.
  - apply run_keeps_key; [| exact Hbound].
    now apply webhook_v2_marks.
Qed.

Lemma webhook_v2_second_call_is_duplicate_witness :
  let w1 :=
    snd (mercadopago_webhook_v2 demo_env "VET001" (Some demo_notification)
           demo_world_linked) in
  let later :=
    run [ (demo_env, Webhook (Some demo_other_notification));
          (demo_env, SetPaymentMethod "ORD-0000002A" "AT_VET") ] w1 in
  mercadopago_webhook_v2 demo_env "VET001" (Some demo_notification) later
  = ([("status", Py.Str "duplicate")], later).
Proof.
  apply (webhook_v2_second_call_is_duplicate demo_env demo_env demo_world_linked
           "VET001" demo_notification demo_notification).
  - reflexivity.
  - reflexivity.
  - reflexivity.
  - reflexivity.
  - discriminate.
  - right. vm_compute. discriminate.
Defined.

(** C6, as first stated, fails.  The order awaits payment and the shared
    set holds 9999 keys (the state [busy_world]).  The first call for the
    merchant's notification is processed: the order is approved, one
    event is logged, three notifications go out, and the set holds 10000
    keys.  A notification on the generic route then takes the set over
    10000 keys and empties it.  The second call, with the same merchant,
    action and payment id, is processed again and not answered as a
    duplicate: it fetches the payment again, logs a second event and
    sends the three notifications a second time. *)
Lemma second_call_after_clear_is_processed :
  let first :=
    mercadopago_webhook_v2 demo_env "VET001" (Some demo_notification) busy_world in
  let later := run [ (demo_env, Webhook (Some demo_other_notification)) ] (snd first) in
  let second := mercadopago_webhook_v2 demo_env "VET001" (Some demo_notification) later in
  Py.status (fst first) = "processed" /\
  Z.of_nat (List.length (_processed_notifications (snd first))) = 10000%Z /\
  _processed_notifications later = [] /\
  Py.status (fst second) = "processed" /\
  List.length (events_sheet (snd first)) = S (List.length (events_sheet busy_world)) /\
  List.length (events_sheet (snd second)) = S (List.length (events_sheet (snd first))) /\
  outbox (snd second)
  = outbox later ++
    [ PaymentConfirmationToVet "+5491144443333" "ORD-0000002A";
      OrderStatusToCustomer "+5491155551234" "ORD-0000002A";
      PaymentApprovedEmail "ORD-0000002A" "777" ] /\
  List.length (mp_requests (snd second)) = S (List.length (mp_requests later)).
Proof. vm_compute. repeat split. Qed.

(** An attempt answered with an error has not touched the orders. *)
Lemma webhook_v2_error_leaves_orders (env : Env) (vet_id : string)
    (body : option MPWebhookPayload.t) (w : World) :
  Py.status (fst (mercadopago_webhook_v2 env vet_id body w)) = "error" ->
  orders_sheet (snd (mercadopago_webhook_v2 env vet_id body w)) = orders_sheet w.
Proof.
  intros Herror. unfold_operations. split_cases.
  all: first [reflexivity | vm_compute in Herror; discriminate].
Qed.

(** C10, as amended: the merchant-scoped handler records the key before
    it processes the notification; so when the first attempt fails (no
    usable token, a failed fetch, an exception, a merchant mismatch) it
    has not updated the order, and every replay of the notification that
    arrives before the shared set is emptied (which the calls in between
    cannot do as long as the keys already held and those calls number at
    most 10000) is answered as a duplicate and changes nothing. *)
Theorem failed_notification_is_not_retried (env env' : Env) (w : World) (vet_id : string)
    (payload : MPWebhookPayload.t) (calls : list (Env * Call)) :
  MPWebhookPayload.type payload = "payment" ->
  Py.or_empty (MPWebhookPayload.data_id payload) <> EmptyString ->
  let attempt := mercadopago_webhook_v2 env vet_id (Some payload) w in
  Py.status (fst attempt) = "error" ->
  (Z.of_nat (List.length (_processed_notifications (snd attempt)))
   + Z.of_nat (List.length calls) <= 10000)%Z ->
  let later := run calls (snd attempt) in
  orders_sheet (snd attempt) = orders_sheet w /\
  mercadopago_webhook_v2 env' vet_id (Some payload) later
  = ([("status", Py.Str "duplicate")], later).
Proof.
  intros Htype Hid attempt Herror Hbound later. split.
  - now apply webhook_v2_error_leaves_orders.
  - apply webhook_v2_seen; [exact Htype | exact Hid |].
    apply run_keeps_key; [| exact Hbound].
    now apply webhook_v2_marks.
Qed.

Lemma failed_notification_is_not_retried_witness :
  let attempt :=
    mercadopago_webhook_v2 (fetch_failing demo_env) "VET001" (Some demo_notification)
      demo_world_linked in
  let later :=
    run [ (demo_env, Webhook (Some demo_other_notification));
          (demo_env, CancelOrder "ORD-FFFFFFFF" true) ] (snd attempt) in
  orders_sheet (snd attempt) = orders_sheet demo_world_linked /\
  mercadopago_webhook_v2 demo_env "VET001" (Some demo_notification) later
  = ([("status", Py.Str "duplicate")], later).
Proof.
  apply (failed_notification_is_not_retried (fetch_failing demo_env) demo_env
           demo_world_linked "VET001" demo_notification).
  - reflexivity.
  - discriminate.
  - vm_compute; reflexivity.
  - vm_compute; discriminate.
Defined.

Lemma binary_digits_nonempty (p : positive) : binary_digits p <> EmptyString.
Proof. destruct p; discriminate. Qed.

Lemma binary_digits_injective (p : positive) :
  forall q : positive, binary_digits p = binary_digits q -> p = q.
Proof.
  induction p as [p IH | p IH |]; intros [q | q |]; simpl; intros H;
    try discriminate; try reflexivity.
  - injection H as H. now rewrite (IH q H).
  - injection H as H. now destruct (binary_digits_nonempty p).
  - injection H as H. now rewrite (IH q H).
  - injection H as H. symmetry in H. now destruct (binary_digits_nonempty q).
Qed.

Lemma numbered_key_injective (p q : positive) :
  numbered_key p = numbered_key q -> p = q.
Proof.
  unfold numbered_key. simpl. intros [= H]. now apply binary_digits_injective.
Qed.

Lemma numbered_keys_fresh (k : nat) :
  forall j : nat, (k <= j)%nat ->
    set_mem (numbered_key (Pos.of_succ_nat j)) (numbered_keys k) = false.
Proof.
  induction k as [| k IH]; intros j Hle; [reflexivity |].
  unfold set_mem in *. cbn [numbered_keys existsb].
  rewrite IH by lia. rewrite orb_false_r.
  apply String.eqb_neq. intros H.
  apply numbered_key_injective, SuccNat2Pos.inj in H. lia.
Qed.

Lemma run_app (first second : list (Env * Call)) :
  forall w : World, run (first ++ second) w = run second (run first w).
Proof.
  induction first as [| [env c] rest IH]; intros w; [reflexivity |].
  cbn [run app]. apply IH.
Qed.

(** A notification of the generic route with a new key, while the set
    holds fewer than 10000 keys, adds its key and nothing else. *)
Lemma webhook_adds_key (p : positive) (w : World) :
  set_mem (numbered_key p) (_processed_notifications w) = false ->
  (Z.of_nat (S (List.length (_processed_notifications w))) <= 10000)%Z ->
  snd (mercadopago_webhook (Some (numbered_notification p)) w)
  = set_processed (numbered_key p :: _processed_notifications w) w.
Proof.
  intros Hnew Hroom. unfold mercadopago_webhook.
  cbn [numbered_notification MPWebhookPayload.type MPWebhookPayload.action
         MPWebhookPayload.data_id Py.or_empty].
  rewrite String.eqb_refl. cbn [negb].
  replace (Py.truthy (binary_digits p)) with true.
  2: { unfold Py.truthy. symmetry. apply negb_true_iff, String.eqb_neq,
         binary_digits_nonempty. }
  cbn [negb].
  change ("payment.created" ++ ":" ++ binary_digits p)%string with (numbered_key p).
  rewrite Hnew. unfold set_add. rewrite Hnew.
  replace (10000 <? Z.of_nat (List.length (numbered_key p :: _processed_notifications w)))%Z
    with false; [reflexivity |].
  symmetry. apply Z.ltb_ge. cbn [List.length]. exact Hroom.
Qed.

Lemma numbered_keys_length (n : nat) : List.length (numbered_keys n) = n.
Proof. induction n as [| n IH]; [reflexivity |]. cbn [numbered_keys List.length]. now rewrite IH. Qed.

(** From an empty set, the first [n] numbered notifications leave
    exactly their [n] keys, provided [n] is at most 10000. *)
Lemma numbered_calls_fill (n : nat) (w : World) :
  _processed_notifications w = [] ->
  (Z.of_nat n <= 10000)%Z ->
  run (numbered_calls n) w = set_processed (numbered_keys n) w.
Proof.
  intros Hempty. induction n as [| n IH]; intros Hn.
  - cbn [numbered_calls numbered_keys run]. rewrite <- Hempty. now destruct w.
  - cbn [numbered_calls numbered_keys]. rewrite run_app, IH by lia.
    cbn [run handle]. rewrite webhook_adds_key.
    + reflexivity.
    + cbn [_processed_notifications set_processed]. now apply numbered_keys_fresh.
    + cbn [_processed_notifications set_processed]. rewrite numbered_keys_length. exact Hn.
Qed.

Lemma numbered_keys_iter_spec (count : N) :
  numbered_keys_iter count = numbered_keys (N.to_nat count).
Proof.
  unfold numbered_keys_iter. rewrite N2Nat.inj_iter.
  assert (H : forall m : nat,
             Nat.iter m (fun '(p, keys) => (Pos.succ p, numbered_key p :: keys))
               (1%positive, [])
             = (Pos.of_succ_nat m, numbered_keys m)).
  { induction m as [| m IH]; [reflexivity |]. now rewrite Nat.iter_succ, IH. }
  now rewrite H.
Qed.

Lemma numbered_keys_NoDup (n : nat) : NoDup (numbered_keys n).
Proof.
  induction n as [| n IH]; cbn [numbered_keys]; [constructor |].
  apply NoDup_cons_2; [| exact IH].
  intros Hin. apply list_elem_of_In, set_mem_In in Hin.
  now rewrite numbered_keys_fresh in Hin by lia.
Qed.

Lemma busy_world_reached :
  run (numbered_calls (N.to_nat 9999)) demo_world_linked = busy_world.
Proof.
  unfold busy_world. rewrite numbered_keys_iter_spec.
  apply numbered_calls_fill; [reflexivity |].
  rewrite N_nat_Z. discriminate.
Qed.

(** C10, as first stated, fails.  The order awaits payment and 9999
    notifications have gone through the generic route (the state
    [busy_world], see [busy_world_reached]).  The merchant's
    notification arrives while the payment lookup answers 500: the
    attempt is answered with an error, its key is recorded and the set
    holds 10000 keys.  One more notification on the generic route takes
    the shared set over 10000 keys and empties it.  The replay of the
    merchant's notification is then processed, not answered as a
    duplicate, and moves the order to PAYMENT_APPROVED. *)
Lemma replay_after_clear_is_processed :
  let attempt :=
    mercadopago_webhook_v2 (fetch_failing demo_env) "VET001" (Some demo_notification)
      busy_world in
  let later := run [ (demo_env, Webhook (Some demo_other_notification)) ] (snd attempt) in
  let replay := mercadopago_webhook_v2 demo_env "VET001" (Some demo_notification) later in
  fst attempt = [("status", Py.Str "error"); ("reason", Py.Str "mp_api_error")] /\
  Z.of_nat (List.length (_processed_notifications (snd attempt))) = 10000%Z /\
  _processed_notifications later = [] /\
  Order.status <$> get_order_by_id "ORD-0000002A" later
  = Some OrderStatus.PAYMENT_PENDING_MP /\
  Py.status (fst replay) = "processed" /\
  Order.status <$> get_order_by_id "ORD-0000002A" (snd replay)
  = Some OrderStatus.PAYMENT_APPROVED.
Proof. vm_compute. repeat split. Qed.

(** ** The external reference *)

Lemma split_bar_free (s : string) :
  bar_free s -> Py.split "|" s = [s].
Proof.
  unfold bar_free. induction s as [| c r IH]; cbn [Py.split has_char]; [reflexivity |].
  intros H. apply orb_false_iff in H as [Hc Hr].
  now rewrite Hc, (IH Hr).
Qed.

Lemma split_app_bar (a b : string) :
  bar_free a -> Py.split "|" (a ++ String "|" b) = a :: Py.split "|" b.
Proof.
  unfold bar_free. induction a as [| c r IH]; simpl.
  - intros _. reflexivity.
  - intros H. apply orb_false_iff in H as [Hc Hr].
    now rewrite Hc, (IH Hr).
Qed.

Lemma split_generated_reference (vet_id order_id : string) :
  bar_free vet_id -> bar_free order_id ->
  Py.split "|" ("DTV|" ++ vet_id ++ "|" ++ order_id) = ["DTV"; vet_id; order_id].
Proof.
  intros Hv Ho.
  change ("DTV|" ++ vet_id ++ "|" ++ order_id)%string
    with ("DTV" ++ String "|" (vet_id ++ String "|" order_id))%string.
  rewrite (split_app_bar "DTV") by reflexivity.
  now rewrite (split_app_bar vet_id) by assumption; rewrite split_bar_free.
Qed.

Lemma hd_split_bar_free (s : string) :
  bar_free (hd EmptyString (Py.split "|" s)).
Proof.
  unfold bar_free. induction s as [| c r IH]; cbn [Py.split]; [reflexivity |].
  destruct (Ascii.eqb c "|") eqn:Hc; [reflexivity |].
  destruct (Py.split "|" r) as [| h t]; cbn [hd has_char] in *.
  - now rewrite Hc.
  - now rewrite Hc, IH.
Qed.

Lemma hex_digit_upper_not_bar (d : N) :
  Ascii.eqb (hex_digit_upper d) "|" = false.
Proof.
  unfold hex_digit_upper. destruct d as [| p]; [reflexivity |].
  repeat (destruct p as [p | p |]; try reflexivity).
Qed.

Lemma hex_digits_upper_bar_free (n : nat) :
  forall (v : N) (acc : string), bar_free acc -> bar_free (hex_digits_upper n v acc).
Proof.
  induction n as [| n IH]; intros v acc Hacc; cbn [hex_digits_upper]; [exact Hacc |].
  apply IH. unfold bar_free in *. cbn [has_char].
  now rewrite hex_digit_upper_not_bar, Hacc.
Qed.

Lemma has_char_app (c : ascii) (a b : string) :
  has_char c (a ++ b) = has_char c a || has_char c b.
Proof.
  induction a as [| x r IH]; simpl; [reflexivity |].
  now rewrite IH, orb_assoc.
Qed.

Lemma order_id_bar_free (u : N) :
  bar_free ("ORD-" ++ uuid_hex8_upper u).
Proof.
  unfold bar_free. rewrite has_char_app.
  unfold uuid_hex8_upper.
  now rewrite (hex_digits_upper_bar_free 8 _ EmptyString eq_refl).
Qed.

Lemma secret_id_injective (a b : string) :
  SecretManagerTokenStore._secret_id a = SecretManagerTokenStore._secret_id b -> a = b.
Proof. unfold SecretManagerTokenStore._secret_id. simpl. now intros [= H]. Qed.

Lemma secret_manager_get_after_save (self : SecretManagerTokenStore.t)
    (token tokens : StoredToken.t) (vet_id : string) :
  get_token (snd (save_token self token)) vet_id = Some tokens ->
  vet_id = StoredToken.vet_id token \/ get_token self vet_id = Some tokens.
Proof.
  destruct self as [secrets].
  cbn [get_token save_token SecretManagerTokenStore_TokenStore].
  destruct (decide (SecretManagerTokenStore._secret_id vet_id
                    = SecretManagerTokenStore._secret_id (StoredToken.vet_id token)))
    as [Heq | Hne]; [left; now apply secret_id_injective |].
  right. revert H.
  unfold SecretManagerTokenStore.save_token, SecretManagerTokenStore.get_token,
    SecretManagerServiceClient.create_secret,
    SecretManagerServiceClient.add_secret_version,
    SecretManagerServiceClient.access_secret_version;
    cbn [SecretManagerTokenStore.secrets].
  destruct (secrets !! SecretManagerTokenStore._secret_id (StoredToken.vet_id token))
    as [versions |] eqn:Hs.
  - rewrite Hs. cbn [snd SecretManagerTokenStore.secrets].
    now rewrite lookup_insert_ne by congruence.
  - rewrite lookup_insert_eq. cbn [snd SecretManagerTokenStore.secrets].
    now rewrite !lookup_insert_ne by congruence.
Qed.

Lemma token_store_get_after_save (store : token_store) (token tokens : StoredToken.t)
    (vet_id : string) :
  get_token (snd (save_token store token)) vet_id = Some tokens ->
  vet_id = StoredToken.vet_id token \/ get_token store vet_id = Some tokens.
Proof.
  destruct store as [[data] | self]; cbn [get_token save_token token_store_TokenStore
    token_store_save token_store_get LocalTokenStore_TokenStore
    SecretManagerTokenStore_TokenStore LocalTokenStore.save_token snd].
  - unfold LocalTokenStore.get_token; cbn [LocalTokenStore.data].
    destruct (decide (StoredToken.vet_id token = vet_id)) as [<- | Hne]; [now left |].
    rewrite lookup_insert_ne by exact Hne. now right.
  - intros H. apply (secret_manager_get_after_save self token tokens vet_id).
    cbn [get_token save_token SecretManagerTokenStore_TokenStore].
    now destruct (SecretManagerTokenStore.save_token self token).
Qed.

Lemma merchants_ok_save (store store' : token_store) (token : StoredToken.t) (ok : bool) :
  merchants_ok store ->
  bar_free (StoredToken.vet_id token) ->
  save_token store token = (ok, store') ->
  merchants_ok store'.
Proof.
  intros Hstore Hfree Hsave vet_id tokens Hget.
  replace store' with (snd (save_token store token)) in Hget by now rewrite Hsave.
  destruct (token_store_get_after_save _ _ _ _ Hget) as [-> | Hold]; [exact Hfree |].
  exact (Hstore _ _ Hold).
Qed.

(** The cell updates that do not touch the identifiers or the reference. *)
Lemma reference_ok_with_status (s : OrderStatus.t) (now : Z) (row : Order.t) :
  reference_ok row -> reference_ok (Order.with_status s now row).
Proof. exact (fun H => H). Qed.

Lemma reference_ok_with_payment_method (m : PaymentMethod.t) (s : OrderStatus.t)
    (now : Z) (row : Order.t) :
  reference_ok row -> reference_ok (Order.with_payment_method m s now row).
Proof. exact (fun H => H). Qed.

Lemma reference_ok_with_payment_status (payment_id : string) (mp : MPPaymentStatus.t)
    (s : OrderStatus.t) (now : Z) (row : Order.t) :
  reference_ok row -> reference_ok (Order.with_payment_status payment_id mp s now row).
Proof. exact (fun H => H). Qed.

(** The update of [create_payment_link]: the reference written is the
    one generated from the identifiers of the row. *)
Lemma reference_ok_with_preference (preference_id : string) (now : Z) (row : Order.t) :
  reference_ok row ->
  bar_free (Order.vet_id row) ->
  reference_ok
    (Order.with_preference preference_id
       ("DTV|" ++ Order.vet_id row ++ "|" ++ Order.order_id row) now row).
Proof.
  intros [Hid _] Hvet. split; [exact Hid |].
  cbn [Order.with_preference Order.external_reference].
  change (Py.or_None ("DTV|" ++ Order.vet_id row ++ "|" ++ Order.order_id row))
    with (Some ("DTV|" ++ Order.vet_id row ++ "|" ++ Order.order_id row)%string).
  split; [exact Hvet | reflexivity].
Qed.

Create HintDb orders.

#[local] Hint Resolve reference_ok_with_status reference_ok_with_payment_method
  reference_ok_with_payment_status : orders.

(** Closes the goals left by a case analysis of an operation that only
    rewrites status, payment or timestamp cells. *)
Ltac keep_well_formed :=
  match goal with
  | Hw : well_formed ?w |- well_formed _ =>
      let Ho := fresh "Ho" in
      let Ht := fresh "Ht" in
      destruct Hw as [Ho Ht]; split;
      cbn [orders_sheet _token_store set_orders set_events set_customers set_carts
             set_token_store set_processed sent_request handed_over] in *;
      [ first
          [ exact Ho
          | eapply update_first_row_Forall; [exact Ho | | eassumption];
            intros ? _ ?; eauto with orders ]
      | first
          [ exact Ht
          | eapply merchants_ok_save; [exact Ht | | eassumption];
            cbn [StoredToken.vet_id]; eapply Ht; eassumption ] ]
  end.

Lemma ensure_valid_mp_token_well_formed (env : Env) (vet_id : string) (w : World) :
  well_formed w -> well_formed (snd (ensure_valid_mp_token env vet_id w)).
Proof.
  intros Hw. unfold_operations. split_cases; keep_well_formed.
Qed.

Lemma ensure_valid_mp_token_connected (env : Env) (vet_id : string) (w : World) :
  Py.status (fst (ensure_valid_mp_token env vet_id w)) = "success" ->
  exists tokens, get_mp_tokens vet_id w = Some tokens.
Proof.
  unfold ensure_valid_mp_token.
  destruct (get_mp_tokens vet_id w) as [tokens |]; [eauto |].
  intros H; vm_compute in H; discriminate.
Qed.

Lemma create_order_well_formed (env : Env)
    (session_id vet_id customer_name customer_lastname customer_email
       customer_whatsapp delivery_mode : string)
    (delivery_address delivery_zone : option string) (w : World) :
  well_formed w ->
  well_formed
    (snd (create_order env session_id vet_id customer_name customer_lastname
            customer_email customer_whatsapp delivery_mode delivery_address
            delivery_zone w)).
Proof.
  intros Hw. unfold_operations. split_cases; try keep_well_formed.
  all: destruct Hw as [Ho Ht]; split;
    cbn [orders_sheet _token_store set_orders set_events set_carts set_token_store
           set_processed sent_request handed_over] in *; try exact Ht.
  all: apply Forall_app; split; [exact Ho |].
  all: constructor; [| constructor].
  all: split; [apply order_id_bar_free | exact I].
Qed.

Lemma create_payment_link_well_formed (env : Env) (vet_id order_id : string) (w : World) :
  well_formed w -> well_formed (snd (create_payment_link env vet_id order_id w)).
Proof.
  intros Hw. unfold create_payment_link.
  pose proof (ensure_valid_mp_token_well_formed env vet_id w Hw) as Hw1.
  pose proof (ensure_valid_mp_token_connected env vet_id w) as Hconnected.
  pose proof (ensure_valid_mp_token_orders env vet_id w) as Horders.
  destruct (ensure_valid_mp_token env vet_id w) as [token_result w1].
  cbn [fst snd] in *.
  destruct (String.eqb_spec (Py.status token_result) "success") as [Hok | _];
    cbn [negb]; [| now destruct (String.eqb _ _)].
  destruct (Hconnected Hok) as [tokens Htokens].
  assert (Hvet : bar_free vet_id) by exact (proj2 Hw _ _ Htokens).
  unfold get_order_by_id.
  destruct (find (has_order_id order_id) (orders_sheet w1)) as [row |] eqn:Hfind;
    [| exact Hw1].
  rewrite parse_order_row_vet_id.
  destruct (String.eqb_spec (Order.vet_id row) vet_id) as [Hrow | _]; cbn [negb];
    [| exact Hw1].
  unfold _create_mp_preference, update_order_preference.
  destruct (post_preference env _ _ _) as [preference |]; cbn [fst snd];
    [| destruct Hw1; split; assumption].
  cbn [orders_sheet sent_request].
  destruct (update_first_row _ _ (orders_sheet w1)) as [rows |] eqn:Hupdate;
    cbn [snd]; [| destruct Hw1; split; assumption].
  destruct Hw1 as [Ho Ht]. split; [| exact Ht].
  cbn [orders_sheet set_orders].
  eapply update_first_row_Forall; [exact Ho | | exact Hupdate].
  intros row' Hfind' Hrow'. rewrite Hfind in Hfind'. injection Hfind' as <-.
  assert (Hid : Order.order_id row = order_id).
  { apply find_some in Hfind. now apply String.eqb_eq, Hfind. }
  subst vet_id order_id.
  apply reference_ok_with_preference; assumption.
Qed.

Lemma mp_oauth_callback_well_formed (env : Env) (code state error : option string)
    (w : World) :
  well_formed w -> well_formed (snd (mp_oauth_callback env code state error w)).
Proof.
  intros Hw. unfold_operations. split_cases; try keep_well_formed.
  all: destruct Hw as [Ho Ht]; split;
    cbn [orders_sheet _token_store set_orders set_events set_carts set_token_store
           set_processed sent_request handed_over] in *; try exact Ho.
  all: eapply merchants_ok_save; [exact Ht | | eassumption].
  all: apply hd_split_bar_free.
Qed.

(** Every entry point preserves the shape of the orders and of the vault. *)
Lemma handle_well_formed (env : Env) (c : Call) (w : World) :
  well_formed w -> well_formed (snd (handle env c w)).
Proof.
  intros Hw. destruct c.
  - now apply create_order_well_formed.
  - unfold_operations. split_cases; keep_well_formed.
  - unfold_operations. split_cases; keep_well_formed.
  - unfold_operations. split_cases; keep_well_formed.
  - now apply create_payment_link_well_formed.
  - now apply mp_oauth_callback_well_formed.
  - unfold_operations. split_cases; keep_well_formed.
  - unfold_operations. split_cases; keep_well_formed.
  - unfold_operations. split_cases; keep_well_formed.
  - unfold_operations. split_cases; keep_well_formed.
Qed.

Lemma run_well_formed (calls : list (Env * Call)) :
  forall w : World, well_formed w -> well_formed (run calls w).
Proof.
  induction calls as [| [env c] rest IH]; intros w Hw; [exact Hw |].
  cbn [run]. apply IH. now apply handle_well_formed.
Qed.

Lemma fresh_well_formed (w : World) : fresh w -> well_formed w.
Proof.
  intros (Horders & Htokens & _). split.
  - rewrite Horders. constructor.
  - intros vet_id tokens Hget. unfold get_mp_tokens in Htokens.
    now rewrite Htokens in Hget.
Qed.

(** C5: in every state the deployment reaches from a fresh start, an
    order whose external reference is set has a reference that splits on
    the bar into exactly three parts: the tag DTV, the vet_id of the
    order, and its order_id. *)
Theorem external_reference_has_three_parts (w : World) (calls : list (Env * Call))
    (order : Order.t) (reference : string) :
  fresh w ->
  In order (orders_sheet (run calls w)) ->
  Order.external_reference order = Some reference ->
  Py.split "|" reference = ["DTV"; Order.vet_id order; Order.order_id order].
Proof.
  intros Hfresh Hin Href.
  pose proof (run_well_formed calls w (fresh_well_formed w Hfresh)) as [Horders _].
  rewrite Forall_forall in Horders.
  destruct (Horders order) as [Hid Hshape].
  { now apply list_elem_of_In. }
  rewrite Href in Hshape. destruct Hshape as [Hvet ->].
  now apply split_generated_reference.
Qed.

Lemma external_reference_has_three_parts_witness :
  exists order : Order.t,
    In order (orders_sheet demo_world_linked) /\
    Order.external_reference order = Some "DTV|VET001|ORD-0000002A" /\
    Py.split "|" "DTV|VET001|ORD-0000002A"
    = ["DTV"; Order.vet_id order; Order.order_id order].
Proof.
  destruct (orders_sheet demo_world_linked) as [| order rest] eqn:Hsheet;
    [vm_compute in Hsheet; discriminate |].
  assert (Href : Order.external_reference order = Some "DTV|VET001|ORD-0000002A").
  { vm_compute in Hsheet. injection Hsheet as <- _. reflexivity. }
  exists order. split; [now left |]. split; [exact Href |].
  apply (external_reference_has_three_parts demo_world
           [ (demo_env, demo_create_pickup); (demo_env, demo_connect);
             (demo_env, CreatePaymentLink "VET001" "ORD-0000002A") ]
           order "DTV|VET001|ORD-0000002A").
  - split; [reflexivity |]. split; [intros vet_id; reflexivity | reflexivity].
  - change (In order (orders_sheet demo_world_linked)). rewrite Hsheet. now left.
  - exact Href.
Defined.

(** * Further properties of the code *)

(** ** Lookups and rewrites of the orders worksheet *)

Lemma find_has_order_id (order_id : string) (rows : list Order.t) (row : Order.t) :
  find (has_order_id order_id) rows = Some row -> Order.order_id row = order_id.
Proof. intros H. apply find_some in H as [_ H]. now apply String.eqb_eq. Qed.

Lemma find_snoc {A : Type} (cond : A -> bool) (rows : list A) (row : A) :
  find cond (rows ++ [row])
  = match find cond rows with
    | Some found => Some found
    | None => if cond row then Some row else None
    end.
Proof.
  induction rows as [| r rest IH]; simpl; [reflexivity |].
  now destruct (cond r).
Qed.

Lemma get_order_by_id_row (order_id : string) (w : World) (order : Order.t) :
  get_order_by_id order_id w = Some order ->
  exists row,
    find (has_order_id order_id) (orders_sheet w) = Some row /\ order = _parse_order_row row.
Proof.
  unfold get_order_by_id.
  destruct (find _ _) as [row |]; [| discriminate].
  intros [= <-]. now exists row.
Qed.

(** A rewrite that keeps the order id rewrites the row a lookup by id
    returns, and the lookup then returns the rewritten row. *)
Lemma update_first_row_by_id (order_id : string) (write : Order.t -> Order.t)
    (rows : list Order.t) (row : Order.t) :
  (forall r, Order.order_id (write r) = Order.order_id r) ->
  find (has_order_id order_id) rows = Some row ->
  exists rows',
    update_first_row (has_order_id order_id) write rows = Some rows' /\
    find (has_order_id order_id) rows' = Some (write row).
Proof.
  intros Hid Hfind.
  destruct (update_first_row_found (has_order_id order_id) write rows row Hfind)
    as (rows' & Hupd & Hfind').
  exists rows'. split; [exact Hupd |]. apply Hfind'.
  unfold has_order_id. rewrite Hid. apply String.eqb_eq.
  now apply find_has_order_id with (rows := rows).
Qed.

(** A rewrite that keeps a function of the row keeps that function of
    the whole sheet. *)
Lemma update_first_row_map {A B : Type} (cond : A -> bool) (write : A -> A) (f : A -> B)
    (rows rows' : list A) :
  (forall r, f (write r) = f r) ->
  update_first_row cond write rows = Some rows' ->
  map f rows' = map f rows.
Proof.
  intros Hf. revert rows'.
  induction rows as [| r rest IH]; simpl; intros rows'; [discriminate |].
  destruct (cond r).
  - intros [= <-]. simpl. now rewrite Hf.
  - destruct (update_first_row cond write rest) as [rest' |]; [| discriminate].
    intros [= <-]. simpl. now rewrite (IH rest').
Qed.

(** ** The payment method *)

(** X1: for an existing order and a method that upper-cases to
    MERCADOPAGO or AT_VET, set_payment_method answers updated, stores the
    method and overwrites the status, with CREATED for MERCADOPAGO and
    PAYMENT_AT_VET for AT_VET, whatever the status was; it logs one
    audit event, sends no notification and contacts no processor. *)
Theorem set_payment_method_overwrites_status (env : Env) (w : World)
    (order_id payment_method : string) (order : Order.t) (method : PaymentMethod.t) :
  get_order_by_id order_id w = Some order ->
  Py.upper payment_method = PaymentMethod.value method ->
  let result := fst (set_payment_method env order_id payment_method w) in
  let w' := snd (set_payment_method env order_id payment_method w) in
  let new_status :=
    match method with
    | PaymentMethod.MERCADOPAGO => OrderStatus.CREATED
    | PaymentMethod.AT_VET => OrderStatus.PAYMENT_AT_VET
    end in
  Py.status result = "updated" /\
  Order.status <$> get_order_by_id order_id w' = Some new_status /\
  Order.payment_method <$> get_order_by_id order_id w' = Some (Some method) /\
  List.length (events_sheet w') = S (List.length (events_sheet w)) /\
  outbox w' = outbox w /\
  mp_requests w' = mp_requests w.
Proof.
  intros Hget Hmethod. cbv zeta.
  destruct (get_order_by_id_row _ _ _ Hget) as (row & Hfind & ->).
  unfold set_payment_method. rewrite Hmethod, Hget.
  assert (Hupd : forall s,
    exists rows',
      update_first_row (has_order_id order_id)
        (Order.with_payment_method method s (utcnow env)) (orders_sheet w) = Some rows' /\
      find (has_order_id order_id) rows'
      = Some (Order.with_payment_method method s (utcnow env) row)).
  { intros s. now apply update_first_row_by_id. }
  assert (Hparse : forall r : Order.t, Order.payment_method (_parse_order_row r)
                                      = Order.payment_method r).
  { intros r. unfold _parse_order_row. now destruct (_ && _). }
  destruct method; cbn [PaymentMethod.value existsb negb].
  - rewrite ?String.eqb_refl; cbn [orb negb].
    destruct (Hupd OrderStatus.CREATED) as (rows' & Hu & Hf).
    unfold sheets_set_payment_method; rewrite Hu; cbn [negb fst snd].
    unfold get_order_by_id, log_event.
    cbn [orders_sheet events_sheet outbox mp_requests set_events set_orders].
    rewrite Hf; cbn [fmap option_fmap option_map].
    rewrite parse_order_row_status, Hparse, length_app; cbn [List.length].
    repeat split; try reflexivity. lia.
  - replace ("AT_VET" =? "MERCADOPAGO")%string with false by reflexivity.
    rewrite ?String.eqb_refl; cbn [orb negb].
    destruct (Hupd OrderStatus.PAYMENT_AT_VET) as (rows' & Hu & Hf).
    unfold sheets_set_payment_method; rewrite Hu; cbn [negb fst snd].
    unfold get_order_by_id, log_event.
    cbn [orders_sheet events_sheet outbox mp_requests set_events set_orders].
    rewrite Hf; cbn [fmap option_fmap option_map].
    rewrite parse_order_row_status, Hparse, length_app; cbn [List.length].
    repeat split; try reflexivity. lia.
Qed.

Lemma set_payment_method_overwrites_status_witness :
  Py.status (fst (set_payment_method demo_env "ORD-0000002A" "at_vet" demo_world_linked))
  = "updated" /\
  Order.status <$> get_order_by_id "ORD-0000002A"
                     (snd (set_payment_method demo_env "ORD-0000002A" "at_vet"
                             demo_world_linked))
  = Some OrderStatus.PAYMENT_AT_VET.
Proof.
  destruct (get_order_by_id "ORD-0000002A" demo_world_linked) as [order |] eqn:Hget;
    [| vm_compute in Hget; discriminate].
  destruct (set_payment_method_overwrites_status demo_env demo_world_linked
              "ORD-0000002A" "at_vet" order PaymentMethod.AT_VET Hget eq_refl)
    as (Hs & Ho & _).
  split; [exact Hs | exact Ho].
Defined.

(** ** The restricted status tool *)

(** X2: the update_order_status tool can do one thing only: when the
    requested status upper-cases to CANCELLED it is cancel_order; for
    every other request it answers not_allowed or invalid_status and
    leaves every store as it was. *)
Theorem update_order_status_only_cancels (env : Env) (w : World)
    (order_id new_status : string) (notify_customer : bool) :
  (Py.upper new_status = "CANCELLED" ->
   update_order_status env order_id new_status notify_customer w
   = cancel_order env order_id notify_customer w) /\
  (Py.upper new_status <> "CANCELLED" ->
   snd (update_order_status env order_id new_status notify_customer w) = w /\
   (Py.status (fst (update_order_status env order_id new_status notify_customer w))
    = "not_allowed" \/
    Py.status (fst (update_order_status env order_id new_status notify_customer w))
    = "invalid_status")).
Proof.
  unfold update_order_status. split.
  - intros ->. reflexivity.
  - intros Hne.
    destruct (String.eqb_spec (Py.upper new_status) "CANCELLED") as [E | _];
      [contradiction |].
    destruct (existsb _ distributor_states); [split; [reflexivity | now left] |].
    destruct (existsb _ payment_states); [split; [reflexivity | now left] |].
    split; [reflexivity | now right].
Qed.

Lemma update_order_status_only_cancels_witness :
  snd (update_order_status demo_env "ORD-0000002A" "delivered" true demo_world_ordered)
  = demo_world_ordered /\
  (Py.status (fst (update_order_status demo_env "ORD-0000002A" "delivered" true
                     demo_world_ordered)) = "not_allowed" \/
   Py.status (fst (update_order_status demo_env "ORD-0000002A" "delivered" true
                     demo_world_ordered)) = "invalid_status").
Proof.
  apply (proj2 (update_order_status_only_cancels demo_env demo_world_ordered
                  "ORD-0000002A" "delivered" true)).
  vm_compute; discriminate.
Defined.

(** ** Cancelling twice *)

Lemma cancel_order_cancelled_inv (env : Env) (order_id : string) (notify_customer : bool)
    (w : World) :
  Py.status (fst (cancel_order env order_id notify_customer w)) = "cancelled" ->
  exists order,
    get_order_by_id order_id w = Some order /\
    Order.status order <> OrderStatus.CANCELLED /\
    ~ In (Order.status order) non_cancellable.
Proof.
  unfold cancel_order.
  destruct (get_order_by_id order_id w) as [order |]; [| intros H; vm_compute in H; discriminate].
  intros H. exists order. split; [reflexivity |].
  destruct (Order.status order); cbn in H; try discriminate;
    (split; [discriminate | intros [E | [E | []]]; discriminate]).
Qed.

(** A rewrite of the first matching row keeps the order cancelled when
    it keeps the identifiers and, if it can hit a row of that order,
    writes the state CANCELLED. *)
Lemma update_first_row_keeps_cancelled (order_id : string) (cond : Order.t -> bool)
    (write : Order.t -> Order.t) (rows : list Order.t) :
  (forall r, Order.order_id (write r) = Order.order_id r) ->
  (forall r, cond r = true -> has_order_id order_id r = true ->
             Order.status (write r) = OrderStatus.CANCELLED) ->
  forall rows' : list Order.t,
    update_first_row cond write rows = Some rows' ->
    cancelled_in order_id rows ->
    cancelled_in order_id rows'.
Proof.
  intros Hid Hwrite. unfold cancelled_in.
  induction rows as [| r rest IH]; intros rows'; cbn [update_first_row find];
    [discriminate |].
  destruct (cond r) eqn:Hcond.
  - intros [= <-]. cbn [find].
    replace (has_order_id order_id (write r)) with (has_order_id order_id r)
      by (unfold has_order_id; now rewrite Hid).
    destruct (has_order_id order_id r) eqn:Hr; [| auto].
    intros _. exists (write r). split; [reflexivity | now apply Hwrite].
  - destruct (update_first_row cond write rest) as [rest' |]; [| discriminate].
    intros [= <-]. cbn [find].
    destruct (has_order_id order_id r); [auto |].
    now apply IH.
Qed.

(** One call that leaves the status cell of the order alone keeps the
    order cancelled. *)
Lemma handle_keeps_cancelled (env : Env) (c : Call) (w : World) (order_id : string) :
  leaves_status_of order_id (env, c) ->
  cancelled_in order_id (orders_sheet w) ->
  cancelled_in order_id (orders_sheet (snd (handle env c w))).
Proof.
  intros Hcall Hin.
  destruct c; cbn [leaves_status_of snd] in Hcall; try contradiction;
    unfold_operations; split_cases; expose_stores; try exact Hin.
  all: first
    [ eapply update_first_row_keeps_cancelled; [| | eassumption | exact Hin];
      [ intros; reflexivity
      | first
          [ intros; reflexivity
          | intros r Hc Hr; unfold has_order_id in Hc, Hr;
            apply String.eqb_eq in Hc, Hr; congruence ] ]
    | destruct Hin as (row & Hfind & Hs); exists row;
      rewrite find_snoc, Hfind; split; [reflexivity | exact Hs] ].
Qed.

Lemma run_keeps_cancelled (order_id : string) (calls : list (Env * Call)) (w : World) :
  Forall (leaves_status_of order_id) calls ->
  cancelled_in order_id (orders_sheet w) ->
  cancelled_in order_id (orders_sheet (run calls w)).
Proof.
  intros Hcalls. revert w.
  induction Hcalls as [| [env c] rest Hc _ IH]; intros w Hin; [exact Hin |].
  cbn [run]. apply IH. now apply handle_keeps_cancelled.
Qed.

(** X3: once cancel_order has answered cancelled, a later cancel_order
    of the same order, with any notification flag, answers
    already_cancelled and changes nothing (no second audit event, no
    second message to the customer), whatever calls came in between, as
    long as none of them writes the status cell of that order: no
    payment method choice, payment link or distributor update for that
    order, and no notification on the merchant-scoped webhook route. *)
Theorem cancel_order_twice (env env' : Env) (w : World) (order_id : string)
    (notify_customer notify_again : bool) (calls : list (Env * Call)) :
  Py.status (fst (cancel_order env order_id notify_customer w)) = "cancelled" ->
  Forall (leaves_status_of order_id) calls ->
  let later := run calls (snd (cancel_order env order_id notify_customer w)) in
  cancel_order env' order_id notify_again later
  = ([("status", Py.Str "already_cancelled")], later).
Proof.
  intros H Hcalls later.
  destruct (cancel_order_cancelled_inv _ _ _ _ H) as (order & Hget & Hc & Hn).
  destruct (cancel_order_cancels env w order_id notify_customer order Hget Hc Hn)
    as [_ Hafter].
  assert (Hin : cancelled_in order_id (orders_sheet later)).
  { apply run_keeps_cancelled; [exact Hcalls |].
    destruct (get_order_by_id order_id (snd (cancel_order env order_id notify_customer w)))
      as [order' |] eqn:Hget'; [| discriminate].
    destruct (get_order_by_id_row _ _ _ Hget') as (row & Hfind & ->).
    exists row. split; [exact Hfind |].
    injection Hafter as Hafter. now rewrite parse_order_row_status in Hafter. }
  destruct Hin as (row & Hfind & Hs).
  apply (cancel_order_already_cancelled env' later order_id notify_again
           (_parse_order_row row)).
  - unfold get_order_by_id. now rewrite Hfind.
  - now rewrite parse_order_row_status.
Qed.

Lemma cancel_order_twice_witness :
  let later :=
    run [ (demo_env, CreateOrder "s1" "VET001" "Ana" "Paz" "ana@example.com"
                       "+5491155551234" "PICKUP" None None);
          (demo_env, SetPaymentMethod "ORD-FFFFFFFF" "AT_VET");
          (demo_env, Webhook (Some demo_notification)) ]
      (snd (cancel_order demo_env "ORD-0000002A" true demo_world_ordered)) in
  cancel_order demo_env "ORD-0000002A" false later
  = ([("status", Py.Str "already_cancelled")], later).
Proof.
  apply (cancel_order_twice demo_env demo_env demo_world_ordered "ORD-0000002A" true false).
  - vm_compute; reflexivity.
  - repeat constructor; discriminate.
Defined.

(** ** Order creation, by answer *)

Lemma is_empty_false (cart : CartSummary.t) :
  CartSummary.is_empty cart = false -> CartSummary.items cart <> [].
Proof. unfold CartSummary.is_empty. now destruct (CartSummary.items cart). Qed.

(** What a created order leaves behind. *)
Lemma create_order_created_inv (env : Env)
    (session_id vet_id customer_name customer_lastname customer_email
       customer_whatsapp delivery_mode : string)
    (delivery_address delivery_zone : option string) (w : World) :
  let result :=
    fst (create_order env session_id vet_id customer_name customer_lastname
           customer_email customer_whatsapp delivery_mode delivery_address delivery_zone w) in
  let w' :=
    snd (create_order env session_id vet_id customer_name customer_lastname
           customer_email customer_whatsapp delivery_mode delivery_address delivery_zone w) in
  Py.status result = "created" ->
  exists (cart : CartSummary.t) (row : Order.t) (event : Event.t),
    _carts w !! session_id = Some cart /\
    CartSummary.items cart <> [] /\
    orders_sheet w' = orders_sheet w ++ [row] /\
    Order.order_id row = ("ORD-" ++ uuid_hex8_upper (uuid4_order env))%string /\
    Order.vet_id row = vet_id /\
    Order.status row = OrderStatus.CREATED /\
    Order.items row = CartSummary.items cart /\
    Order.subtotal row = CartSummary.total_amount cart /\
    Order.total_amount row = (Order.subtotal row + Order.shipping_cost row)%Q /\
    Order.payment_method row = None /\
    Order.external_reference row = None /\
    events_sheet w' = events_sheet w ++ [event] /\
    Event.event_type event = EventType.ORDER_CREATED /\
    Event.order_id event = Order.order_id row /\
    outbox w' = outbox w ++ [OrderCreatedEmail (Order.order_id row)] /\
    _carts w' = <[session_id := CartSummary.empty]> (_carts w) /\
    result = [("status", Py.Str "created"); ("order_id", Py.Str (Order.order_id row))].
Proof.
  cbv zeta. intros H. unfold_operations. split_cases.
  all: try (vm_compute in H; discriminate).
  all: cbn [_carts set_events set_orders set_customers set_carts handed_over orders_sheet
              events_sheet outbox] in *.
  all: try congruence.
  all: eexists _, _, _.
  all: split; [reflexivity |].
  all: split; [now apply is_empty_false |].
  all: repeat (split; [reflexivity |]); reflexivity.
Qed.

(** A created order is a PICKUP order, without shipping cost. *)
Lemma create_order_created_pickup (env : Env)
    (session_id vet_id customer_name customer_lastname customer_email
       customer_whatsapp delivery_mode : string)
    (delivery_address delivery_zone : option string) (w : World) :
  let result :=
    fst (create_order env session_id vet_id customer_name customer_lastname
           customer_email customer_whatsapp delivery_mode delivery_address delivery_zone w) in
  let w' :=
    snd (create_order env session_id vet_id customer_name customer_lastname
           customer_email customer_whatsapp delivery_mode delivery_address delivery_zone w) in
  Py.status result = "created" ->
  DeliveryMode.of_value (Py.upper delivery_mode) = Some DeliveryMode.PICKUP /\
  exists row : Order.t,
    orders_sheet w' = orders_sheet w ++ [row] /\
    DeliveryData.mode (Order.delivery row) = DeliveryMode.PICKUP /\
    Order.shipping_cost row = 0%Q.
Proof.
  cbv zeta. intros H.
  destruct (DeliveryMode.of_value (Py.upper delivery_mode)) as [[|] |] eqn:Hmode.
  - split; [reflexivity |].
    unfold_operations. rewrite Hmode in *. cbn [is_delivery andb] in *. split_cases.
    all: try (vm_compute in H; discriminate).
    all: expose_stores.
    all: eexists; split; [reflexivity |]; split; reflexivity.
  - exfalso.
    apply (create_order_delivery_never_creates env w session_id vet_id customer_name
             customer_lastname customer_email customer_whatsapp delivery_mode
             delivery_address delivery_zone Hmode).
    exact H.
  - exfalso. unfold create_order, get_cart_for_order, _get_cart in H.
    rewrite Hmode in H. revert H.
    split_cases; intros Hstatus; vm_compute in Hstatus; discriminate.
Qed.

(** The customers worksheet after [create_order]: untouched when the
    answer is empty_cart or validation_error, and what [create_customer]
    leaves when the answer is created or error. *)
Lemma create_order_customers (env : Env)
    (session_id vet_id customer_name customer_lastname customer_email
       customer_whatsapp delivery_mode : string)
    (delivery_address delivery_zone : option string) (w : World) :
  let result :=
    fst (create_order env session_id vet_id customer_name customer_lastname
           customer_email customer_whatsapp delivery_mode delivery_address delivery_zone w) in
  let w' :=
    snd (create_order env session_id vet_id customer_name customer_lastname
           customer_email customer_whatsapp delivery_mode delivery_address delivery_zone w) in
  (Py.status result = "empty_cart" \/ Py.status result = "validation_error" ->
   customers_sheet w' = customers_sheet w) /\
  (Py.status result = "created" \/ Py.status result = "error" ->
   customers_sheet w'
   = customers_sheet
       (create_customer env vet_id (Py.strip customer_name) (Py.strip customer_lastname)
          (Py.lower (Py.strip customer_email)) customer_whatsapp delivery_address w)).
Proof.
  cbv zeta.
  unfold create_order, get_cart_for_order, create_order_record, log_event, clear_cart,
    _get_cart, send_order_created_notification.
  split; intros H; split_cases; expose_stores.
  all: try (destruct H as [H | H]; vm_compute in H; discriminate).
  all: unfold create_customer; split_cases; reflexivity.
Qed.

Lemma create_order_answers (env : Env)
    (session_id vet_id customer_name customer_lastname customer_email
       customer_whatsapp delivery_mode : string)
    (delivery_address delivery_zone : option string) (w : World) :
  let result :=
    fst (create_order env session_id vet_id customer_name customer_lastname
           customer_email customer_whatsapp delivery_mode delivery_address delivery_zone w) in
  (Py.status result = "created" \/ Py.status result = "error") \/
  (Py.status result = "empty_cart" \/ Py.status result = "validation_error").
Proof.
  cbv zeta.
  unfold create_order, get_cart_for_order, create_order_record, _get_cart.
  split_cases.
  all: first
    [ left; left; reflexivity | left; right; reflexivity
    | right; left; reflexivity | right; right; reflexivity ].
Qed.

(** A merchant without customers: the lookup finds nobody, so
    [create_customer] appends a row. *)
Lemma create_customer_first (env : Env) (vet_id name lastname email whatsapp_e164 : string)
    (address : option string) (w : World) :
  Forall (fun row => Customer.vet_id row <> vet_id) (customers_sheet w) ->
  exists customer : Customer.t,
    create_customer env vet_id name lastname email whatsapp_e164 address w
    = set_customers (customers_sheet w ++ [customer]) w /\
    Customer.customer_id customer = ("CUST-" ++ uuid_hex8_upper (uuid4_customer env))%string /\
    Customer.vet_id customer = vet_id /\
    Customer.address customer = Py.or_empty address /\
    Customer.active customer = true.
Proof.
  intros Hnone.
  assert (Hempty : get_customers_by_vet vet_id w = []).
  { unfold get_customers_by_vet.
    induction Hnone as [| row rest Hrow _ IH]; [reflexivity |].
    cbn [List.filter]. apply String.eqb_neq in Hrow. rewrite Hrow. exact IH. }
  unfold create_customer, get_customer_by_phone_or_email. rewrite Hempty.
  destruct (_ && _); cbn [find]; eexists; repeat split.
Qed.

Lemma create_customer_adds (env : Env) (vet_id name lastname email whatsapp_e164 : string)
    (address : option string) (w : World) :
  customers_sheet (create_customer env vet_id name lastname email whatsapp_e164 address w)
  = customers_sheet w \/
  exists customer : Customer.t,
    customers_sheet (create_customer env vet_id name lastname email whatsapp_e164 address w)
    = customers_sheet w ++ [customer] /\
    Customer.customer_id customer = ("CUST-" ++ uuid_hex8_upper (uuid4_customer env))%string /\
    Customer.vet_id customer = vet_id /\
    Customer.address customer = Py.or_empty address /\
    Customer.active customer = true.
Proof.
  unfold create_customer.
  destruct (get_customer_by_phone_or_email vet_id whatsapp_e164 email w);
    [left; reflexivity | right; eexists; repeat split].
Qed.

(** X4: what create_order has written, by answer.  When it answers
    created, the order is a PICKUP order: it has appended exactly one
    row, in state CREATED, without shipping cost, payment method or
    external reference, logged exactly one ORDER_CREATED event for it,
    handed over exactly one e-mail for it and emptied the cart of the
    session.  With any other answer the orders and events worksheets and
    the outbox are as they were, and every cart that existed is
    untouched.  The customers worksheet is written before the order: it
    is untouched when the answer is empty_cart or validation_error, but
    when the answer is created or error the customer has been looked up
    and, if the merchant had no such customer, registered: at most one
    row is appended, and for a merchant without customers exactly one,
    so an answer of error leaves a new customers row behind.  In every
    case the vault and the set of processed notifications are unchanged
    and no request went to the processor. *)
Theorem create_order_writes_by_answer (env : Env)
    (session_id vet_id customer_name customer_lastname customer_email
       customer_whatsapp delivery_mode : string)
    (delivery_address delivery_zone : option string) (w : World) :
  let result :=
    fst (create_order env session_id vet_id customer_name customer_lastname
           customer_email customer_whatsapp delivery_mode delivery_address delivery_zone w) in
  let w' :=
    snd (create_order env session_id vet_id customer_name customer_lastname
           customer_email customer_whatsapp delivery_mode delivery_address delivery_zone w) in
  (Py.status result = "created" ->
   exists (row : Order.t) (event : Event.t),
     orders_sheet w' = orders_sheet w ++ [row] /\
     Order.vet_id row = vet_id /\
     Order.status row = OrderStatus.CREATED /\
     DeliveryData.mode (Order.delivery row) = DeliveryMode.PICKUP /\
     Order.shipping_cost row = 0%Q /\
     Order.payment_method row = None /\
     Order.external_reference row = None /\
     events_sheet w' = events_sheet w ++ [event] /\
     Event.event_type event = EventType.ORDER_CREATED /\
     Event.order_id event = Order.order_id row /\
     outbox w' = outbox w ++ [OrderCreatedEmail (Order.order_id row)] /\
     _carts w' = <[session_id := CartSummary.empty]> (_carts w)) /\
  (Py.status result <> "created" ->
   orders_sheet w' = orders_sheet w /\
   events_sheet w' = events_sheet w /\
   outbox w' = outbox w /\
   forall (other : string) (cart : CartSummary.t),
     _carts w !! other = Some cart -> _carts w' !! other = Some cart) /\
  (Py.status result = "empty_cart" \/ Py.status result = "validation_error" ->
   customers_sheet w' = customers_sheet w) /\
  (customers_sheet w' = customers_sheet w \/
   exists customer : Customer.t,
     customers_sheet w' = customers_sheet w ++ [customer] /\
     Customer.customer_id customer = ("CUST-" ++ uuid_hex8_upper (uuid4_customer env))%string /\
     Customer.vet_id customer = vet_id /\
     Customer.address customer = Py.or_empty delivery_address /\
     Customer.active customer = true) /\
  (Py.status result = "created" \/ Py.status result = "error" ->
   Forall (fun row => Customer.vet_id row <> vet_id) (customers_sheet w) ->
   exists customer : Customer.t,
     customers_sheet w' = customers_sheet w ++ [customer] /\
     Customer.customer_id customer = ("CUST-" ++ uuid_hex8_upper (uuid4_customer env))%string /\
     Customer.vet_id customer = vet_id /\
     Customer.address customer = Py.or_empty delivery_address /\
     Customer.active customer = true) /\
  _token_store w' = _token_store w /\
  _processed_notifications w' = _processed_notifications w /\
  mp_requests w' = mp_requests w.
Proof.
  cbv zeta.
  pose proof (create_order_customers env session_id vet_id customer_name customer_lastname
                customer_email customer_whatsapp delivery_mode delivery_address
                delivery_zone w) as [Hkept Hregistered].
  cbv zeta in Hkept, Hregistered.
  split; [| split; [| split; [| split; [| split]]]].
  - intros H.
    destruct (create_order_created_inv env session_id vet_id customer_name customer_lastname
                customer_email customer_whatsapp delivery_mode delivery_address
                delivery_zone w H)
      as (cart & row & event & _ & _ & Ho & _ & Hv & Hs & _ & _ & _ & Hp & Hr & He & Ht
          & Hi & Hout & Hc & _).
    destruct (create_order_created_pickup env session_id vet_id customer_name
                customer_lastname customer_email customer_whatsapp delivery_mode
                delivery_address delivery_zone w H)
      as (Hmode & row' & Ho' & Hpickup & Hship).
    rewrite Ho in Ho'. apply app_inj_tail in Ho' as [_ <-].
    exists row, event. repeat split; assumption.
  - intros H. unfold_operations. split_cases.
    all: try (exfalso; apply H; reflexivity).
    all: cbn [_carts set_events set_orders set_customers set_carts handed_over orders_sheet
                events_sheet outbox].
    all: repeat split; try reflexivity; try tauto.
    all: intros other cart Hcart.
    all: destruct (decide (session_id = other)) as [<- | Hne]; [congruence |].
    all: now rewrite lookup_insert_ne.
  - exact Hkept.
  - destruct (create_order_answers env session_id vet_id customer_name customer_lastname
                customer_email customer_whatsapp delivery_mode delivery_address
                delivery_zone w) as [Hs | Hs].
    + rewrite (Hregistered Hs). apply create_customer_adds.
    + left. apply Hkept. exact Hs.
  - intros Hs Hnone. rewrite (Hregistered Hs).
    destruct (create_customer_first env vet_id (Py.strip customer_name)
                (Py.strip customer_lastname) (Py.lower (Py.strip customer_email))
                customer_whatsapp delivery_address w Hnone)
      as (customer & -> & Hrest).
    exists customer. split; [reflexivity | exact Hrest].
  - unfold_operations. split_cases; repeat split; reflexivity.
Qed.

Lemma create_order_writes_by_answer_witness :
  (exists (row : Order.t) (event : Event.t),
     orders_sheet (snd (handle demo_env demo_create_pickup demo_world))
     = orders_sheet demo_world ++ [row] /\
     Order.vet_id row = "VET001" /\
     Order.status row = OrderStatus.CREATED /\
     DeliveryData.mode (Order.delivery row) = DeliveryMode.PICKUP /\
     Order.shipping_cost row = 0%Q /\
     Order.payment_method row = None /\
     Order.external_reference row = None /\
     events_sheet (snd (handle demo_env demo_create_pickup demo_world))
     = events_sheet demo_world ++ [event] /\
     Event.event_type event = EventType.ORDER_CREATED /\
     Event.order_id event = Order.order_id row /\
     outbox (snd (handle demo_env demo_create_pickup demo_world))
     = outbox demo_world ++ [OrderCreatedEmail (Order.order_id row)] /\
     _carts (snd (handle demo_env demo_create_pickup demo_world))
     = <["s1" := CartSummary.empty]> (_carts demo_world)) /\
  orders_sheet (snd (handle demo_env demo_create_delivery_without_address demo_world))
  = orders_sheet demo_world /\
  customers_sheet (snd (handle demo_env demo_create_delivery_without_address demo_world))
  = customers_sheet demo_world /\
  orders_sheet (snd (handle demo_env demo_create_delivery demo_world))
  = orders_sheet demo_world /\
  exists customer : Customer.t,
    customers_sheet (snd (handle demo_env demo_create_delivery demo_world))
    = customers_sheet demo_world ++ [customer] /\
    Customer.customer_id customer = "CUST-00000009" /\
    Customer.vet_id customer = "VET001" /\
    Customer.address customer = "Av. Siempreviva 742" /\
    Customer.active customer = true.
Proof.
  pose proof (create_order_writes_by_answer demo_env "s1" "VET001" "Ana" "Paz"
                "Ana@Example.com" "+5491155551234" "pickup" None None demo_world)
    as (Hcreated & _).
  pose proof (create_order_writes_by_answer demo_env "s1" "VET001" "Ana" "Paz"
                "ana@example.com" "+5491155551234" "DELIVERY" None (Some "caba")
                demo_world)
    as (_ & Hrejected & Hvalidation & _).
  pose proof (create_order_writes_by_answer demo_env "s1" "VET001" "Ana" "Paz"
                "ana@example.com" "+5491155551234" "DELIVERY"
                (Some "Av. Siempreviva 742") (Some "caba") demo_world)
    as (_ & Hfailed & _ & _ & Hcustomers & _).
  split; [apply Hcreated; vm_compute; reflexivity |].
  split; [apply Hrejected; vm_compute; discriminate |].
  split; [apply Hvalidation; right; vm_compute; reflexivity |].
  split; [apply Hfailed; vm_compute; discriminate |].
  apply Hcustomers; [right; vm_compute; reflexivity | constructor].
Defined.

(** X5: right after a created order, a second create_order for the same
    session, whatever its other arguments, answers empty_cart and
    changes nothing: a repeated confirmation cannot duplicate the
    order. *)
Theorem create_order_twice (env env' : Env)
    (session_id vet_id customer_name customer_lastname customer_email
       customer_whatsapp delivery_mode : string)
    (delivery_address delivery_zone : option string)
    (vet_id' customer_name' customer_lastname' customer_email'
       customer_whatsapp' delivery_mode' : string)
    (delivery_address' delivery_zone' : option string) (w : World) :
  Py.status
    (fst (create_order env session_id vet_id customer_name customer_lastname
            customer_email customer_whatsapp delivery_mode delivery_address
            delivery_zone w)) = "created" ->
  let w1 :=
    snd (create_order env session_id vet_id customer_name customer_lastname
           customer_email customer_whatsapp delivery_mode delivery_address delivery_zone w) in
  create_order env' session_id vet_id' customer_name' customer_lastname'
    customer_email' customer_whatsapp' delivery_mode' delivery_address' delivery_zone' w1
  = ([("status", Py.Str "empty_cart")], w1).
Proof.
  intros H. cbv zeta.
  destruct (create_order_created_inv env session_id vet_id customer_name customer_lastname
              customer_email customer_whatsapp delivery_mode delivery_address
              delivery_zone w H)
    as (cart & row & event & Hrest).
  assert (Hc : _carts
                 (snd (create_order env session_id vet_id customer_name customer_lastname
                         customer_email customer_whatsapp delivery_mode delivery_address
                         delivery_zone w)) !! session_id = Some CartSummary.empty).
  { replace (_carts _) with (<[session_id := CartSummary.empty]> (_carts w))
      by (symmetry; apply Hrest).
    apply lookup_insert_eq. }
  unfold create_order at 1. unfold get_cart_for_order, _get_cart.
  rewrite Hc. reflexivity.
Qed.

Lemma create_order_twice_witness :
  create_order demo_env "s1" "VET001" "Ana" "Paz" "ana@example.com" "+5491155551234"
    "pickup" None None demo_world_ordered
  = ([("status", Py.Str "empty_cart")], demo_world_ordered).
Proof.
  apply (create_order_twice demo_env demo_env "s1" "VET001" "Ana" "Paz" "Ana@Example.com"
           "+5491155551234" "pickup" None None "VET001" "Ana" "Paz" "ana@example.com"
           "+5491155551234" "pickup" None None demo_world).
  vm_compute; reflexivity.
Defined.

Lemma parse_order_row_cells (row : Order.t) :
  Order.order_id (_parse_order_row row) = Order.order_id row /\
  Order.items (_parse_order_row row) = Order.items row /\
  Order.shipping_cost (_parse_order_row row) = Order.shipping_cost row /\
  Order.total_amount (_parse_order_row row) = Order.total_amount row /\
  Order.currency (_parse_order_row row) = Order.currency row /\
  Order.external_reference (_parse_order_row row) = Order.external_reference row /\
  Order.mp_preference_id (_parse_order_row row) = Order.mp_preference_id row /\
  Order.mp_payment_id (_parse_order_row row) = Order.mp_payment_id row /\
  Order.mp_status (_parse_order_row row) = Order.mp_status row /\
  Order.payment_method (_parse_order_row row) = Order.payment_method row /\
  Order.customer (_parse_order_row row) = Order.customer row.
Proof. unfold _parse_order_row. destruct (_ && _); repeat split. Qed.

(** X6: create_order does not check that the identifier it draws is
    unused.  When it is unused, a lookup by the returned identifier
    finds the new order: the merchant, the lines, state CREATED, a total
    of cart total plus shipping cost, and the cart total as subtotal,
    except that a zero subtotal next to a positive total reads back as
    the total.  When an older row already carries the identifier, the
    new row is appended all the same and the lookup keeps returning the
    older order. *)
Theorem create_order_then_lookup (env : Env)
    (session_id vet_id customer_name customer_lastname customer_email
       customer_whatsapp delivery_mode : string)
    (delivery_address delivery_zone : option string) (w : World) :
  let result :=
    fst (create_order env session_id vet_id customer_name customer_lastname
           customer_email customer_whatsapp delivery_mode delivery_address delivery_zone w) in
  let w' :=
    snd (create_order env session_id vet_id customer_name customer_lastname
           customer_email customer_whatsapp delivery_mode delivery_address delivery_zone w) in
  let order_id := str_field "order_id" result in
  Py.status result = "created" ->
  exists cart : CartSummary.t,
    _carts w !! session_id = Some cart /\
    match get_order_by_id order_id w with
    | None =>
        exists order : Order.t,
          get_order_by_id order_id w' = Some order /\
          Order.order_id order = order_id /\
          Order.vet_id order = vet_id /\
          Order.status order = OrderStatus.CREATED /\
          Order.items order = CartSummary.items cart /\
          Order.total_amount order
          = (CartSummary.total_amount cart + Order.shipping_cost order)%Q /\
          Order.subtotal order
          = if Qeq_bool (CartSummary.total_amount cart) 0
               && negb (Qle_bool (Order.total_amount order) 0)
            then Order.total_amount order
            else CartSummary.total_amount cart
    | Some older =>
        get_order_by_id order_id w' = Some older /\
        List.length (orders_sheet w') = S (List.length (orders_sheet w))
    end.
Proof.
  cbv zeta. intros H.
  destruct (create_order_created_inv env session_id vet_id customer_name customer_lastname
              customer_email customer_whatsapp delivery_mode delivery_address
              delivery_zone w H)
    as (cart & row & event & Hcart & _ & Ho & Hid & Hv & Hs & Hi & Hsub & Htot & _ & _ & _
        & _ & _ & _ & _ & Hres).
  exists cart. split; [exact Hcart |].
  rewrite Hres. cbn [str_field Py.get String.eqb Ascii.eqb Bool.eqb].
  unfold str_field; simpl Py.get.
  unfold get_order_by_id. rewrite Ho, find_snoc.
  destruct (find (has_order_id (Order.order_id row)) (orders_sheet w)) as [older |].
  - split; [reflexivity |]. rewrite length_app; cbn [List.length]; lia.
  - unfold has_order_id at 1. rewrite String.eqb_refl.
    exists (_parse_order_row row). split; [reflexivity |].
    destruct (parse_order_row_cells row) as (-> & -> & -> & -> & _).
    rewrite parse_order_row_vet_id, parse_order_row_status.
    repeat (split; [first [assumption | reflexivity | now rewrite Htot, Hsub] |]).
    unfold _parse_order_row. rewrite Hsub.
    now destruct (_ && _).
Qed.

Lemma create_order_then_lookup_witness :
  exists order : Order.t,
    get_order_by_id "ORD-0000002A" demo_world_ordered = Some order /\
    Order.order_id order = "ORD-0000002A" /\
    Order.vet_id order = "VET001" /\
    Order.status order = OrderStatus.CREATED /\
    Order.items order = [demo_line].
Proof.
  destruct (create_order_then_lookup demo_env "s1" "VET001" "Ana" "Paz" "Ana@Example.com"
              "+5491155551234" "pickup" None None demo_world)
    as (cart & Hcart & Hlookup); [vm_compute; reflexivity |].
  vm_compute in Hcart. injection Hcart as <-.
  destruct Hlookup as (order & Hget & Hid & Hvet & Hstatus & Hitems & _).
  exists order. repeat split; assumption.
Defined.

(** ** What no call does to an order *)

(** One call keeps the rows, in order, with their immutable cells, and
    adds at most one row, whose identifier is a generated one. *)
Lemma handle_orders_frame (env : Env) (c : Call) (w : World) :
  exists added : list Order.t,
    map immutable_cells (orders_sheet (snd (handle env c w)))
    = map immutable_cells (orders_sheet w ++ added) /\
    (added = [] \/
     exists row, added = [row] /\ generated_order_id (Order.order_id row)).
Proof.
  destruct c; unfold_operations; split_cases; expose_stores.
  all: first
    [ exists []; rewrite app_nil_r; split; [| now left];
      first [ reflexivity
            | eapply update_first_row_map; [| eassumption]; intros; reflexivity ]
    | eexists [_]; split; [reflexivity |];
      right; eexists; split; [reflexivity |]; eexists; reflexivity ].
Qed.

Lemma run_orders_frame (calls : list (Env * Call)) :
  forall w : World,
    exists added : list Order.t,
      map immutable_cells (orders_sheet (run calls w))
      = map immutable_cells (orders_sheet w ++ added) /\
      Forall (fun row => generated_order_id (Order.order_id row)) added.
Proof.
  induction calls as [| [env c] rest IH]; intros w.
  - exists []. rewrite app_nil_r. split; [reflexivity | constructor].
  - cbn [run].
    destruct (IH (snd (handle env c w))) as (later & Hlater & Hgen).
    destruct (handle_orders_frame env c w) as (added & Hadded & Hshape).
    exists (added ++ later). split.
    + rewrite Hlater, !map_app, app_assoc. f_equal.
      now rewrite Hadded, map_app.
    + apply Forall_app. split; [| exact Hgen].
      destruct Hshape as [-> | (row & -> & Hrow)]; repeat constructor; assumption.
Qed.

(** X7: no sequence of calls (orders, cancellations, payment links,
    webhooks, the distributor's status updates, cart changes) deletes or
    moves a row of the orders worksheet, or rewrites its identifier,
    merchant, customer, delivery data, lines, amounts, currency or
    creation time: the order at a position stays at that position with
    those cells. *)
Theorem orders_are_never_lost (calls : list (Env * Call)) (w : World) (position : nat)
    (row : Order.t) :
  orders_sheet w !! position = Some row ->
  exists row' : Order.t,
    orders_sheet (run calls w) !! position = Some row' /\
    immutable_cells row' = immutable_cells row.
Proof.
  intros Hrow.
  destruct (run_orders_frame calls w) as (added & Hmap & _).
  assert (Hcells : map immutable_cells (orders_sheet (run calls w)) !! position
                   = Some (immutable_cells row)).
  { rewrite Hmap, map_app. apply lookup_app_l_Some.
    change (map immutable_cells (orders_sheet w))
      with (immutable_cells <$> orders_sheet w).
    now rewrite list_lookup_fmap, Hrow. }
  change (map immutable_cells (orders_sheet (run calls w)))
    with (immutable_cells <$> orders_sheet (run calls w)) in Hcells.
  apply list_lookup_fmap_Some_1 in Hcells as (row' & Heq & Hrow').
  exists row'. split; [exact Hrow' | now symmetry].
Qed.

Lemma orders_are_never_lost_witness :
  exists row' : Order.t,
    orders_sheet
      (run [ (demo_env, SetPaymentMethod "ORD-0000002A" "at_vet");
             (demo_env, Fulfillment "ORD-0000002A" OrderStatus.DELIVERED);
             (demo_env, demo_create_pickup) ] demo_world_ordered) !! 0%nat = Some row' /\
    Order.order_id row' = "ORD-0000002A" /\
    Order.vet_id row' = "VET001".
Proof.
  destruct (orders_sheet demo_world_ordered !! 0%nat) as [row |] eqn:Hrow;
    [| vm_compute in Hrow; discriminate].
  destruct (orders_are_never_lost
              [ (demo_env, SetPaymentMethod "ORD-0000002A" "at_vet");
                (demo_env, Fulfillment "ORD-0000002A" OrderStatus.DELIVERED);
                (demo_env, demo_create_pickup) ] demo_world_ordered 0 row Hrow)
    as (row' & Hrow' & Hcells).
  exists row'. split; [exact Hrow' |].
  vm_compute in Hrow. injection Hrow as <-.
  unfold immutable_cells in Hcells. cbn in Hcells.
  injection Hcells as Hid Hvet _. split; assumption.
Defined.

Lemma reached_order_id_generated (w : World) (calls : list (Env * Call)) (order : Order.t) :
  fresh w ->
  In order (orders_sheet (run calls w)) ->
  generated_order_id (Order.order_id order).
Proof.
  intros (Hempty & _) Hin.
  destruct (run_orders_frame calls w) as (added & Hmap & Hgen).
  rewrite Hempty in Hmap. cbn [app] in Hmap.
  apply (in_map immutable_cells) in Hin. rewrite Hmap in Hin.
  apply in_map_iff in Hin as (row & Hcells & Hrow).
  rewrite Forall_forall in Hgen.
  replace (Order.order_id order) with (Order.order_id row)
    by (unfold immutable_cells in Hcells; congruence).
  apply Hgen. now apply list_elem_of_In.
Qed.

Lemma generated_order_id_truthy (order_id : string) :
  generated_order_id order_id -> Py.truthy order_id = true.
Proof. intros (u & ->). reflexivity. Qed.

(** X8: in every state the deployment reaches from a fresh start, every
    order identifier is one create_order generated: ORD- followed by the
    eight leading hexadecimal digits, in upper case, of a uuid4.  No
    other call introduces an order or renames one. *)
Theorem order_ids_are_generated (w : World) (calls : list (Env * Call)) (order : Order.t) :
  fresh w ->
  In order (orders_sheet (run calls w)) ->
  exists u : N,
    Order.order_id order = ("ORD-" ++ uuid_hex8_upper u)%string /\
    String.length (Order.order_id order) = 12%nat.
Proof.
  intros Hfresh Hin.
  destruct (reached_order_id_generated w calls order Hfresh Hin) as (u & Hu).
  exists u. split; [exact Hu |]. rewrite Hu.
  unfold uuid_hex8_upper. generalize ((u mod 2 ^ 128) / 2 ^ 96)%N. intros v.
  reflexivity.
Qed.

Lemma order_ids_are_generated_witness :
  exists order : Order.t,
    In order (orders_sheet demo_world_linked) /\
    exists u : N,
      Order.order_id order = ("ORD-" ++ uuid_hex8_upper u)%string /\
      String.length (Order.order_id order) = 12%nat.
Proof.
  destruct (orders_sheet demo_world_linked) as [| order rest] eqn:Hsheet;
    [vm_compute in Hsheet; discriminate |].
  exists order. split; [now left |].
  apply (order_ids_are_generated demo_world
           [ (demo_env, demo_create_pickup); (demo_env, demo_connect);
             (demo_env, CreatePaymentLink "VET001" "ORD-0000002A") ] order).
  - split; [reflexivity |]. split; [intros vet_id; reflexivity | reflexivity].
  - change (In order (orders_sheet demo_world_linked)). rewrite Hsheet. now left.
Defined.

(** ** The payment return pages *)

Lemma reached_reference (w : World) (calls : list (Env * Call)) (order : Order.t)
    (reference : string) :
  fresh w ->
  In order (orders_sheet (run calls w)) ->
  Order.external_reference order = Some reference ->
  reference = ("DTV|" ++ Order.vet_id order ++ "|" ++ Order.order_id order)%string /\
  bar_free (Order.vet_id order) /\
  bar_free (Order.order_id order).
Proof.
  intros Hfresh Hin Href.
  pose proof (run_well_formed calls w (fresh_well_formed w Hfresh)) as [Horders _].
  rewrite Forall_forall in Horders.
  destruct (Horders order) as [Hid Hshape]; [now apply list_elem_of_In |].
  rewrite Href in Hshape. destruct Hshape as [Hvet ->]. now repeat split.
Qed.

Lemma find_has_order_id_In (rows : list Order.t) (order : Order.t) :
  In order rows ->
  exists first, find (has_order_id (Order.order_id order)) rows = Some first.
Proof.
  intros Hin.
  destruct (find (has_order_id (Order.order_id order)) rows) as [first |] eqn:Hfind;
    [now exists first |].
  apply (find_none _ _ Hfind) in Hin. unfold has_order_id in Hin.
  now rewrite String.eqb_refl in Hin.
Qed.

(** X9: in every state reached from a fresh start, when the processor
    sends the buyer back with only the external reference of an order,
    both return pages recover the identifier of that order from the
    third part of the reference, look that identifier up in the orders
    worksheet, find an order, and show the identifier together with the
    total amount and the currency of the order found, not the default
    label. *)
Theorem return_pages_recover_order (w : World) (calls : list (Env * Call))
    (order : Order.t) (reference : string) :
  fresh w ->
  In order (orders_sheet (run calls w)) ->
  Order.external_reference order = Some reference ->
  exists shown : Order.t,
    get_order_by_id (Order.order_id order) (run calls w) = Some shown /\
    Order.order_id shown = Order.order_id order /\
    payment_success None (Some reference) (run calls w)
    = (Order.order_id order, AmountOf (Order.total_amount shown) (Order.currency shown)) /\
    payment_pending None (Some reference) (run calls w)
    = (Order.order_id order, AmountOf (Order.total_amount shown) (Order.currency shown)).
Proof.
  intros Hfresh Hin Href.
  destruct (reached_reference w calls order reference Hfresh Hin Href) as (-> & Hvet & Hid).
  pose proof (generated_order_id_truthy _
                (reached_order_id_generated w calls order Hfresh Hin)) as Htruthy.
  destruct (find_has_order_id_In _ _ Hin) as (first & Hfind).
  exists (_parse_order_row first).
  split; [unfold get_order_by_id; now rewrite Hfind |].
  split.
  { destruct (parse_order_row_cells first) as [-> _].
    now apply find_has_order_id with (rows := orders_sheet (run calls w)). }
  unfold payment_success, payment_pending.
  cbn [Py.truthy_opt negb Py.or_empty andb].
  rewrite (split_generated_reference _ _ Hvet Hid).
  replace (has_char "|" ("DTV|" ++ Order.vet_id order ++ "|" ++ Order.order_id order))
    with true by reflexivity.
  replace (Py.truthy ("DTV|" ++ Order.vet_id order ++ "|" ++ Order.order_id order))
    with true by reflexivity.
  cbn [andb List.length Nat.leb nth Py.truthy_opt Py.or_empty].
  rewrite Htruthy. unfold get_order_by_id. rewrite Hfind. split; reflexivity.
Qed.

Lemma return_pages_recover_order_witness :
  exists shown : Order.t,
    get_order_by_id "ORD-0000002A" demo_world_linked = Some shown /\
    Order.order_id shown = "ORD-0000002A" /\
    payment_success None (Some "DTV|VET001|ORD-0000002A") demo_world_linked
    = ("ORD-0000002A", AmountOf (Order.total_amount shown) (Order.currency shown)) /\
    payment_pending None (Some "DTV|VET001|ORD-0000002A") demo_world_linked
    = ("ORD-0000002A", AmountOf (Order.total_amount shown) (Order.currency shown)).
Proof.
  destruct (orders_sheet demo_world_linked) as [| order rest] eqn:Hsheet;
    [vm_compute in Hsheet; discriminate |].
  assert (Href : Order.external_reference order = Some "DTV|VET001|ORD-0000002A").
  { vm_compute in Hsheet. injection Hsheet as <- _. reflexivity. }
  assert (Hid : Order.order_id order = "ORD-0000002A").
  { vm_compute in Hsheet. injection Hsheet as <- _. reflexivity. }
  destruct (return_pages_recover_order demo_world
              [ (demo_env, demo_create_pickup); (demo_env, demo_connect);
                (demo_env, CreatePaymentLink "VET001" "ORD-0000002A") ]
              order "DTV|VET001|ORD-0000002A")
    as (shown & Hget & Hshown & Hsuccess & Hpending).
  - split; [reflexivity |]. split; [intros vet_id; reflexivity | reflexivity].
  - change (In order (orders_sheet demo_world_linked)). rewrite Hsheet. now left.
  - exact Href.
  - exists shown. rewrite Hid in Hget, Hshown, Hsuccess, Hpending.
    repeat split; assumption.
Defined.

(** ** More on the webhook routes *)

(** X10: a call to the merchant-scoped webhook that is not answered
    processed (a body that is not a payment notification, a duplicate, no
    usable token, a failed lookup, a foreign or malformed reference, a
    reference of another merchant) changes no order, logs no event and
    sends no notification; one that is answered processed logs exactly
    one PAYMENT_RECEIVED event, for the merchant of the route, and keeps
    every row of the orders worksheet in place. *)
Theorem webhook_v2_effects (env : Env) (vet_id : string)
    (body : option MPWebhookPayload.t) (w : World) :
  let result := fst (mercadopago_webhook_v2 env vet_id body w) in
  let w' := snd (mercadopago_webhook_v2 env vet_id body w) in
  (Py.status result <> "processed" ->
   orders_sheet w' = orders_sheet w /\
   events_sheet w' = events_sheet w /\
   outbox w' = outbox w) /\
  (Py.status result = "processed" ->
   exists event : Event.t,
     events_sheet w' = events_sheet w ++ [event] /\
     Event.event_type event = EventType.PAYMENT_RECEIVED /\
     Event.vet_id event = vet_id /\
     Py.get "order_id" result = Some (Py.Str (Event.order_id event)) /\
     List.length (orders_sheet w') = List.length (orders_sheet w)).
Proof.
  cbv zeta. split; intros H; unfold_operations; split_cases; expose_stores.
  all: try (exfalso; apply H; reflexivity).
  all: try (vm_compute in H; discriminate).
  all: try (repeat split; reflexivity).
  all: eexists; repeat (split; [reflexivity |]).
  all: first
    [ reflexivity
    | match goal with
      | Hu : update_first_row _ _ _ = Some _ |- _ =>
          apply (update_first_row_map _ _ (fun _ => tt)) in Hu; [| reflexivity];
          apply (f_equal (@List.length unit)) in Hu; now rewrite !length_map in Hu
      end ].
Qed.

Lemma webhook_v2_effects_witness :
  exists event : Event.t,
    events_sheet (snd (mercadopago_webhook_v2 demo_env "VET001" (Some demo_notification)
                         demo_world_linked))
    = events_sheet demo_world_linked ++ [event] /\
    Event.event_type event = EventType.PAYMENT_RECEIVED /\
    Event.vet_id event = "VET001".
Proof.
  destruct (proj2 (webhook_v2_effects demo_env "VET001" (Some demo_notification)
                     demo_world_linked))
    as (event & Hevents & Htype & Hvet & _); [vm_compute; reflexivity |].
  exists event. repeat split; assumption.
Defined.

Lemma handle_approved_payment_orders (env : Env) (vet_id order_id payment_id : string)
    (w : World) :
  orders_sheet (_handle_approved_payment env vet_id order_id payment_id w) = orders_sheet w.
Proof. unfold_operations. split_cases; reflexivity. Qed.

Lemma parse_order_row_with_payment_status (payment_id : string) (mp : MPPaymentStatus.t)
    (s : OrderStatus.t) (now : Z) (row : Order.t) :
  _parse_order_row (Order.with_payment_status payment_id mp s now row)
  = Order.with_payment_status payment_id mp s now (_parse_order_row row).
Proof.
  unfold _parse_order_row.
  cbn [Order.with_payment_status Order.subtotal Order.total_amount].
  now destruct (_ && _).
Qed.

(** X11: when the merchant has a usable token, the processor returns
    the payment, its external reference is DTV|vet_id|order_id for the
    merchant of the route, and the order exists, the notification is
    answered processed and the order takes the status mapped from the
    processor status, together with the payment id and the processor
    status, whatever its status was before (a cancelled or delivered
    order is overwritten as well); its payment method, preference, stored
    reference and immutable cells stay as they were. *)
Theorem payment_notification_overwrites_status (env : Env) (w : World)
    (vet_id order_id payment_id : string) (payment_data : PaymentData.t)
    (order : Order.t) :
  let token_result := fst (ensure_valid_mp_token env vet_id w) in
  Py.status token_result = "success" ->
  get_payment env (str_field "access_token" token_result) payment_id
  = FetchOk payment_data ->
  PaymentData.external_reference payment_data
  = ("DTV|" ++ vet_id ++ "|" ++ order_id)%string ->
  bar_free vet_id ->
  bar_free order_id ->
  get_order_by_id order_id w = Some order ->
  let mp_status := PaymentData.status payment_data in
  let result := fst (_process_payment_with_vet env vet_id payment_id w) in
  let w' := snd (_process_payment_with_vet env vet_id payment_id w) in
  Py.status result = "processed" /\
  get_order_by_id order_id w'
  = Some (Order.with_payment_status payment_id (_map_mp_status mp_status)
            (_map_mp_status_to_order_status mp_status) (utcnow env) order).
Proof.
  cbv zeta. intros Hok Hfetch Href Hvet Hid Hget.
  unfold _process_payment_with_vet.
  pose proof (ensure_valid_mp_token_orders env vet_id w) as Horders.
  destruct (ensure_valid_mp_token env vet_id w) as [token_result w1].
  cbn [fst snd] in *.
  rewrite Hok. replace (negb ("success" =? "success")%string) with false by reflexivity.
  rewrite Hfetch, Href.
  replace (Py.truthy ("DTV|" ++ vet_id ++ "|" ++ order_id)) with true by reflexivity.
  replace (Py.startswith "DTV|" ("DTV|" ++ vet_id ++ "|" ++ order_id)) with true
    by (unfold Py.startswith; simpl; now destruct (vet_id ++ "|" ++ order_id)%string).
  cbn [negb orb].
  rewrite (split_generated_reference _ _ Hvet Hid), String.eqb_refl. cbn [negb].
  destruct (get_order_by_id_row _ _ _ Hget) as (row & Hfind & ->).
  rewrite <- Horders in Hfind.
  destruct (update_first_row_by_id order_id
              (Order.with_payment_status payment_id
                 (_map_mp_status (PaymentData.status payment_data))
                 (_map_mp_status_to_order_status (PaymentData.status payment_data))
                 (utcnow env))
              (orders_sheet w1) row (fun _ => eq_refl) Hfind)
    as (rows' & Hupd & Hfind').
  unfold update_order_payment_status. cbn [orders_sheet sent_request].
  rewrite Hupd. cbn [fst snd]. split; [reflexivity |].
  unfold get_order_by_id.
  destruct (PaymentData.status payment_data =? "approved")%string;
    rewrite ?handle_approved_payment_orders;
    unfold log_event; cbn [orders_sheet set_events set_orders];
    rewrite Hfind'; now rewrite parse_order_row_with_payment_status.
Qed.

Lemma payment_notification_overwrites_status_witness :
  Order.status <$>
    get_order_by_id "ORD-0000002A"
      (snd (_process_payment_with_vet (payment_reported "rejected" demo_env) "VET001" "777"
              (snd (handle demo_env (Fulfillment "ORD-0000002A" OrderStatus.DELIVERED)
                      demo_world_linked))))
  = Some OrderStatus.PAYMENT_REJECTED.
Proof.
  destruct (get_order_by_id "ORD-0000002A"
              (snd (handle demo_env (Fulfillment "ORD-0000002A" OrderStatus.DELIVERED)
                      demo_world_linked))) as [order |] eqn:Hget;
    [| vm_compute in Hget; discriminate].
  destruct (payment_notification_overwrites_status (payment_reported "rejected" demo_env)
              (snd (handle demo_env (Fulfillment "ORD-0000002A" OrderStatus.DELIVERED)
                      demo_world_linked))
              "VET001" "ORD-0000002A" "777"
              {| PaymentData.external_reference := "DTV|VET001|ORD-0000002A";
                 PaymentData.status := "rejected";
                 PaymentData.status_detail := EmptyString |} order)
    as [_ Hafter].
  - vm_compute; reflexivity.
  - vm_compute; reflexivity.
  - reflexivity.
  - reflexivity.
  - reflexivity.
  - exact Hget.
  - rewrite Hafter. reflexivity.
Defined.

(** X12: processing a payment notification either sends nothing or
    sends exactly three notifications, in this order: the payment
    confirmation to the merchant, the status message to the customer and
    the e-mail to operations, all for the same order; and it sends
    nothing unless the processor reports the payment as approved. *)
Theorem payment_notifications_only_when_approved (env : Env) (vet_id payment_id : string)
    (w : World) :
  let w' := snd (_process_payment_with_vet env vet_id payment_id w) in
  (outbox w' = outbox w \/
   exists vet_phone customer_phone order_id : string,
     outbox w' = outbox w ++
       [ PaymentConfirmationToVet vet_phone order_id;
         OrderStatusToCustomer customer_phone order_id;
         PaymentApprovedEmail order_id payment_id ]) /\
  ((forall (access_token : string) (payment_data : PaymentData.t),
      get_payment env access_token payment_id = FetchOk payment_data ->
      PaymentData.status payment_data <> "approved") ->
   outbox w' = outbox w).
Proof.
  cbv zeta. split; [| intros Hnot]; unfold_operations; split_cases; expose_stores.
  all: try (left; reflexivity).
  all: try reflexivity.
  all: try (right; eexists _, _, _; rewrite <- !app_assoc; reflexivity).
  all: match goal with
       | Hp : get_payment _ _ _ = FetchOk ?pd,
         He : (PaymentData.status ?pd =? "approved")%string = true |- _ =>
           apply String.eqb_eq in He; now destruct (Hnot _ _ Hp)
       end.
Qed.

Lemma payment_notifications_only_when_approved_witness :
  outbox (snd (_process_payment_with_vet (payment_reported "pending" demo_env) "VET001" "777"
                 demo_world_linked))
  = outbox demo_world_linked.
Proof.
  apply (proj2 (payment_notifications_only_when_approved
                  (payment_reported "pending" demo_env) "VET001" "777" demo_world_linked)).
  intros access_token payment_data [= <-]. discriminate.
Defined.

(** X13: the generic webhook route reconciles nothing.  Whatever the
    body, it never answers processed and it leaves the orders, the
    events, the carts, the vault, the requests sent to the processor and
    the outbox exactly as they were; only the set of processed
    notifications can change. *)
Theorem generic_webhook_reconciles_nothing (body : option MPWebhookPayload.t) (w : World) :
  let result := fst (mercadopago_webhook body w) in
  let w' := snd (mercadopago_webhook body w) in
  w' = set_processed (_processed_notifications w') w /\
  In (Py.status result) ["error"; "ignored"; "duplicate"; "received"].
Proof.
  cbv zeta. unfold_operations. split_cases; expose_stores.
  all: split; [now destruct w | simpl; tauto].
Qed.

(** X14: the merchant-scoped route never forgets a notification: as
    long as no notification arrives on the generic route, a key that is
    in the set of processed notifications stays there through any
    number of calls, so the set only grows. *)
Theorem processed_keys_survive (calls : list (Env * Call)) (w : World) (key : string) :
  Forall not_generic_route calls ->
  set_mem key (_processed_notifications w) = true ->
  set_mem key (_processed_notifications (run calls w)) = true.
Proof.
  apply run_keeps_key_off_generic_route.
Qed.

Lemma processed_keys_survive_witness :
  set_mem "VET001:payment.updated:777"
    (_processed_notifications
       (run [ (demo_env, CancelOrder "ORD-0000002A" false);
              (demo_env, WebhookV2 "VET001" (Some demo_other_notification)) ]
          (snd (mercadopago_webhook_v2 demo_env "VET001" (Some demo_notification)
                  demo_world_linked)))) = true.
Proof.
  apply (processed_keys_survive
           [ (demo_env, CancelOrder "ORD-0000002A" false);
             (demo_env, WebhookV2 "VET001" (Some demo_other_notification)) ]).
  - repeat constructor.
  - vm_compute; reflexivity.
Defined.

(** ** The vault as a map *)

Lemma secret_manager_save (self : SecretManagerTokenStore.t) (token : StoredToken.t) :
  exists versions : list StoredToken.t,
    SecretManagerTokenStore.save_token self token
    = (true,
       {| SecretManagerTokenStore.secrets :=
            <[SecretManagerTokenStore._secret_id (StoredToken.vet_id token)
              := versions ++ [token]]> (SecretManagerTokenStore.secrets self) |}).
Proof.
  destruct self as [secrets].
  unfold SecretManagerTokenStore.save_token, SecretManagerServiceClient.create_secret,
    SecretManagerServiceClient.add_secret_version; cbn [SecretManagerTokenStore.secrets].
  destruct (secrets !! SecretManagerTokenStore._secret_id (StoredToken.vet_id token))
    as [versions |] eqn:Hs.
  - rewrite Hs. now exists versions.
  - rewrite lookup_insert_eq. exists []. now rewrite insert_insert_eq.
Qed.

Lemma token_store_save_ok (store : token_store) (token : StoredToken.t) :
  fst (save_token store token) = true.
Proof.
  destruct store as [[data] | self];
    cbn [save_token token_store_TokenStore token_store_save
           LocalTokenStore_TokenStore SecretManagerTokenStore_TokenStore].
  - reflexivity.
  - now destruct (secret_manager_save self token) as (versions & ->).
Qed.

Lemma token_store_save_other (store : token_store) (token : StoredToken.t)
    (other : string) :
  other <> StoredToken.vet_id token ->
  get_token (snd (save_token store token)) other = get_token store other.
Proof.
  intros Hne.
  destruct store as [[data] | self];
    cbn [get_token save_token token_store_TokenStore token_store_save token_store_get
           LocalTokenStore_TokenStore SecretManagerTokenStore_TokenStore].
  - unfold LocalTokenStore.save_token.
    cbn [fst snd token_store_get get_token LocalTokenStore_TokenStore].
    unfold LocalTokenStore.get_token; cbn [LocalTokenStore.data].
    now rewrite lookup_insert_ne by congruence.
  - destruct (secret_manager_save self token) as (versions & ->).
    cbn [fst snd token_store_get get_token SecretManagerTokenStore_TokenStore].
    unfold SecretManagerTokenStore.get_token,
      SecretManagerServiceClient.access_secret_version;
      cbn [SecretManagerTokenStore.secrets].
    rewrite lookup_insert_ne; [reflexivity |].
    intros Heq. apply secret_id_injective in Heq. congruence.
Qed.

(** X15: both token stores behave as a map from merchants to tokens
    under save: saving succeeds, the saved token is what a read of its
    merchant returns, and the token of every other merchant is what it
    was. *)
Theorem token_store_save_then_get (store : token_store) (token : StoredToken.t)
    (vet_id : string) :
  fst (save_token store token) = true /\
  get_token (snd (save_token store token)) vet_id
  = if decide (vet_id = StoredToken.vet_id token) then Some token
    else get_token store vet_id.
Proof.
  split; [apply token_store_save_ok |].
  destruct (decide (vet_id = StoredToken.vet_id token)) as [-> | Hne].
  - apply token_store_get_saved.
  - now apply token_store_save_other.
Qed.

(** X16: both token stores behave as a map under delete as well:
    afterwards a read of the merchant returns nothing, and the token of
    every other merchant is what it was.  (The two stores differ only in
    the boolean they answer when there was nothing to delete.) *)
Theorem token_store_delete_then_get (store : token_store) (vet_id other : string) :
  get_token (snd (delete_token store vet_id)) other
  = if decide (other = vet_id) then None else get_token store other.
Proof.
  destruct store as [[data] | [secrets]];
    cbn [get_token delete_token token_store_TokenStore token_store_delete token_store_get
           LocalTokenStore_TokenStore SecretManagerTokenStore_TokenStore].
  - unfold LocalTokenStore.delete_token; cbn [LocalTokenStore.data].
    destruct (data !! vet_id) eqn:Hd;
      cbn [snd token_store_get get_token LocalTokenStore_TokenStore];
      unfold LocalTokenStore.get_token; cbn [LocalTokenStore.data];
      destruct (decide (other = vet_id)) as [-> | Hne];
      rewrite ?lookup_delete_eq, ?lookup_delete_ne by congruence; auto.
  - unfold SecretManagerTokenStore.delete_token, SecretManagerTokenStore.get_token,
      SecretManagerServiceClient.delete_secret,
      SecretManagerServiceClient.access_secret_version;
      cbn [SecretManagerTokenStore.secrets].
    destruct (secrets !! SecretManagerTokenStore._secret_id vet_id) eqn:Hs;
      cbn [snd token_store_get get_token SecretManagerTokenStore_TokenStore];
      unfold SecretManagerTokenStore.get_token,
        SecretManagerServiceClient.access_secret_version;
      cbn [SecretManagerTokenStore.secrets];
      destruct (decide (other = vet_id)) as [-> | Hne];
      rewrite ?lookup_delete_eq, ?Hs; auto.
    rewrite lookup_delete_ne; [reflexivity |].
    intros Heq. apply secret_id_injective in Heq. congruence.
Qed.

(** ** Token refresh *)

Lemma expiry_from_now_Some (env : Env) (expires_in expires_at : Z) :
  expiry_from_now env expires_in = Some expires_at ->
  expires_at = (utcnow env + microseconds expires_in)%Z.
Proof.
  unfold expiry_from_now, timedelta_seconds, datetime_add.
  destruct (_ && _); [| discriminate].
  destruct (_ && _); [| discriminate].
  now intros [= <-].
Qed.

(** The four outcomes of [ensure_valid_mp_token] for a connected
    merchant. *)
Lemma ensure_valid_mp_token_connected_cases (env : Env) (vet_id : string) (w : World)
    (tokens : StoredToken.t) :
  get_mp_tokens vet_id w = Some tokens ->
  (is_expired env tokens = false /\
   ensure_valid_mp_token env vet_id w
   = ([("status", Py.Str "success");
       ("access_token", Py.Str (StoredToken.access_token tokens))], w)) \/
  (is_expired env tokens = true /\
   post_oauth_refresh env (StoredToken.refresh_token tokens) = None /\
   ensure_valid_mp_token env vet_id w
   = ([("status", Py.Str "refresh_failed")],
      sent_request (RefreshTokenRequest (StoredToken.refresh_token tokens)) w)) \/
  (exists (response : TokenResponse.t) (updated : StoredToken.t),
     is_expired env tokens = true /\
     post_oauth_refresh env (StoredToken.refresh_token tokens) = Some response /\
     StoredToken.vet_id updated = vet_id /\
     StoredToken.access_token updated = TokenResponse.access_token response /\
     expiry_from_now env (TokenResponse.expires_in response)
     = Some (StoredToken.expires_at updated) /\
     ensure_valid_mp_token env vet_id w
     = ([("status", Py.Str "success");
         ("access_token", Py.Str (TokenResponse.access_token response))],
        set_token_store (snd (save_token (_token_store w) updated))
          (sent_request (RefreshTokenRequest (StoredToken.refresh_token tokens)) w))) \/
  (exists response : TokenResponse.t,
     is_expired env tokens = true /\
     post_oauth_refresh env (StoredToken.refresh_token tokens) = Some response /\
     expiry_from_now env (TokenResponse.expires_in response) = None /\
     ensure_valid_mp_token env vet_id w
     = ([("status", Py.Str "error")],
        sent_request (RefreshTokenRequest (StoredToken.refresh_token tokens)) w)).
Proof.
  intros Hget. unfold ensure_valid_mp_token, is_expired. rewrite Hget.
  rewrite Z.gtb_ltb, Z.geb_leb.
  destruct (Z.ltb_spec (utcnow env) (StoredToken.expires_at tokens - margin)) as [Hlt | Hge].
  - left. split; [now apply Z.leb_gt | reflexivity].
  - right. apply Z.leb_le in Hge. unfold _refresh_mp_token.
    destruct (post_oauth_refresh env (StoredToken.refresh_token tokens)) as [response |].
    + right.
      destruct (expiry_from_now env (TokenResponse.expires_in response))
        as [expires_at |] eqn:Hexpiry.
      * left. unfold save_mp_tokens. cbn [_token_store sent_request].
        match goal with
        | |- context [save_token ?s ?t] =>
            exists response, t; destruct (save_token s t) as [ok store'] eqn:Hsave
        end.
        repeat (split; [first [exact Hge | exact Hexpiry | reflexivity] |]). reflexivity.
      * right. exists response. now repeat split.
    + left. now repeat split.
Qed.

(** X17: ensure_valid_mp_token touches the token of the merchant it is
    called for and nothing else: the token of every other merchant, the
    orders, the events, the carts, the outbox and the set of processed
    notifications are as they were; unless it answers success the vault
    itself is unchanged (a failed refresh drops no token); and it
    answers not_connected exactly when the vault holds no token for the
    merchant. *)
Theorem ensure_valid_mp_token_isolated (env : Env) (vet_id : string) (w : World) :
  let result := fst (ensure_valid_mp_token env vet_id w) in
  let w' := snd (ensure_valid_mp_token env vet_id w) in
  (forall other : string, other <> vet_id -> get_mp_tokens other w' = get_mp_tokens other w) /\
  (Py.status result <> "success" -> _token_store w' = _token_store w) /\
  (Py.status result = "not_connected" <-> get_mp_tokens vet_id w = None) /\
  orders_sheet w' = orders_sheet w /\
  events_sheet w' = events_sheet w /\
  _carts w' = _carts w /\
  outbox w' = outbox w /\
  _processed_notifications w' = _processed_notifications w.
Proof.
  cbv zeta.
  destruct (get_mp_tokens vet_id w) as [tokens |] eqn:Hget.
  - destruct (ensure_valid_mp_token_connected_cases env vet_id w tokens Hget)
      as [[_ ->] | [(_ & _ & ->) | [(response & updated & _ & _ & Hvet & _ & _ & ->)
                                   | (response & _ & _ & _ & ->)]]];
      cbn [fst snd]; expose_stores.
    + repeat split; try reflexivity; intros H; vm_compute in H; discriminate.
    + repeat split; try reflexivity; intros H; vm_compute in H; discriminate.
    + repeat split; try reflexivity; try (intros H; vm_compute in H; discriminate).
      * intros other Hne. unfold get_mp_tokens; cbn [_token_store].
        apply token_store_save_other. congruence.
      * intros H. exfalso. apply H. reflexivity.
    + repeat split; try reflexivity; intros H; vm_compute in H; discriminate.
  - unfold ensure_valid_mp_token. rewrite Hget. cbn [fst snd].
    repeat split; reflexivity.
Qed.

Lemma ensure_valid_mp_token_isolated_witness :
  _token_store (snd (ensure_valid_mp_token (refresh_down demo_env_near_expiry) "VET001"
                       demo_world_connected))
  = _token_store demo_world_connected.
Proof.
  apply (proj1 (proj2 (ensure_valid_mp_token_isolated (refresh_down demo_env_near_expiry)
                         "VET001" demo_world_connected))).
  vm_compute; discriminate.
Defined.

(** X18: whenever ensure_valid_mp_token answers success, the access
    token it returns is the one the vault now holds for the merchant,
    whether it was read or has just been refreshed. *)
Theorem ensure_valid_returns_vault_token (env : Env) (vet_id : string) (w : World) :
  let result := fst (ensure_valid_mp_token env vet_id w) in
  let w' := snd (ensure_valid_mp_token env vet_id w) in
  Py.status result = "success" ->
  exists tokens : StoredToken.t,
    get_mp_tokens vet_id w' = Some tokens /\
    Py.get "access_token" result = Some (Py.Str (StoredToken.access_token tokens)).
Proof.
  cbv zeta. intros Hok.
  destruct (ensure_valid_mp_token_connected env vet_id w Hok) as [tokens Hget].
  destruct (ensure_valid_mp_token_connected_cases env vet_id w tokens Hget)
    as [[_ Heq] | [(_ & _ & Heq) | [(response & updated & _ & _ & Hvet & Hacc & _ & Heq)
                                   | (response & _ & _ & _ & Heq)]]];
    rewrite Heq in *; cbn [fst snd] in *.
  - exists tokens. split; [exact Hget | reflexivity].
  - vm_compute in Hok. discriminate.
  - exists updated. split; [| now rewrite Hacc].
    unfold get_mp_tokens; cbn [_token_store set_token_store].
    rewrite <- Hvet. apply token_store_get_saved.
  - vm_compute in Hok. discriminate.
Qed.

Lemma ensure_valid_returns_vault_token_witness :
  exists tokens : StoredToken.t,
    get_mp_tokens "VET001"
      (snd (ensure_valid_mp_token demo_env_near_expiry "VET001" demo_world_connected))
    = Some tokens /\
    Py.get "access_token"
      (fst (ensure_valid_mp_token demo_env_near_expiry "VET001" demo_world_connected))
    = Some (Py.Str (StoredToken.access_token tokens)).
Proof.
  apply (ensure_valid_returns_vault_token demo_env_near_expiry "VET001"
           demo_world_connected).
  vm_compute; reflexivity.
Defined.

(** X19: when every refresh answer grants more than 300 seconds, a
    successful ensure_valid_mp_token is followed, at the same clock
    reading, by one that returns the same access token and changes
    nothing: the second call sends no request to the processor. *)
Theorem ensure_valid_mp_token_twice (env : Env) (vet_id : string) (w : World) :
  (forall (refresh_token : string) (response : TokenResponse.t),
     post_oauth_refresh env refresh_token = Some response ->
     (300 < TokenResponse.expires_in response)%Z) ->
  Py.status (fst (ensure_valid_mp_token env vet_id w)) = "success" ->
  let w1 := snd (ensure_valid_mp_token env vet_id w) in
  ensure_valid_mp_token env vet_id w1 = (fst (ensure_valid_mp_token env vet_id w), w1).
Proof.
  intros Hlong Hok. cbv zeta.
  destruct (ensure_valid_mp_token_connected env vet_id w Hok) as [tokens Hget].
  destruct (ensure_valid_mp_token_connected_cases env vet_id w tokens Hget)
    as [[_ Heq] | [(_ & _ & Heq)
                   | [(response & updated & _ & Hpost & Hvet & Hacc & Hexp & Heq)
                     | (response & _ & _ & _ & Heq)]]];
    rewrite Heq in *; cbn [fst snd] in *.
  - exact Heq.
  - vm_compute in Hok. discriminate.
  - apply expiry_from_now_Some in Hexp.
    assert (Hget' : get_mp_tokens vet_id
                      (set_token_store (snd (save_token (_token_store w) updated))
                         (sent_request
                            (RefreshTokenRequest (StoredToken.refresh_token tokens)) w))
                    = Some updated).
    { unfold get_mp_tokens; cbn [_token_store set_token_store].
      rewrite <- Hvet. apply token_store_get_saved. }
    assert (Hfresh : is_expired env updated = false).
    { unfold is_expired. rewrite Z.geb_leb. apply Z.leb_gt. rewrite Hexp.
      specialize (Hlong _ _ Hpost). unfold margin, microseconds. lia. }
    destruct (ensure_valid_mp_token_connected_cases env vet_id _ updated Hget')
      as [[_ Heq'] | [(Hexpired & _) | [(? & ? & Hexpired & _) | (? & Hexpired & _)]]];
      [| congruence | congruence | congruence].
    rewrite Heq', Hacc. reflexivity.
  - vm_compute in Hok. discriminate.
Qed.

Lemma ensure_valid_mp_token_twice_witness :
  ensure_valid_mp_token demo_env_near_expiry "VET001"
    (snd (ensure_valid_mp_token demo_env_near_expiry "VET001" demo_world_connected))
  = (fst (ensure_valid_mp_token demo_env_near_expiry "VET001" demo_world_connected),
     snd (ensure_valid_mp_token demo_env_near_expiry "VET001" demo_world_connected)).
Proof.
  apply (ensure_valid_mp_token_twice demo_env_near_expiry "VET001" demo_world_connected).
  - intros refresh_token response [= <-]. reflexivity.
  - vm_compute; reflexivity.
Defined.



(** ** The OAuth redirect *)

Lemma hd_split_app_bar (a b : string) :
  hd EmptyString (Py.split "|" (a ++ String "|" b)) = hd EmptyString (Py.split "|" a).
Proof.
  induction a as [| c r IH].
  - reflexivity.
  - change (String c r ++ String "|" b)%string with (String c (r ++ String "|" b)).
    cbn [Py.split].
    destruct (Ascii.eqb c "|"); [reflexivity |].
    destruct (Py.split "|" (r ++ String "|" b)) as [| h t],
             (Py.split "|" r) as [| h' t']; cbn [hd] in *; congruence.
Qed.

(** X21: the state that start_mp_oauth puts in the authorization URL
    brings the merchant back: when the processor returns that state with
    a code, the OAuth callback completes the connection for the first
    bar-separated part of the merchant id, which is the merchant id
    itself whenever it contains no bar; the timestamp in the state is
    never read. *)
Theorem oauth_state_round_trip (settings : Settings.t) (time : N) (vet_id : string)
    (env : Env) (code : string) (w : World) :
  Settings.has_mp settings = true ->
  code <> EmptyString ->
  exists state : string,
    start_mp_oauth settings time vet_id
    = [("status", Py.Str "success");
       ("redirect_url", Py.Str (Settings.get_mp_oauth_url settings state))] /\
    mp_oauth_callback env (Some code) (Some state) None w
    = complete_mp_oauth env (hd EmptyString (Py.split "|" vet_id)) code w /\
    (bar_free vet_id -> hd EmptyString (Py.split "|" vet_id) = vet_id).
Proof.
  intros Hmp Hcode.
  exists (vet_id ++ "|" ++ str_of_N time)%string. split; [| split].
  - unfold start_mp_oauth. now rewrite Hmp.
  - unfold mp_oauth_callback. cbn [Py.truthy_opt].
    replace (Py.truthy code) with true
      by (symmetry; now apply negb_true_iff, String.eqb_neq).
    replace (Py.truthy (vet_id ++ "|" ++ str_of_N time)) with true.
    2: { unfold Py.truthy. symmetry. apply negb_true_iff, String.eqb_neq.
         now destruct vet_id. }
    cbn [negb orb].
    change (vet_id ++ "|" ++ str_of_N time)%string
      with (vet_id ++ String "|" (str_of_N time))%string.
    now rewrite hd_split_app_bar.
  - intros Hfree. now rewrite split_bar_free.
Qed.

Lemma oauth_state_round_trip_witness :
  exists state : string,
    start_mp_oauth demo_settings 1700000000 "VET001"
    = [("status", Py.Str "success");
       ("redirect_url", Py.Str (Settings.get_mp_oauth_url demo_settings state))] /\
    mp_oauth_callback demo_env (Some "TG-code") (Some state) None demo_world_ordered
    = complete_mp_oauth demo_env (hd EmptyString (Py.split "|" "VET001")) "TG-code"
        demo_world_ordered /\
    (bar_free "VET001" -> hd EmptyString (Py.split "|" "VET001") = "VET001").
Proof.
  apply (oauth_state_round_trip demo_settings 1700000000 "VET001" demo_env "TG-code"
           demo_world_ordered).
  - reflexivity.
  - discriminate.
Defined.

(** ** Shipping zones and phone numbers *)

Lemma lower_upper_char (c : ascii) : Py.lower_char (Py.upper_char c) = Py.lower_char c.
Proof.
  destruct c as [[] [] [] [] [] [] [] []]; reflexivity.
Qed.

Lemma is_space_upper_char (c : ascii) : Py.is_space (Py.upper_char c) = Py.is_space c.
Proof.
  destruct c as [[] [] [] [] [] [] [] []]; reflexivity.
Qed.

Lemma is_space_lower_char (c : ascii) : Py.is_space (Py.lower_char c) = Py.is_space c.
Proof.
  destruct c as [[] [] [] [] [] [] [] []]; reflexivity.
Qed.

Section StripMap.
Variable f : ascii -> ascii.
Hypothesis keeps_space : forall c, Py.is_space (f c) = Py.is_space c.

Lemma lstrip_map_chars (s : string) :
  Py.lstrip (Py.map_chars f s) = Py.map_chars f (Py.lstrip s).
Proof.
  induction s as [| c r IH]; cbn [Py.map_chars Py.lstrip]; [reflexivity |].
  rewrite keeps_space. now destruct (Py.is_space c).
Qed.

Lemma rstrip_map_chars (s : string) :
  Py.rstrip (Py.map_chars f s) = Py.map_chars f (Py.rstrip s).
Proof.
  induction s as [| c r IH]; cbn [Py.map_chars Py.rstrip]; [reflexivity |].
  rewrite IH, keeps_space.
  destruct (Py.rstrip r); cbn [Py.map_chars]; [now destruct (Py.is_space c) | reflexivity].
Qed.

Lemma strip_map_chars (s : string) :
  Py.strip (Py.map_chars f s) = Py.map_chars f (Py.strip s).
Proof. unfold Py.strip. now rewrite lstrip_map_chars, rstrip_map_chars. Qed.
End StripMap.

Lemma lower_upper (s : string) : Py.lower (Py.upper s) = Py.lower s.
Proof.
  unfold Py.lower, Py.upper.
  induction s as [| c r IH]; cbn [Py.map_chars]; [reflexivity |].
  now rewrite IH, lower_upper_char.
Qed.

Lemma lower_lower_char (c : ascii) : Py.lower_char (Py.lower_char c) = Py.lower_char c.
Proof.
  destruct c as [[] [] [] [] [] [] [] []]; reflexivity.
Qed.

Lemma lower_lower (s : string) : Py.lower (Py.lower s) = Py.lower s.
Proof.
  unfold Py.lower.
  induction s as [| c r IH]; cbn [Py.map_chars]; [reflexivity |].
  now rewrite IH, lower_lower_char.
Qed.

(** X22: the shipping table is consulted up to letter case: a zone
    written in upper case or in lower case (ASCII letters) is priced
    exactly as the zone itself. *)
Theorem get_shipping_cost_ignores_case (zone : string) (w : World) :
  get_shipping_cost (Py.upper zone) w = get_shipping_cost zone w /\
  get_shipping_cost (Py.lower zone) w = get_shipping_cost zone w.
Proof.
  unfold get_shipping_cost. split.
  - unfold Py.upper at 1.
    rewrite (strip_map_chars Py.upper_char is_space_upper_char).
    fold (Py.upper (Py.strip zone)). now rewrite lower_upper.
  - unfold Py.lower at 2.
    rewrite (strip_map_chars Py.lower_char is_space_lower_char).
    fold (Py.lower (Py.strip zone)). now rewrite lower_lower.
Qed.

Lemma rstrip_cons_not_space (c : ascii) (s : string) :
  Py.is_space c = false -> Py.rstrip (String c s) = String c (Py.rstrip s).
Proof.
  intros Hc. cbn [Py.rstrip]. rewrite Hc. now destruct (Py.rstrip s).
Qed.

Lemma strip_cons_not_space (c : ascii) (s : string) :
  Py.is_space c = false -> Py.strip (String c s) = String c (Py.rstrip s).
Proof.
  intros Hc. unfold Py.strip. cbn [Py.lstrip]. rewrite Hc.
  now apply rstrip_cons_not_space.
Qed.

Lemma substring_all (s : string) : String.substring 0 (String.length s) s = s.
Proof. induction s as [| c r IH]; cbn; [reflexivity | now rewrite IH]. Qed.

Lemma tail_of_cons (c : ascii) (s : string) :
  String.substring 1 (String.length (String c s) - 1) (String c s) = s.
Proof.
  cbn [String.length String.substring].
  replace (S (String.length s) - 1)%nat with (String.length s) by lia.
  apply substring_all.
Qed.

Lemma startswith_equals (c : ascii) (s : string) :
  Py.startswith "=" (String c s) = Ascii.eqb c "=".
Proof.
  unfold Py.startswith. cbn [String.prefix].
  destruct (ascii_dec "=" c) as [<- | Hne].
  - now destruct s.
  - symmetry. apply Ascii.eqb_neq. congruence.
Qed.

Lemma has_char_remove_char (c : ascii) (s : string) : has_char c (remove_char c s) = false.
Proof.
  induction s as [| a r IH]; cbn [remove_char has_char]; [reflexivity |].
  destruct (Ascii.eqb a c) eqn:Ha; [exact IH |].
  cbn [has_char]. now rewrite Ha, IH.
Qed.

Lemma has_char_remove_other (c d : ascii) (s : string) :
  has_char c s = false -> has_char c (remove_char d s) = false.
Proof.
  induction s as [| a r IH]; cbn [remove_char has_char]; [reflexivity |].
  intros H. apply orb_false_iff in H as [Ha Hr].
  destruct (Ascii.eqb a d); [now apply IH |].
  cbn [has_char]. now rewrite Ha, IH.
Qed.

Lemma is_digit_plain (c : ascii) :
  is_digit c = true ->
  Py.is_space c = false /\ Ascii.eqb c " " = false /\ Ascii.eqb c "-" = false /\
  Ascii.eqb c "=" = false.
Proof.
  destruct c as [[] [] [] [] [] [] [] []]; cbn; intros H; try discriminate; now repeat split.
Qed.

(** X23: normalize_phone gives one spelling to a number however the
    sheet stored it: a leading equals sign (the plus sign that the
    spreadsheet took for a formula) is read as the plus sign, a number
    that starts with a digit gets the plus sign it lacks, and the result
    never contains a space or a hyphen. *)
Theorem normalize_phone_spellings :
  (forall s : string, normalize_phone ("=" ++ s) = normalize_phone ("+" ++ s)) /\
  (forall (c : ascii) (r : string),
     is_digit c = true ->
     normalize_phone (String c r) = normalize_phone ("+" ++ String c r)) /\
  (forall s : string,
     has_char " " (normalize_phone s) = false /\
     has_char "-" (normalize_phone s) = false).
Proof.
  split; [| split].
  - intros s. unfold normalize_phone.
    change ("=" ++ s)%string with (String "=" s).
    change ("+" ++ s)%string with (String "+" s).
    cbn [Py.truthy String.eqb negb].
    rewrite !strip_cons_not_space by reflexivity.
    rewrite !startswith_equals, tail_of_cons. reflexivity.
  - intros c r Hc.
    destruct (is_digit_plain c Hc) as (Hspace & Hblank & Hhyphen & Hequals).
    unfold normalize_phone.
    change ("+" ++ String c r)%string with (String "+" (String c r)).
    cbn [Py.truthy String.eqb negb].
    rewrite (strip_cons_not_space c r Hspace).
    rewrite (strip_cons_not_space "+" (String c r)) by reflexivity.
    rewrite (rstrip_cons_not_space c r Hspace).
    rewrite !startswith_equals, Hequals.
    replace (Ascii.eqb "+" "=") with false by reflexivity.
    cbn [remove_char].
    replace (Ascii.eqb "+" " ") with false by reflexivity.
    rewrite Hblank. cbn [remove_char].
    replace (Ascii.eqb "+" "-") with false by reflexivity.
    rewrite Hhyphen, Hc.
    replace (is_digit "+") with false by reflexivity. reflexivity.
  - intros s. unfold normalize_phone.
    destruct (negb (Py.truthy s)); [now split |].
    match goal with
    | |- context [remove_char "-" (remove_char " " ?p)] => generalize p
    end.
    intros p.
    assert (Hblank : has_char " " (remove_char "-" (remove_char " " p)) = false)
      by apply has_char_remove_other, has_char_remove_char.
    assert (Hhyphen : has_char "-" (remove_char "-" (remove_char " " p)) = false)
      by apply has_char_remove_char.
    destruct (remove_char "-" (remove_char " " p)) as [| first rest];
      [now split |].
    destruct (is_digit first); [| now split].
    change ("+" ++ String first rest)%string with (String "+" (String first rest)).
    cbn [has_char] in *. now rewrite Hblank, Hhyphen.
Qed.

Lemma normalize_phone_spellings_witness :
  normalize_phone "54 911-5555" = normalize_phone "+54 911-5555" /\
  normalize_phone "=54 911-5555" = normalize_phone "+54 911-5555".
Proof.
  split.
  - apply (proj1 (proj2 normalize_phone_spellings) "5"%char "4 911-5555"). reflexivity.
  - apply (proj1 normalize_phone_spellings "54 911-5555").
Defined.

(** ** The cart tools *)

Lemma find_item_Some (product_sku : string) (items : list CartItem.t) (idx : nat)
    (item : CartItem.t) :
  find_item product_sku items = Some (idx, item) ->
  items !! idx = Some item /\ CartItem.product_sku item = product_sku.
Proof.
  unfold find_item. intros H. apply list_find_Some in H as (Hidx & Hsku & _).
  split; [exact Hidx | now apply String.eqb_eq].
Qed.

Lemma find_item_None (product_sku : string) (items : list CartItem.t) :
  find_item product_sku items = None ->
  ~ In product_sku (map CartItem.product_sku items).
Proof.
  unfold find_item. intros H Hin. apply list_find_None in H.
  apply in_map_iff in Hin as (item & Hsku & Hin).
  rewrite Forall_forall in H. apply (H item); [now apply list_elem_of_In |].
  unfold has_sku. rewrite Hsku. apply String.eqb_refl.
Qed.

Lemma find_item_cons (product_sku : string) (item : CartItem.t) (items : list CartItem.t) :
  find_item product_sku (item :: items)
  = if has_sku product_sku item then Some (0%nat, item)
    else prod_map S id <$> find_item product_sku items.
Proof.
  unfold find_item. cbn [list_find].
  destruct (has_sku product_sku item) eqn:Hs; now case_decide.
Qed.

Lemma find_item_insert_same (product_sku : string) (items : list CartItem.t) (idx : nat)
    (item updated : CartItem.t) :
  find_item product_sku items = Some (idx, item) ->
  CartItem.product_sku updated = product_sku ->
  find_item product_sku (<[idx := updated]> items) = Some (idx, updated).
Proof.
  revert idx. induction items as [| first rest IH]; intros idx; [discriminate |].
  rewrite find_item_cons. destruct (has_sku product_sku first) eqn:Hfirst.
  - intros [= <- <-] Hsku.
    change (<[0%nat := updated]> (first :: rest)) with (updated :: rest).
    rewrite find_item_cons. unfold has_sku. now rewrite Hsku, String.eqb_refl.
  - destruct (find_item product_sku rest) as [[i x] |] eqn:Hrest; [| discriminate].
    intros [= <- <-] Hsku.
    change (<[S i := updated]> (first :: rest)) with (first :: <[i := updated]> rest).
    rewrite find_item_cons, Hfirst. now rewrite (IH i eq_refl Hsku).
Qed.

Lemma find_item_insert_other (other : string) (items : list CartItem.t) (idx : nat)
    (item updated : CartItem.t) :
  items !! idx = Some item ->
  CartItem.product_sku updated = CartItem.product_sku item ->
  CartItem.product_sku item <> other ->
  find_item other (<[idx := updated]> items) = find_item other items.
Proof.
  intros Hidx Hsame Hne. revert idx Hidx.
  induction items as [| first rest IH]; intros idx Hidx; [discriminate |].
  destruct idx as [| idx]; cbn in Hidx.
  - injection Hidx as ->.
    change (<[0%nat := updated]> (item :: rest)) with (updated :: rest).
    rewrite !find_item_cons. unfold has_sku. rewrite Hsame.
    now destruct (String.eqb_spec (CartItem.product_sku item) other).
  - change (<[S idx := updated]> (first :: rest)) with (first :: <[idx := updated]> rest).
    rewrite !find_item_cons. now rewrite (IH idx Hidx).
Qed.

Lemma find_item_snoc (product_sku : string) (items : list CartItem.t) (new : CartItem.t) :
  find_item product_sku items = None ->
  find_item product_sku (items ++ [new])
  = if has_sku product_sku new then Some (List.length items, new) else None.
Proof.
  induction items as [| first rest IH]; cbn [app].
  - intros _. rewrite find_item_cons. now destruct (has_sku product_sku new).
  - rewrite !find_item_cons. destruct (has_sku product_sku first); [discriminate |].
    destruct (find_item product_sku rest) as [[i x] |]; [discriminate |].
    intros _. rewrite (IH eq_refl). now destruct (has_sku product_sku new).
Qed.

Lemma find_item_snoc_other (other : string) (items : list CartItem.t) (new : CartItem.t) :
  CartItem.product_sku new <> other ->
  find_item other (items ++ [new]) = find_item other items.
Proof.
  intros Hne. induction items as [| first rest IH]; cbn [app].
  - rewrite find_item_cons. unfold has_sku.
    now destruct (String.eqb_spec (CartItem.product_sku new) other).
  - rewrite !find_item_cons. now rewrite IH.
Qed.

Lemma cart_ok_empty : cart_ok CartSummary.empty.
Proof. split; constructor. Qed.

Lemma carts_ok_save (session_id : string) (cart : CartSummary.t) (w : World) :
  carts_ok w -> cart_ok cart -> carts_ok (_save_cart session_id cart w).
Proof.
  intros Hw Hcart other cart'. unfold _save_cart; cbn [_carts set_carts].
  destruct (decide (session_id = other)) as [<- | Hne].
  - rewrite lookup_insert_eq. now intros [= <-].
  - rewrite lookup_insert_ne by exact Hne. apply Hw.
Qed.

Lemma get_cart_ok (session_id : string) (w : World) :
  carts_ok w ->
  cart_ok (fst (_get_cart session_id w)) /\
  carts_ok (snd (_get_cart session_id w)) /\
  _carts (snd (_get_cart session_id w)) !! session_id = Some (fst (_get_cart session_id w)).
Proof.
  intros Hw. unfold _get_cart.
  destruct (_carts w !! session_id) as [cart |] eqn:Hcart; cbn [fst snd].
  - split; [exact (Hw _ _ Hcart) | split; [exact Hw | exact Hcart]].
  - split; [apply cart_ok_empty |]. split.
    + apply (carts_ok_save session_id CartSummary.empty w Hw cart_ok_empty).
    + cbn [_carts set_carts]. apply lookup_insert_eq.
Qed.

Lemma cart_ok_insert (cart : CartSummary.t) (idx : nat) (item updated : CartItem.t) :
  cart_ok cart ->
  CartSummary.items cart !! idx = Some item ->
  CartItem.product_sku updated = CartItem.product_sku item ->
  CartItem.valid updated = true ->
  cart_ok {| CartSummary.items := <[idx := updated]> (CartSummary.items cart);
             CartSummary.currency := CartSummary.currency cart |}.
Proof.
  intros [Hvalid Hnodup] Hidx Hsku Hok. split; cbn [CartSummary.items].
  - now apply Forall_insert.
  - change (map CartItem.product_sku (<[idx := updated]> (CartSummary.items cart)))
      with (CartItem.product_sku <$> <[idx := updated]> (CartSummary.items cart)).
    rewrite list_fmap_insert, list_insert_id; [exact Hnodup |].
    now rewrite list_lookup_fmap, Hidx, Hsku.
Qed.

Lemma cart_ok_snoc (cart : CartSummary.t) (new : CartItem.t) :
  cart_ok cart ->
  find_item (CartItem.product_sku new) (CartSummary.items cart) = None ->
  CartItem.valid new = true ->
  cart_ok {| CartSummary.items := CartSummary.items cart ++ [new];
             CartSummary.currency := CartSummary.currency cart |}.
Proof.
  intros [Hvalid Hnodup] Hnew Hok. split; cbn [CartSummary.items].
  - apply Forall_app. split; [exact Hvalid | now constructor].
  - rewrite map_app. apply NoDup_app. split; [exact Hnodup |]. split.
    + intros sku Hin [<- | []]%list_elem_of_In.
      apply (find_item_None _ _ Hnew). now apply list_elem_of_In.
    + cbn. apply NoDup_singleton.
Qed.

Lemma cart_ok_delete (cart : CartSummary.t) (idx : nat) :
  cart_ok cart ->
  cart_ok {| CartSummary.items := delete idx (CartSummary.items cart);
             CartSummary.currency := CartSummary.currency cart |}.
Proof.
  intros [Hvalid Hnodup]. split; cbn [CartSummary.items].
  - now apply Forall_delete.
  - change (map CartItem.product_sku (delete idx (CartSummary.items cart)))
      with (CartItem.product_sku <$> delete idx (CartSummary.items cart)).
    rewrite list_fmap_delete.
    exact (sublist_NoDup _ _ Hnodup (sublist_delete _ idx)).
Qed.

(** X24: the cart tools keep every cart well formed: each line
    satisfies the constraints of CartItem (a quantity of at least one, a
    price that is not negative) and no two lines of a cart carry the
    same SKU.  This holds after add_to_cart, remove_from_cart,
    update_cart_quantity, view_cart and clear_cart, whatever they
    answer. *)
Theorem cart_tools_keep_carts_ok (catalog_sheet : list Product.t)
    (session_id product_sku : string) (quantity : Z) (w : World) :
  carts_ok w ->
  carts_ok (snd (add_to_cart catalog_sheet session_id product_sku quantity w)) /\
  carts_ok (snd (remove_from_cart session_id product_sku w)) /\
  carts_ok (snd (update_cart_quantity catalog_sheet session_id product_sku quantity w)) /\
  carts_ok (snd (view_cart session_id w)) /\
  carts_ok (clear_cart session_id w).
Proof.
  intros Hw.
  destruct (get_cart_ok session_id w Hw) as (Hcart & Hw1 & _).
  assert (Hremove : carts_ok (snd (remove_from_cart session_id product_sku w))).
  { unfold remove_from_cart.
    destruct (_get_cart session_id w) as [cart w1]; cbn [fst snd] in *.
    destruct (find_item product_sku (CartSummary.items cart)) as [[idx item] |];
      cbn [snd]; [| exact Hw1].
    apply carts_ok_save; [exact Hw1 | now apply cart_ok_delete]. }
  split; [| split; [exact Hremove | split; [| split]]].
  - unfold add_to_cart.
    destruct (quantity <=? 0)%Z; [exact Hw |].
    destruct (get_product_by_sku catalog_sheet product_sku) as [product |]; [| exact Hw].
    destruct (negb (Product.active product)); [exact Hw |].
    destruct (_get_cart session_id w) as [cart w1]; cbn [fst snd] in *.
    destruct (find_item product_sku (CartSummary.items cart)) as [[idx item] |] eqn:Hfind.
    + destruct (_ <? _)%Z; [exact Hw1 |].
      destruct (CartItem.valid _) eqn:Hvalid; cbn [negb snd]; [| exact Hw1].
      destruct (find_item_Some _ _ _ _ Hfind) as [Hidx Hsku].
      apply carts_ok_save; [exact Hw1 |].
      now apply (cart_ok_insert cart idx item).
    + destruct (_ <? _)%Z; [exact Hw1 |].
      destruct (CartItem.valid _) eqn:Hvalid; cbn [negb snd]; [| exact Hw1].
      apply carts_ok_save; [exact Hw1 |].
      now apply cart_ok_snoc.
  - unfold update_cart_quantity.
    destruct (quantity <=? 0)%Z; [exact Hremove |].
    destruct (_get_cart session_id w) as [cart w1]; cbn [fst snd] in *.
    destruct (find_item product_sku (CartSummary.items cart)) as [[idx item] |] eqn:Hfind;
      [| exact Hw1].
    destruct (match get_product_by_sku catalog_sheet product_sku with
              | Some product => _
              | None => false
              end); [exact Hw1 |].
    destruct (CartItem.valid _) eqn:Hvalid; cbn [negb snd]; [| exact Hw1].
    destruct (find_item_Some _ _ _ _ Hfind) as [Hidx Hsku].
    apply carts_ok_save; [exact Hw1 |].
    now apply (cart_ok_insert cart idx item).
  - unfold view_cart.
    destruct (_get_cart session_id w) as [cart w1]; cbn [fst snd] in *.
    now destruct (CartSummary.is_empty cart).
  - unfold clear_cart.
    destruct (_get_cart session_id w) as [cart w1]; cbn [fst snd] in *.
    destruct (CartSummary.is_empty cart); [exact Hw1 |].
    apply (carts_ok_save session_id CartSummary.empty w1 Hw1 cart_ok_empty).
Qed.

Lemma demo_world_carts_ok : carts_ok demo_world.
Proof.
  intros session_id cart Hcart.
  change (_carts demo_world) with ({[ "s1" := demo_cart ]} : gmap string CartSummary.t)
    in Hcart.
  apply lookup_singleton_Some in Hcart as [_ <-].
  split; cbn; [repeat constructor | apply NoDup_singleton].
Qed.

Lemma cart_tools_keep_carts_ok_witness :
  carts_ok (snd (add_to_cart demo_catalog "s1" "A" 3 demo_world)) /\
  carts_ok (snd (remove_from_cart "s1" "A" demo_world)) /\
  carts_ok (snd (update_cart_quantity demo_catalog "s1" "A" 3 demo_world)) /\
  carts_ok (snd (view_cart "s1" demo_world)) /\
  carts_ok (clear_cart "s1" demo_world).
Proof.
  exact (cart_tools_keep_carts_ok demo_catalog "s1" "A" 3 demo_world demo_world_carts_ok).
Defined.

Lemma cart_of_save (session_id : string) (cart : CartSummary.t) (w : World) :
  cart_of session_id (_save_cart session_id cart w) = cart.
Proof.
  unfold cart_of, _get_cart, _save_cart; cbn [_carts set_carts].
  now rewrite lookup_insert_eq.
Qed.

Lemma cart_of_get_cart (session_id : string) (w : World) :
  cart_of session_id (snd (_get_cart session_id w)) = fst (_get_cart session_id w).
Proof.
  unfold cart_of, _get_cart.
  destruct (_carts w !! session_id) as [cart |] eqn:Hcart; cbn [fst snd].
  - now rewrite Hcart.
  - cbn [_carts set_carts]. now rewrite lookup_insert_eq.
Qed.

(** X25: add_to_cart either adds exactly the requested units of the
    product or leaves the lines of the cart as they were.  When it
    answers added or updated, the product is an active row of the
    catalogue, the quantity asked for is positive, the cart holds that
    many more units of the product, never more than the stock, and the
    units of every other product are unchanged.  With any other answer
    the lines of the cart are untouched. *)
Theorem add_to_cart_units (catalog_sheet : list Product.t) (session_id product_sku : string)
    (quantity : Z) (w : World) :
  let result := fst (add_to_cart catalog_sheet session_id product_sku quantity w) in
  let cart := cart_of session_id w in
  let cart' :=
    cart_of session_id (snd (add_to_cart catalog_sheet session_id product_sku quantity w)) in
  (Py.status result = "added" \/ Py.status result = "updated" ->
   exists product : Product.t,
     get_product_by_sku catalog_sheet product_sku = Some product /\
     Product.active product = true /\
     (0 < quantity)%Z /\
     units_of product_sku cart' = (units_of product_sku cart + quantity)%Z /\
     (units_of product_sku cart' <= Product.stock product)%Z /\
     forall other : string,
       other <> product_sku -> units_of other cart' = units_of other cart) /\
  (Py.status result <> "added" -> Py.status result <> "updated" ->
   CartSummary.items cart' = CartSummary.items cart).
Proof.
  cbv zeta. unfold add_to_cart.
  destruct (Z.leb_spec quantity 0) as [Hq | Hq].
  { split; [intros [H | H]; vm_compute in H; discriminate | reflexivity]. }
  destruct (get_product_by_sku catalog_sheet product_sku) as [product |].
  2: { split; [intros [H | H]; vm_compute in H; discriminate | reflexivity]. }
  destruct (Product.active product) eqn:Hactive; cbn [negb].
  2: { split; [intros [H | H]; vm_compute in H; discriminate | reflexivity]. }
  pose proof (cart_of_get_cart session_id w) as Hcart.
  change (cart_of session_id w) with (fst (_get_cart session_id w)).
  destruct (_get_cart session_id w) as [cart w1]; cbn [fst snd] in *.
  destruct (find_item product_sku (CartSummary.items cart)) as [[idx item] |] eqn:Hfind.
  - destruct (Z.ltb_spec (Product.stock product) (CartItem.quantity item + quantity))
      as [Hstock | Hstock]; cbn [fst snd].
    { split; [intros [H | H]; vm_compute in H; discriminate | now rewrite Hcart]. }
    destruct (CartItem.valid _) eqn:Hvalid; cbn [negb fst snd].
    2: { split; [intros [H | H]; vm_compute in H; discriminate | now rewrite Hcart]. }
    rewrite cart_of_save. split.
    2: { intros _ H. exfalso. now apply H. }
    intros _. exists product.
    destruct (find_item_Some _ _ _ _ Hfind) as [Hidx Hsku].
    unfold units_of; cbn [CartSummary.items].
    erewrite find_item_insert_same; [| exact Hfind | reflexivity].
    rewrite Hfind. cbn [CartItem.quantity].
    repeat (split; [first [reflexivity | assumption | lia] |]).
    intros other Hne.
    rewrite (find_item_insert_other other _ idx item); [reflexivity | exact Hidx | | ].
    + now rewrite Hsku.
    + congruence.
  - destruct (Z.ltb_spec (Product.stock product) (0 + quantity)) as [Hstock | Hstock];
      cbn [fst snd].
    { split; [intros [H | H]; vm_compute in H; discriminate | now rewrite Hcart]. }
    destruct (CartItem.valid _) eqn:Hvalid; cbn [negb fst snd].
    2: { split; [intros [H | H]; vm_compute in H; discriminate | now rewrite Hcart]. }
    rewrite cart_of_save. split.
    2: { intros H. exfalso. now apply H. }
    intros _. exists product.
    unfold units_of; cbn [CartSummary.items].
    rewrite (find_item_snoc _ _ _ Hfind). unfold has_sku.
    cbn [CartItem.product_sku]. rewrite String.eqb_refl, Hfind. cbn [CartItem.quantity].
    repeat (split; [first [reflexivity | assumption | lia] |]).
    intros other Hne. rewrite find_item_snoc_other; [reflexivity |].
    cbn [CartItem.product_sku]. congruence.
Qed.

Lemma add_to_cart_units_witness :
  units_of "A" (cart_of "s1" (snd (add_to_cart demo_catalog "s1" "A" 3 demo_world)))
  = (units_of "A" (cart_of "s1" demo_world) + 3)%Z /\
  CartSummary.items (cart_of "s1" (snd (add_to_cart demo_catalog "s1" "A" 4 demo_world)))
  = CartSummary.items (cart_of "s1" demo_world).
Proof.
  split.
  - destruct (proj1 (add_to_cart_units demo_catalog "s1" "A" 3 demo_world))
      as (product & _ & _ & _ & Hunits & _); [right; vm_compute; reflexivity |].
    exact Hunits.
  - apply (proj2 (add_to_cart_units demo_catalog "s1" "A" 4 demo_world));
      vm_compute; discriminate.
Defined.

(** X26: removing a product right after add_to_cart has added it as a
    new line gives back the lines the cart had: remove_from_cart answers
    removed and the cart of the session holds exactly the earlier lines,
    in the earlier order. *)
Theorem add_then_remove (catalog_sheet : list Product.t) (session_id product_sku : string)
    (quantity : Z) (w : World) :
  Py.status (fst (add_to_cart catalog_sheet session_id product_sku quantity w)) = "added" ->
  let w1 := snd (add_to_cart catalog_sheet session_id product_sku quantity w) in
  Py.status (fst (remove_from_cart session_id product_sku w1)) = "removed" /\
  CartSummary.items (cart_of session_id (snd (remove_from_cart session_id product_sku w1)))
  = CartSummary.items (cart_of session_id w).
Proof.
  cbv zeta. unfold add_to_cart.
  destruct (quantity <=? 0)%Z; [intros H; vm_compute in H; discriminate |].
  destruct (get_product_by_sku catalog_sheet product_sku) as [product |];
    [| intros H; vm_compute in H; discriminate].
  destruct (negb (Product.active product)); [intros H; vm_compute in H; discriminate |].
  change (cart_of session_id w) with (fst (_get_cart session_id w)).
  destruct (_get_cart session_id w) as [cart w1]; cbn [fst snd].
  destruct (find_item product_sku (CartSummary.items cart)) as [[idx item] |] eqn:Hfind.
  - destruct (_ <? _)%Z; [intros H; vm_compute in H; discriminate |].
    destruct (negb _); intros H; vm_compute in H; discriminate.
  - destruct (_ <? _)%Z; [intros H; vm_compute in H; discriminate |].
    destruct (negb _); [intros H; vm_compute in H; discriminate |].
    intros _. cbn [snd]. unfold remove_from_cart, _get_cart, _save_cart.
    cbn [_carts set_carts]. rewrite lookup_insert_eq. cbn [CartSummary.items].
    rewrite (find_item_snoc _ _ _ Hfind). unfold has_sku.
    cbn [CartItem.product_sku]. rewrite String.eqb_refl. cbn [fst snd].
    split; [reflexivity |].
    unfold cart_of, _get_cart. cbn [_carts set_carts]. rewrite lookup_insert_eq.
    cbn [fst CartSummary.items].
    rewrite delete_middle. apply app_nil_r.
Qed.

Lemma add_then_remove_witness :
  CartSummary.items
    (cart_of "s1"
       (snd (remove_from_cart "s1" "B" (snd (add_to_cart demo_catalog "s1" "B" 2 demo_world)))))
  = CartSummary.items (cart_of "s1" demo_world).
Proof.
  apply (proj2 (add_then_remove demo_catalog "s1" "B" 2 demo_world eq_refl)).
Defined.

(** X27: update_cart_quantity sets the units of a line.  When it
    answers updated, the quantity asked for is positive, the cart holds
    exactly that many units of the product, no more than the stock of
    the product if the catalogue still lists it (a product that has left
    the catalogue is not checked), and the units of every other product
    are unchanged; asked for zero or fewer units it is
    remove_from_cart. *)
Theorem update_cart_quantity_units (catalog_sheet : list Product.t)
    (session_id product_sku : string) (new_quantity : Z) (w : World) :
  let result :=
    fst (update_cart_quantity catalog_sheet session_id product_sku new_quantity w) in
  let cart := cart_of session_id w in
  let cart' :=
    cart_of session_id
      (snd (update_cart_quantity catalog_sheet session_id product_sku new_quantity w)) in
  ((new_quantity <= 0)%Z ->
   update_cart_quantity catalog_sheet session_id product_sku new_quantity w
   = remove_from_cart session_id product_sku w) /\
  ((0 < new_quantity)%Z ->
   Py.status result = "updated" ->
   units_of product_sku cart' = new_quantity /\
   (forall product : Product.t,
      get_product_by_sku catalog_sheet product_sku = Some product ->
      (new_quantity <= Product.stock product)%Z) /\
   forall other : string,
     other <> product_sku -> units_of other cart' = units_of other cart).
Proof.
  cbv zeta. unfold update_cart_quantity. split.
  - intros Hq. now destruct (Z.leb_spec new_quantity 0) as [Hle | Hgt]; [| lia].
  - intros Hq. destruct (Z.leb_spec new_quantity 0) as [Hle | Hgt]; [lia |].
    change (cart_of session_id w) with (fst (_get_cart session_id w)).
    destruct (_get_cart session_id w) as [cart w1]; cbn [fst snd].
    destruct (find_item product_sku (CartSummary.items cart)) as [[idx item] |] eqn:Hfind;
      [| intros H; vm_compute in H; discriminate].
    destruct (get_product_by_sku catalog_sheet product_sku) as [product |].
    + destruct (Z.ltb_spec (Product.stock product) new_quantity) as [Hstock | Hstock];
        [intros H; vm_compute in H; discriminate |].
      destruct (negb _); [intros H; vm_compute in H; discriminate |].
      intros _. cbn [snd]. rewrite cart_of_save.
      destruct (find_item_Some _ _ _ _ Hfind) as [Hidx Hsku].
      unfold units_of; cbn [CartSummary.items].
      erewrite find_item_insert_same; [| exact Hfind | exact Hsku].
      split; [reflexivity |]. split; [now intros ? [= <-] |].
      intros other Hne.
      rewrite (find_item_insert_other other _ idx item);
        [reflexivity | exact Hidx | reflexivity | congruence].
    + destruct (negb _); [intros H; vm_compute in H; discriminate |].
      intros _. cbn [snd]. rewrite cart_of_save.
      destruct (find_item_Some _ _ _ _ Hfind) as [Hidx Hsku].
      unfold units_of; cbn [CartSummary.items].
      erewrite find_item_insert_same; [| exact Hfind | exact Hsku].
      split; [reflexivity |]. split; [discriminate |].
      intros other Hne.
      rewrite (find_item_insert_other other _ idx item);
        [reflexivity | exact Hidx | reflexivity | congruence].
Qed.

Lemma update_cart_quantity_units_witness :
  units_of "A" (cart_of "s1" (snd (update_cart_quantity demo_catalog "s1" "A" 5 demo_world)))
  = 5%Z.
Proof.
  apply (proj2 (update_cart_quantity_units demo_catalog "s1" "A" 5 demo_world)).
  - reflexivity.
  - vm_compute; reflexivity.
Defined.

(** ** The audit log *)

Lemma handle_events_frame (env : Env) (c : Call) (w : World) :
  exists added : list Event.t,
    events_sheet (snd (handle env c w)) = events_sheet w ++ added /\
    (List.length added <= 1)%nat.
Proof.
  destruct c; unfold_operations; split_cases; expose_stores.
  all: first
    [ exists []; split; [now rewrite app_nil_r | cbn; lia]
    | eexists [_]; split; [reflexivity | cbn; lia] ].
Qed.

(** X28: the events worksheet is append-only: no sequence of calls
    removes or rewrites an event that was logged, and each call logs at
    most one event. *)
Theorem events_are_append_only (calls : list (Env * Call)) (w : World) :
  exists added : list Event.t,
    events_sheet (run calls w) = events_sheet w ++ added /\
    (List.length added <= List.length calls)%nat.
Proof.
  revert w. induction calls as [| [env c] rest IH]; intros w.
  - exists []. split; [now rewrite app_nil_r | reflexivity].
  - cbn [run].
    destruct (IH (snd (handle env c w))) as (later & Hlater & Hcount).
    destruct (handle_events_frame env c w) as (added & Hadded & Hone).
    exists (added ++ later). split.
    + now rewrite Hlater, Hadded, app_assoc.
    + rewrite length_app. cbn [List.length]. lia.
Qed.

(** ** Effects of a cancellation *)

(** X29: when cancel_order answers cancelled it logs exactly one
    ORDER_CANCELLED event, whose payload records the status the order
    had; without the notification flag it sends nothing, with the flag
    it hands exactly one status message for the phone of the customer,
    and the notified field of the answer tells whether the messaging
    service accepted it; no request goes to the processor and the carts
    and the vault are untouched. *)
Theorem cancel_order_effects (env : Env) (w : World) (order_id : string)
    (notify_customer : bool) (order : Order.t) :
  get_order_by_id order_id w = Some order ->
  let result := fst (cancel_order env order_id notify_customer w) in
  let w' := snd (cancel_order env order_id notify_customer w) in
  Py.status result = "cancelled" ->
  (exists event : Event.t,
     events_sheet w' = events_sheet w ++ [event] /\
     Event.event_type event = EventType.ORDER_CANCELLED /\
     Event.order_id event = order_id /\
     Py.get "old_status" (Event.payload event)
     = Some (Py.Str (OrderStatus.value (Order.status order)))) /\
  outbox w'
  = (if notify_customer
     then outbox w ++
          [OrderStatusToCustomer (CustomerData.whatsapp_e164 (Order.customer order))
             order_id]
     else outbox w) /\
  Py.get "notified" result
  = Some (Py.Bool
            (notify_customer
             && String.eqb
                  (twilio_status env (CustomerData.whatsapp_e164 (Order.customer order)))
                  "sent")) /\
  mp_requests w' = mp_requests w /\
  _carts w' = _carts w /\
  _token_store w' = _token_store w.
Proof.
  intros Hget. cbv zeta. unfold cancel_order. rewrite Hget.
  destruct (OrderStatus.eqb (Order.status order) OrderStatus.CANCELLED);
    [intros H; vm_compute in H; discriminate |].
  destruct (existsb _ non_cancellable); [intros H; vm_compute in H; discriminate |].
  unfold sheets_update_order_status.
  destruct (update_first_row _ _ (orders_sheet w)) as [rows |]; cbn [negb fst snd];
    [| intros H; vm_compute in H; discriminate].
  intros _. unfold send_order_status_to_customer, log_event.
  destruct notify_customer; cbn [fst snd andb]; expose_stores.
  - split; [eexists; repeat (split; [reflexivity |]); reflexivity |].
    unfold Py.status. cbn [Py.get String.eqb Ascii.eqb Bool.eqb].
    repeat split; reflexivity.
  - split; [eexists; repeat (split; [reflexivity |]); reflexivity |].
    repeat split; reflexivity.
Qed.

Lemma cancel_order_effects_witness :
  outbox (snd (cancel_order demo_env "ORD-0000002A" true demo_world_ordered))
  = outbox demo_world_ordered ++ [OrderStatusToCustomer "+5491155551234" "ORD-0000002A"].
Proof.
  destruct (get_order_by_id "ORD-0000002A" demo_world_ordered) as [order |] eqn:Hget;
    [| vm_compute in Hget; discriminate].
  destruct (cancel_order_effects demo_env demo_world_ordered "ORD-0000002A" true order Hget)
    as (_ & Houtbox & _); [vm_compute; reflexivity |].
  rewrite Houtbox. vm_compute in Hget. injection Hget as <-. reflexivity.
Defined.

(** ** Effects of a payment link *)

(** X30: when create_payment_link answers success, the order is in
    state PAYMENT_PENDING_MP with payment method MERCADOPAGO, whatever
    its state was before (a link can be created for a paid, cancelled or
    delivered order, and puts it back to pending); it belongs to the
    merchant of the call and carries the reference DTV|vet_id|order_id,
    which is the reference returned to the caller and the one sent to
    the processor with the preference. *)
Theorem create_payment_link_success (env : Env) (w : World) (vet_id order_id : string) :
  let result := fst (create_payment_link env vet_id order_id w) in
  let w' := snd (create_payment_link env vet_id order_id w) in
  let reference := ("DTV|" ++ vet_id ++ "|" ++ order_id)%string in
  Py.status result = "success" ->
  (exists order : Order.t,
     get_order_by_id order_id w' = Some order /\
     Order.vet_id order = vet_id /\
     Order.status order = OrderStatus.PAYMENT_PENDING_MP /\
     Order.payment_method order = Some PaymentMethod.MERCADOPAGO /\
     Order.external_reference order = Some reference) /\
  Py.get "external_reference" result = Some (Py.Str reference) /\
  exists access_token : string,
    last (mp_requests w') = Some (CreatePreferenceRequest access_token reference).
Proof.
  cbv zeta. unfold create_payment_link.
  pose proof (ensure_valid_mp_token_orders env vet_id w) as Horders.
  destruct (ensure_valid_mp_token env vet_id w) as [token_result w1].
  cbn [fst snd] in *.
  destruct (negb _); [destruct (String.eqb _ _); intros H; vm_compute in H; discriminate |].
  destruct (get_order_by_id order_id w1) as [order |] eqn:Hget;
    [| intros H; vm_compute in H; discriminate].
  destruct (String.eqb_spec (Order.vet_id order) vet_id) as [Hvet | _]; cbn [negb];
    [| intros H; vm_compute in H; discriminate].
  unfold _create_mp_preference.
  destruct (post_preference env _ order _) as [preference |]; cbn [fst snd];
    [| intros H; vm_compute in H; discriminate].
  destruct (get_order_by_id_row _ _ _ Hget) as (row & Hfind & ->).
  unfold update_order_preference. cbn [orders_sheet sent_request].
  destruct (update_first_row_by_id order_id
              (Order.with_preference (Preference.id preference)
                 ("DTV|" ++ vet_id ++ "|" ++ order_id) (utcnow env))
              (orders_sheet w1) row (fun _ => eq_refl) Hfind)
    as (rows' & Hupd & Hfind').
  rewrite Hupd. cbn [fst snd]. intros _. split; [| split].
  - exists (_parse_order_row
              (Order.with_preference (Preference.id preference)
                 ("DTV|" ++ vet_id ++ "|" ++ order_id) (utcnow env) row)).
    unfold get_order_by_id. cbn [orders_sheet set_orders]. rewrite Hfind'.
    split; [reflexivity |].
    rewrite parse_order_row_vet_id, parse_order_row_status.
    destruct (parse_order_row_cells
                (Order.with_preference (Preference.id preference)
                   ("DTV|" ++ vet_id ++ "|" ++ order_id) (utcnow env) row))
      as (_ & _ & _ & _ & _ & -> & _ & _ & _ & -> & _).
    rewrite parse_order_row_vet_id in Hvet.
    split; [exact Hvet |]. repeat (split; [reflexivity |]). reflexivity.
  - reflexivity.
  - eexists. cbn [mp_requests set_orders sent_request]. now rewrite last_snoc.
Qed.

Lemma create_payment_link_success_witness :
  Py.get "external_reference"
    (fst (create_payment_link demo_env "VET001" "ORD-0000002A" demo_world_connected))
  = Some (Py.Str "DTV|VET001|ORD-0000002A").
Proof.
  apply (create_payment_link_success demo_env demo_world_connected "VET001" "ORD-0000002A").
  vm_compute; reflexivity.
Defined.
